(** * star-tracker-data-analysis: the Astrometry.net client and the
      constellation geometry, embedded from the Python sources

    Part I holds the embedding (one module per source file), Part II the
    lemmas and the theorems about it.

    Conventions of the embedding
    - A Python [str] that is inspected codepoint by codepoint (star names in
      [constellation_data.py]) is a list of Unicode codepoints, [list N].
      Protocol strings of the client (service names, JSON keys, bodies) are
      [string].
    - A JSON-shaped Python value is a [pyval]; a [dict] keeps insertion order
      and is an association list with unique keys.
    - Stateful code is a function on an explicit [world]; a Python exception
      is the [Raise] outcome of a computation.
    - numpy [float64] arithmetic of [annotate_fits.py] is idealised as
      arithmetic over the real numbers; [print] is not modelled. *)

From Stdlib Require Import List ZArith NArith Bool String Ascii Lia.
From Stdlib Require Import Reals Lra.
From stdpp Require Import base option gmap strings pretty.

Import ListNotations.
Local Open Scope list_scope.
Set Warnings "-register-all".

(* ===================================================================== *)
(** * Part I. The embedding                                               *)
(* ===================================================================== *)

(** ** Python [str] as a sequence of codepoints *)

Module PyStr.

Abbreviation codepoint := N.
Abbreviation str := (list N).

(** An ASCII literal of the source as a [str]. *)
Definition lit (s : string) : str :=
  List.map N_of_ascii (list_ascii_of_string s).

(** [s.startswith(p)] *)
Fixpoint startswith (p s : str) : bool :=
  match p, s with
  | [], _ => true
  | _ :: _, [] => false
  | a :: p', b :: s' => N.eqb a b && startswith p' s'
  end.

(** [p in s]: substring containment, case-sensitive, unanchored. *)
Fixpoint contains (p s : str) : bool :=
  startswith p s ||
  match s with
  | [] => false
  | _ :: t => contains p t
  end.

(** [s.replace(old, new)] for a non-empty [old]: scan from the left; on an
    occurrence of [old] emit [new] and skip the occurrence ([skip] counts
    the codepoints of the occurrence still to be dropped). *)
Fixpoint replace_from (old new : str) (skip : nat) (s : str) : str :=
  match s with
  | [] => []
  | c :: t =>
      match skip with
      | S k => replace_from old new k t
      | O =>
          if startswith old s
          then new ++ replace_from old new (Nat.pred (List.length old)) t
          else c :: replace_from old new O t
      end
  end.

(** [s.replace(old, new)]; with an empty [old] Python inserts [new] before
    every codepoint and at the end. *)
Definition replace (old new s : str) : str :=
  match old with
  | [] => new ++ flat_map (fun c => c :: new) s
  | _ :: _ => replace_from old new O s
  end.

(** [c.isspace()], the separator set of [str.split()] without arguments. *)
Definition isspace (c : codepoint) : bool :=
  ((9 <=? c) && (c <=? 13) || (28 <=? c) && (c <=? 32) ||
   (c =? 133) || (c =? 160) || (c =? 5760) ||
   (8192 <=? c) && (c <=? 8202) ||
   (c =? 8232) || (c =? 8233) || (c =? 8239) || (c =? 8287) ||
   (c =? 12288))%N.

(** [s.split()]: the maximal runs of non-space codepoints, in order. *)
Fixpoint split (s : str) : list str :=
  match s with
  | [] => []
  | c :: t =>
      if isspace c then split t
      else
        match t with
        | [] => [[c]]
        | c' :: _ =>
            if isspace c' then [c] :: split t
            else
              match split t with
              | w :: ws => (c :: w) :: ws
              | [] => [[c]]
              end
        end
  end.

(** [sep.join(ws)] *)
Fixpoint join (sep : str) (ws : list str) : str :=
  match ws with
  | [] => []
  | [w] => w
  | w :: ws' => w ++ sep ++ join sep ws'
  end.

End PyStr.

(** ** constellation_data.py *)

Module ConstellationData.
Import PyStr.

(** [GREEK_MAP], in the insertion order that [dict.items()] yields. *)
Definition GREEK_MAP : list (str * str) :=
  [ ([945%N], lit "Alpha");   ([946%N], lit "Beta");
    ([947%N], lit "Gamma");   ([948%N], lit "Delta");
    ([949%N], lit "Epsilon"); ([950%N], lit "Zeta");
    ([951%N], lit "Eta");     ([952%N], lit "Theta");
    ([953%N], lit "Iota");    ([954%N], lit "Kappa");
    ([955%N], lit "Lambda");  ([956%N], lit "Mu");
    ([957%N], lit "Nu");      ([958%N], lit "Xi");
    ([959%N], lit "Omicron"); ([960%N], lit "Pi");
    ([961%N], lit "Rho");     ([963%N], lit "Sigma");
    ([964%N], lit "Tau");     ([965%N], lit "Upsilon");
    ([966%N], lit "Phi");     ([967%N], lit "Chi");
    ([968%N], lit "Psi");     ([969%N], lit "Omega") ].

(** The loop [for greek, english in GREEK_MAP.items(): name = name.replace(greek, english)]. *)
Definition replace_greek (table : list (str * str)) (name : str) : str :=
  fold_left (fun acc ge => replace (fst ge) (snd ge) acc) table name.

Definition normalize_name (name : str) : str :=
  let name := replace_greek GREEK_MAP name in
  join (lit " ") (split name).

Arguments replace_greek : simpl never.
Arguments normalize_name : simpl never.


(** One entry of the annotation list of Astrometry.net, over the type of
    its numbers; [names] is [None] when the key is missing
    ([star.get('names', [])] then gives []). *)
Record annotation (num : Type) := {
  pixelx : num;
  pixely : num;
  names : option (list str);
  ann_type : option str;
  radius : option num
}.
Arguments pixelx {num} _.
Arguments pixely {num} _.
Arguments names {num} _.
Arguments ann_type {num} _.
Arguments radius {num} _.

Fixpoint str_eqb (a b : str) : bool :=
  match a, b with
  | [], [] => true
  | x :: a', y :: b' => N.eqb x y && str_eqb a' b'
  | _, _ => false
  end.

(** [d.get(key)] on a dict with [str] keys. *)
Fixpoint dict_get {V : Type} (key : str) (d : list (str * V)) : option V :=
  match d with
  | [] => None
  | (k, v) :: d' => if str_eqb key k then Some v else dict_get key d'
  end.

Definition STAR_DISTANCES_LY : list (str * R) :=
  [ (lit "Alpha Ori", 642.5%R);  (lit "Beta Ori", 863.0%R);
    (lit "Gamma Ori", 250.0%R);  (lit "Delta Ori", 1200.0%R);
    (lit "Epsilon Ori", 2000.0%R); (lit "Zeta Ori", 1260.0%R);
    (lit "Kappa Ori", 724.0%R);  (lit "Lambda Ori", 1100.0%R);
    (lit "Iota Ori", 1300.0%R);  (lit "Eta Ori", 900.0%R);
    (lit "Mu Ori", 150.0%R);     (lit "Xi Ori", 1200.0%R);
    (lit "Nu Ori", 500.0%R);     (lit "Pi3 Ori", 26.0%R);
    (lit "Pi2 Ori", 220.0%R);    (lit "Pi1 Ori", 120.0%R);
    (lit "Pi4 Ori", 1000.0%R);   (lit "Pi5 Ori", 1300.0%R);
    (lit "Pi6 Ori", 900.0%R);
    (lit "Alpha Lep", 2200.0%R); (lit "Beta Lep", 160.0%R);
    (lit "Epsilon Lep", 213.0%R); (lit "Mu Lep", 186.0%R);
    (lit "Zeta Lep", 70.0%R);    (lit "Gamma Lep", 29.0%R);
    (lit "Delta Lep", 114.0%R);
    (lit "Beta Eri", 89.0%R);    (lit "Lambda Eri", 58.0%R);
    (lit "Alpha UMa", 123.0%R);  (lit "Beta UMa", 79.0%R);
    (lit "Gamma UMa", 83.0%R);   (lit "Delta UMa", 80.0%R);
    (lit "Epsilon UMa", 82.0%R); (lit "Zeta UMa", 78.0%R);
    (lit "Eta UMa", 103.0%R) ].

Definition CONSTELLATION_LINES : list (str * list (str * str)) :=
  [ (lit "Ori",
     [ (lit "Alpha Ori", lit "Lambda Ori"); (lit "Lambda Ori", lit "Gamma Ori");
       (lit "Gamma Ori", lit "Delta Ori");  (lit "Delta Ori", lit "Epsilon Ori");
       (lit "Epsilon Ori", lit "Zeta Ori"); (lit "Zeta Ori", lit "Kappa Ori");
       (lit "Kappa Ori", lit "Beta Ori");   (lit "Beta Ori", lit "Eta Ori");
       (lit "Eta Ori", lit "Delta Ori");
       (lit "Alpha Ori", lit "Mu Ori");     (lit "Mu Ori", lit "Xi Ori");
       (lit "Xi Ori", lit "Nu Ori");
       (lit "Gamma Ori", lit "Pi3 Ori");    (lit "Pi3 Ori", lit "Pi2 Ori");
       (lit "Pi2 Ori", lit "Pi1 Ori");      (lit "Pi3 Ori", lit "Pi4 Ori");
       (lit "Pi4 Ori", lit "Pi5 Ori");      (lit "Pi5 Ori", lit "Pi6 Ori") ]);
    (lit "Lep",
     [ (lit "Alpha Lep", lit "Beta Lep");   (lit "Beta Lep", lit "Epsilon Lep");
       (lit "Epsilon Lep", lit "Mu Lep");   (lit "Mu Lep", lit "Zeta Lep");
       (lit "Zeta Lep", lit "Gamma Lep");   (lit "Gamma Lep", lit "Delta Lep");
       (lit "Delta Lep", lit "Alpha Lep") ]);
    (lit "Eri", [ (lit "Beta Eri", lit "Lambda Eri") ]);
    (lit "Ursa Major",
     [ (lit "Alpha UMa", lit "Beta UMa");   (lit "Beta UMa", lit "Gamma UMa");
       (lit "Gamma UMa", lit "Delta UMa");  (lit "Delta UMa", lit "Epsilon UMa");
       (lit "Epsilon UMa", lit "Zeta UMa"); (lit "Zeta UMa", lit "Eta UMa") ]) ].

(** The names of a star, [star.get('names', [])]. *)
Definition names_of {num : Type} (star : annotation num) : list str :=
  match names star with
  | Some l => l
  | None => []
  end.

(** [find_star_in_annotations]: the first annotation (in list order) one of
    whose names, once normalized, contains the pattern. *)
Fixpoint find_star_in_annotations {num : Type} (star_name_pattern : str)
    (annotations : list (annotation num)) : option (annotation num) :=
  match annotations with
  | [] => None
  | star :: rest =>
      if existsb
           (fun name =>
              contains star_name_pattern (normalize_name name))
           (names_of star)
      then Some star
      else find_star_in_annotations star_name_pattern rest
  end.

End ConstellationData.

(** ** annotate_fits.py: the constellation-line part of [annotate_image] *)

Module AnnotateFits.
Import PyStr ConstellationData.
Local Open Scope R_scope.

(** Truth value of a float: every float but zero is true. *)
Definition float_truthy (x : R) : bool :=
  if Req_EM_T x 0 then false else true.

(** [np.radians] *)
Definition radians (deg : R) : R := deg * PI / 180.

(** [np.sqrt((x2 - x1)**2 + (y2 - y1)**2)] *)
Definition dist_px (x1 y1 x2 y2 : R) : R :=
  sqrt ((x2 - x1) ^ 2 + (y2 - y1) ^ 2).

(** [np.sqrt(d1**2 + d2**2 - 2*d1*d2*np.cos(theta_rad))] with
    [theta_rad = np.radians(dist_deg)]. *)
Definition dist_ly (d1 d2 dist_deg : R) : R :=
  let theta_rad := radians dist_deg in
  sqrt (d1 ^ 2 + d2 ^ 2 - 2 * d1 * d2 * cos theta_rad).

(** What is drawn for one constellation line: the segment and, when a
    pixel scale is known, the label at its midpoint. The label carries the
    numbers that the source formats into its text. *)
Record label := {
  label_x : R;
  label_y : R;
  label_deg : R;
  label_ly : option R
}.

Record segment := {
  seg_x1 : R; seg_y1 : R; seg_x2 : R; seg_y2 : R;
  seg_label : option label
}.

(** The body of [for star1_pat, star2_pat in lines]. [None]: nothing is
    drawn for the pair. A star that was found is a dict with the key names,
    so it is a true value in [if star1 and star2]. *)
Definition draw_line (deg_per_pixel : option R)
    (annotations : list (annotation R)) (star1_pat star2_pat : str)
    : option segment :=
  match find_star_in_annotations star1_pat annotations,
        find_star_in_annotations star2_pat annotations with
  | Some star1, Some star2 =>
      let x1 := pixelx star1 in let y1 := pixely star1 in
      let x2 := pixelx star2 in let y2 := pixely star2 in
      Some {| seg_x1 := x1; seg_y1 := y1; seg_x2 := x2; seg_y2 := y2;
              seg_label :=
                match deg_per_pixel with
                | Some scale =>
                    if float_truthy scale then
                      let dist_deg := dist_px x1 y1 x2 y2 * scale in
                      let d1 := dict_get star1_pat STAR_DISTANCES_LY in
                      let d2 := dict_get star2_pat STAR_DISTANCES_LY in
                      Some {| label_x := (x1 + x2) / 2;
                              label_y := (y1 + y2) / 2;
                              label_deg := dist_deg;
                              label_ly :=
                                match d1, d2 with
                                | Some v1, Some v2 =>
                                    if float_truthy v1 && float_truthy v2
                                    then Some (dist_ly v1 v2 dist_deg)
                                    else None
                                | _, _ => None
                                end |}
                    else None
                | None => None
                end |}
  | _, _ => None
  end.

End AnnotateFits.

(** ** JSON-shaped Python values and the runtime the scripts run on *)

Module Py.
Local Open Scope string_scope.

Inductive pyval :=
| PNone
| PBool (b : bool)
| PInt (z : Z)
| PStr (s : string)
| PList (l : list pyval)
| PDict (d : list (string * pyval)).

Abbreviation pydict := (list (string * pyval)).

(** [bool(v)] *)
Definition truthy (v : pyval) : bool :=
  match v with
  | PNone => false
  | PBool b => b
  | PInt z => negb (Z.eqb z 0)
  | PStr s => negb (String.eqb s EmptyString)
  | PList l => negb (Nat.eqb (List.length l) 0)
  | PDict d => negb (Nat.eqb (List.length d) 0)
  end.

(** [v is None] *)
Definition is_none (v : pyval) : bool :=
  match v with
  | PNone => true
  | _ => false
  end.

(** [v == 'literal'] *)
Definition eq_str (v : pyval) (s : string) : bool :=
  match v with
  | PStr s' => String.eqb s' s
  | _ => false
  end.

Fixpoint dict_lookup (key : string) (d : pydict) : option pyval :=
  match d with
  | [] => None
  | (k, v) :: d' => if String.eqb key k then Some v else dict_lookup key d'
  end.

(** [d[key] = v]: an existing key keeps its position, a new one is appended. *)
Fixpoint dict_store (key : string) (v : pyval) (d : pydict) : pydict :=
  match d with
  | [] => [(key, v)]
  | (k, v') :: d' =>
      if String.eqb key k then (k, v) :: d' else (k, v') :: dict_store key v d'
  end.

Inductive exn :=
| HTTPError (code : Z)
| URLError
| ConnectionError
| JSONDecodeError
| AttributeError
| TypeError
| KeyError
| IndexError
| RequestError (msg : string)
| MalformedResponse
| SystemExit (code : Z).

(** How a call ends. [Pending] is not a Python outcome: it marks a polling
    loop that is still running when the modelled number of rounds is used
    up. *)
Inductive outcome (A : Type) :=
| Return (a : A)
| Raise (e : exn)
| Pending.
Arguments Return {A} a.
Arguments Raise {A} e.
Arguments Pending {A}.

(** [v.get(key, default)]: only a dict has the method. *)
Definition get (v : pyval) (key : string) (default : pyval) : outcome pyval :=
  match v with
  | PDict d =>
      match dict_lookup key d with
      | Some x => Return x
      | None => Return default
      end
  | _ => Raise AttributeError
  end.

(** [len(v)] *)
Definition len (v : pyval) : outcome nat :=
  match v with
  | PList l => Return (List.length l)
  | PStr s => Return (String.length s)
  | PDict d => Return (List.length d)
  | _ => Raise TypeError
  end.

(** The items that [for j in v] runs through. *)
Definition items (v : pyval) : list pyval :=
  match v with
  | PList l => l
  | PStr s => List.map (fun a => PStr (String a EmptyString)) (list_ascii_of_string s)
  | PDict d => List.map (fun kv => PStr (fst kv)) d
  | _ => []
  end.

(** [v[0]] *)
Definition subscript0 (v : pyval) : outcome pyval :=
  match v with
  | PList (x :: _) => Return x
  | PList [] => Raise IndexError
  | PStr (String a _) => Return (PStr (String a EmptyString))
  | PStr EmptyString => Raise IndexError
  | PDict _ => Raise KeyError
  | _ => Raise TypeError
  end.

(** The library functions the scripts call and which are not part of the
    repository. [json_loads] is [None] where [json.loads] raises. *)
Class Library := {
  json_loads : string -> option pyval;
  json_dumps : pyval -> string;
  urlencode : list (string * string) -> string;
  str_of : pyval -> string
}.

End Py.

Module Runtime.
Import Py.
Local Open Scope string_scope.

(** What the server does with one HTTP exchange. *)
Inductive exchange :=
| Answer (code : Z) (body : string)
| Unreachable.

Record request := {
  req_url : string;
  req_headers : list (string * string);
  req_data : option string
}.

Definition loc := positive.

(** The state the scripts act on: dict objects passed by reference, the
    attribute [session] of the client instance, the files written, the
    requests sent so far, and the environment: the outcome of the n-th
    exchange, the digits drawn during it, and the seconds slept. *)
Record world := {
  heap : gmap loc pydict;
  session : pyval;
  files : gmap string string;
  sent : list request;
  net : nat -> exchange;
  rnd : nat -> string;
  slept : Z
}.

Definition with_heap (h : gmap loc pydict) (w : world) : world :=
  {| heap := h; session := session w; files := files w; sent := sent w;
     net := net w; rnd := rnd w; slept := slept w |}.

Definition with_session (s : pyval) (w : world) : world :=
  {| heap := heap w; session := s; files := files w; sent := sent w;
     net := net w; rnd := rnd w; slept := slept w |}.

Definition with_files (f : gmap string string) (w : world) : world :=
  {| heap := heap w; session := session w; files := f; sent := sent w;
     net := net w; rnd := rnd w; slept := slept w |}.

Definition with_sent (l : list request) (w : world) : world :=
  {| heap := heap w; session := session w; files := files w; sent := l;
     net := net w; rnd := rnd w; slept := slept w |}.

Definition with_slept (t : Z) (w : world) : world :=
  {| heap := heap w; session := session w; files := files w; sent := sent w;
     net := net w; rnd := rnd w; slept := t |}.

(** The dict object at a location; a location never written holds [{}]. *)
Definition load (l : loc) (w : world) : pydict :=
  match heap w !! l with
  | Some d => d
  | None => []
  end.

(** Computations: state passing with exceptions. *)
Definition M (A : Type) : Type := world -> outcome A * world.

Definition ret {A} (a : A) : M A := fun w => (Return a, w).

Definition raise {A} (e : exn) : M A := fun w => (Raise e, w).

Definition pending {A} : M A := fun w => (Pending, w).

Definition bind {A B} (m : M A) (k : A -> M B) : M B :=
  fun w =>
    match m w with
    | (Return a, w') => k a w'
    | (Raise e, w') => (Raise e, w')
    | (Pending, w') => (Pending, w')
    end.

Definition lift {A} (o : outcome A) : M A := fun w => (o, w).

(** [time.sleep(secs)] *)
Definition sleep (secs : Z) : M unit :=
  fun w => (Return tt, with_slept (slept w + secs)%Z w).

(** One exchange with the server: the request is logged and the
    environment decides the outcome. *)
Definition exchange_with (rq : request) : M exchange :=
  fun w => (Return (net w (List.length (sent w))), with_sent (sent w ++ [rq]) w).

(** [open(name, 'wb').write(txt)] *)
Definition write_file (name txt : string) : M unit :=
  fun w => (Return tt, with_files (<[name := txt]> (files w)) w).

(** A fresh dict object [{...}] *)
Definition new_dict (d : pydict) : M loc :=
  fun w =>
    let l := fresh (dom (heap w)) in
    (Return l, with_heap (<[l := d]> (heap w)) w).

End Runtime.

Declare Scope py_scope.
Delimit Scope py_scope with py.
Notation "'let*' x := c 'in' k" := (Runtime.bind c (fun x => k))
  (at level 10, x name, c at level 100, k at level 200) : py_scope.
Notation "'run' c 'then' k" := (Runtime.bind c (fun _ => k))
  (at level 10, c at level 100, k at level 200) : py_scope.

(** ** client.py *)

Module Client.
Import Py Runtime.
Local Open Scope string_scope.
Local Open Scope py_scope.

Section WithLibrary.
Context `{Library}.

Definition LF : string := String (ascii_of_nat 10) EmptyString.
Definition CRLF : string := String (ascii_of_nat 13) LF.
Definition DQ : string := String (ascii_of_nat 34) EmptyString.

(** [json2python]: every failure of [json.loads] is swallowed and [None]
    is returned. *)
Definition json2python (data : string) : pyval :=
  match json_loads data with
  | Some v => v
  | None => PNone
  end.

Definition python2json (args : pydict) : string := json_dumps (PDict args).

Definition default_url : string := "https://nova.astrometry.net/api/".

(** [Client.get_url]; the instance of [run_client] is built with
    [opt.server], which is [Client.default_url]. *)
Definition get_url (service : string) : string := default_url +:+ service.

(** The dict object that the default [args={}] of [send_request] denotes:
    it is created once, when the function is defined, and shared by every
    call that passes no [args]. *)
Definition default_args : loc := 1%positive.

(** The multipart body of a request that carries a file. *)
Definition multipart_body (boundary json : string) (file_args : string * string)
    : string :=
  let data_pre :=
    "--" +:+ boundary +:+ LF +:+
    "Content-Type: text/plain" +:+ CRLF +:+
    "MIME-Version: 1.0" +:+ CRLF +:+
    "Content-disposition: form-data; name=" +:+ DQ +:+ "request-json" +:+ DQ +:+ CRLF +:+
    CRLF +:+
    json +:+ LF +:+
    "--" +:+ boundary +:+ LF +:+
    "Content-Type: application/octet-stream" +:+ CRLF +:+
    "MIME-Version: 1.0" +:+ CRLF +:+
    "Content-disposition: form-data; name=" +:+ DQ +:+ "file" +:+ DQ +:+
      "; filename=" +:+ DQ +:+ fst file_args +:+ DQ +:+
    CRLF +:+
    CRLF in
  let data_post := LF +:+ "--" +:+ boundary +:+ "--" +:+ LF in
  data_pre +:+ snd file_args +:+ data_post.

(** [urlopen(request)]: [HTTPError] is raised for a status outside 2xx. *)
Inductive reply :=
| Opened (status : Z) (txt : string)
| HTTPFailure (code : Z) (txt : string)
| NoReply.

Definition http_reply (ex : exchange) : reply :=
  match ex with
  | Answer code body =>
      if ((200 <=? code) && (code <? 300))%Z
      then Opened code body
      else HTTPFailure code body
  | Unreachable => NoReply
  end.

Definition urlopen (rq : request) : M reply :=
  let* ex := exchange_with rq in
  ret (http_reply ex).

(** [if self.session is not None: args.update({'session': self.session})]:
    the dict object of the caller is updated in place. *)
Definition inject_session (args : loc) (w : world) : world :=
  if is_none (session w) then w
  else with_heap
         (<[args := dict_store "session" (session w) (load args w)]> (heap w)) w.

(** Headers and body of the request, with or without a file. *)
Definition encode (json : string) (file_args : option (string * string))
    (boundary_key : string) : list (string * string) * string :=
  match file_args with
  | Some fa =>
      let boundary := "===============" +:+ boundary_key +:+ "==" in
      ([("Content-Type",
         "multipart/form-data; boundary=" +:+ DQ +:+ boundary +:+ DQ)],
       multipart_body boundary json fa)
  | None => ([], urlencode [("request-json", json)])
  end.

(** The [try] block of [send_request] from the reply on, with its
    handler [except HTTPError]. *)
Definition handle_reply (f : reply) : M pyval :=
  match f with
  | Opened _ txt =>
      let result := json2python txt in
      let* stat := lift (get result "status" PNone) in
      if eq_str stat "error" then
        let* errstr := lift (get result "errormessage" (PStr "(none)")) in
        match errstr with
        | PStr e => raise (RequestError ("server error message: " +:+ e))
        | _ => raise TypeError
        end
      else ret result
  | HTTPFailure _ txt =>
      (* the body goes to err.html and the function ends without a
         return statement *)
      run write_file "err.html" txt then
      ret PNone
  | NoReply => raise URLError
  end.

Definition build_request (service : string) (args : loc)
    (file_args : option (string * string)) (w : world) : request :=
  let json := python2json (load args w) in
  let url := get_url service in
  let '(headers, data) := encode json file_args (rnd w (List.length (sent w))) in
  {| req_url := url; req_headers := headers; req_data := Some data |}.

(** [Client.send_request(service, args, file_args)]; [args] is the dict
    object the caller passed, by reference. *)
Definition send_request (service : string) (args : loc)
    (file_args : option (string * string)) : M pyval :=
  fun w0 =>
    let w1 := inject_session args w0 in
    let rq := build_request service args file_args w1 in
    (let* f := urlopen rq in
     handle_reply f) w1.

(** [Client.login] *)
Definition login (apikey : string) : M unit :=
  let* args := new_dict [("apikey", PStr apikey)] in
  let* result := send_request "login" args None in
  let* sess := lift (get result "session" PNone) in
  if negb (truthy sess) then raise (RequestError "no session in result")
  else fun w => (Return tt, with_session sess w).

(** [Client.sub_status] *)
Definition sub_status (sub_id : pyval) (justdict : bool) : M pyval :=
  let* result := send_request ("submissions/" +:+ str_of sub_id) default_args None in
  if justdict then ret result
  else lift (get result "status" PNone).

(** [Client.job_status] *)
Definition job_status (job_id : pyval) (justdict : bool) : M pyval :=
  let job := "jobs/" +:+ str_of job_id in
  let* result := send_request job default_args None in
  if justdict then ret result
  else
    let* stat := lift (get result "status" PNone) in
    run (if eq_str stat "success" then
           run send_request (job +:+ "/calibration") default_args None then
           run send_request (job +:+ "/tags") default_args None then
           run send_request (job +:+ "/machine_tags") default_args None then
           run send_request (job +:+ "/objects_in_field") default_args None then
           run send_request (job +:+ "/annotations") default_args None then
           run send_request (job +:+ "/info") default_args None then
           ret tt
         else ret tt) then
    ret stat.

(** [Client.annotate_data] *)
Definition annotate_data (job_id : pyval) : M pyval :=
  send_request ("jobs/" +:+ str_of job_id +:+ "/annotations") default_args None.

(** The value of [j] after [for j in jobs: if j is not None: break]. *)
Fixpoint loop_var (js : list pyval) (j : pyval) : pyval :=
  match js with
  | [] => j
  | x :: rest => if is_none x then loop_var rest x else x
  end.

(** [run_client], the first loop under [if opt.wait:] (taken when
    [opt.solved_id is None] and a submission id is known): it ends by
    setting [opt.solved_id], the value returned here. [rounds] bounds the
    number of polls that are modelled. *)
Fixpoint run_client_select_job (rounds : nat) (sub_id : pyval) : M pyval :=
  match rounds with
  | O => pending
  | S rounds' =>
      let* stat := sub_status sub_id true in
      let* jobs := lift (get stat "jobs" (PList [])) in
      let* n := lift (len jobs) in
      let j := loop_var (items jobs) PNone in
      if negb (Nat.eqb n 0) && negb (is_none j) then ret j
      else
        run sleep 5 then
        run_client_select_job rounds' sub_id
  end.

(** [run_client], the second loop under [if opt.wait:]. *)
Fixpoint run_client_await_job (rounds : nat) (solved_id : pyval) : M bool :=
  match rounds with
  | O => pending
  | S rounds' =>
      let* stat := job_status solved_id true in
      let* st := lift (get stat "status" (PStr EmptyString)) in
      if eq_str st "success" then ret true
      else if eq_str st "failure" then raise (SystemExit (-1))
      else
        run sleep 5 then
        run_client_await_job rounds' solved_id
  end.

(** [run_client], the block [if opt.wait:] with [opt.solved_id is None]. *)
Definition run_client_wait (rounds : nat) (sub_id : pyval) : M pyval :=
  if is_none sub_id then raise (SystemExit (-1))
  else
    let* solved_id := run_client_select_job rounds sub_id in
    run run_client_await_job rounds solved_id then
    ret solved_id.

End WithLibrary.
End Client.

(** ** astrometry_solver.py *)

Module AstrometrySolver.
Import Py Runtime.
Local Open Scope string_scope.
Local Open Scope py_scope.

Section WithLibrary.
Context `{Library}.

Definition base_url : string := "http://nova.astrometry.net/api".

(** A [requests] response: status code and body text. *)
Record response := { status_code : Z; text : string }.

(** [requests.get(url)]: any status gives a response object. *)
Definition requests_get (url : string) : M response :=
  let* ex := exchange_with {| req_url := url; req_headers := []; req_data := None |} in
  match ex with
  | Answer code body => ret {| status_code := code; text := body |}
  | Unreachable => raise ConnectionError
  end.

(** [response.json()] *)
Definition response_json (r : response) : M pyval :=
  match json_loads (text r) with
  | Some v => ret v
  | None => raise JSONDecodeError
  end.

(** [AstrometrySolver.wait_for_submission]; [rounds] bounds the number of
    polls that are modelled. *)
Fixpoint wait_for_submission (rounds : nat) (sub_id : pyval) : M pyval :=
  match rounds with
  | O => pending
  | S rounds' =>
      let* response := requests_get (base_url +:+ "/submissions/" +:+ str_of sub_id) in
      let* result := response_json response in
      let* finished := lift (get result "processing_finished" PNone) in
      if truthy finished then
        let* job_ids := lift (get result "jobs" (PList [])) in
        if truthy job_ids then
          let* first := lift (subscript0 job_ids) in
          if negb (is_none first) then ret job_ids
          else ret (PList [])
        else ret (PList [])
      else
        run sleep 2 then
        wait_for_submission rounds' sub_id
  end.

(** [AstrometrySolver.wait_for_job] *)
Fixpoint wait_for_job (rounds : nat) (job_id : pyval) : M bool :=
  match rounds with
  | O => pending
  | S rounds' =>
      let* response := requests_get (base_url +:+ "/jobs/" +:+ str_of job_id) in
      let* result := response_json response in
      let* status := lift (get result "status" PNone) in
      if eq_str status "success" then ret true
      else if eq_str status "failure" then ret false
      else
        run sleep 2 then
        wait_for_job rounds' job_id
  end.

(** [AstrometrySolver.get_job_info] *)
Definition get_job_info (job_id : pyval) : M pyval :=
  let* response :=
    requests_get (base_url +:+ "/jobs/" +:+ str_of job_id +:+ "/calibration") in
  if Z.eqb (status_code response) 200 then response_json response
  else ret PNone.

(** [AstrometrySolver.get_annotations] *)
Definition get_annotations (job_id : pyval) : M pyval :=
  let* response :=
    requests_get (base_url +:+ "/jobs/" +:+ str_of job_id +:+ "/annotations") in
  if Z.eqb (status_code response) 200 then response_json response
  else ret PNone.

(** How [main] leaves one image once it is uploaded. *)
Inductive tracked :=
| NoJobs
| JobTracked (job_id : pyval) (success : bool) (calib : option pyval).

(** [main], the statements of the [try] block that follow
    [sub_id = solver.upload_image(img_path)], up to the fetch of the
    calibration. *)
Definition main_track (rounds : nat) (sub_id : pyval) : M tracked :=
  let* job_ids := wait_for_submission rounds sub_id in
  if negb (truthy job_ids) then ret NoJobs
  else
    let* job_id := lift (subscript0 job_ids) in
    let* success := wait_for_job rounds job_id in
    if (success : bool) then
      let* calib := get_job_info job_id in
      ret (JobTracked job_id true (Some calib))
    else ret (JobTracked job_id false None).

End WithLibrary.
End AstrometrySolver.

(** ** fetch_job_info.py *)

Module FetchJobInfo.
Import Py Runtime.
Local Open Scope string_scope.
Local Open Scope py_scope.

Section WithLibrary.
Context `{Library}.

Definition api : string := "http://nova.astrometry.net/api/jobs/".

(** [print(label, response.json())] after [requests.get(url)] *)
Definition fetch_and_print (url : string) : M unit :=
  let* response := AstrometrySolver.requests_get url in
  run AstrometrySolver.response_json response then
  ret tt.

(** [get_job_info(job_id)] *)
Definition get_job_info (job_id : pyval) : M unit :=
  run fetch_and_print (api +:+ str_of job_id +:+ "/tags") then
  run fetch_and_print (api +:+ str_of job_id +:+ "/machine_tags") then
  run fetch_and_print (api +:+ str_of job_id +:+ "/objects_in_field") then
  fetch_and_print (api +:+ str_of job_id +:+ "/calibration").

End WithLibrary.
End FetchJobInfo.

(** ** A concrete library

    The theorems of Part II hold for every [Library]. To run the embedding
    on concrete inputs the library is instantiated here with a decoder and
    an encoder for the fragment of JSON without string escapes and with
    integer numbers only, form encoding, and [str()]. *)

Module Concrete.
Import Py.
Local Open Scope string_scope.
Local Open Scope char_scope.

Definition is_ws (c : ascii) : bool :=
  match c with
  | " " | "009" | "010" | "013" => true
  | _ => false
  end.

Fixpoint skip_ws (s : list ascii) : list ascii :=
  match s with
  | c :: t => if is_ws c then skip_ws t else s
  | [] => []
  end.

Definition digit (c : ascii) : option Z :=
  let n := Z.of_nat (nat_of_ascii c) in
  if ((48 <=? n) && (n <=? 57))%Z then Some (n - 48)%Z else None.

Fixpoint read_digits (acc : Z) (s : list ascii) : Z * list ascii :=
  match s with
  | c :: t =>
      match digit c with
      | Some d => read_digits (10 * acc + d) t
      | None => (acc, s)
      end
  | [] => (acc, [])
  end.

(** The characters up to the closing quote. *)
Fixpoint read_string (s : list ascii) : option (string * list ascii) :=
  match s with
  | [] => None
  | c :: t =>
      if Ascii.eqb c "034" then Some (EmptyString, t)
      else if Ascii.eqb c "\" then None
      else
        match read_string t with
        | Some (str, r) => Some (String c str, r)
        | None => None
        end
  end.

(** An integer not followed by a fraction or an exponent. *)
Definition read_int (s : list ascii) : option (Z * list ascii) :=
  match s with
  | c :: t =>
      match digit c with
      | Some _ =>
          let '(z, r) := read_digits 0 s in
          match r with
          | "." :: _ | "e" :: _ | "E" :: _ => None
          | _ => Some (z, r)
          end
      | None => None
      end
  | [] => None
  end.

Section Containers.
Variable value : list ascii -> option (pyval * list ascii).

Fixpoint elements (n : nat) (s : list ascii) : option (list pyval * list ascii) :=
  match n with
  | O => None
  | S n' =>
      match value s with
      | Some (v, r) =>
          match skip_ws r with
          | "," :: r' =>
              match elements n' r' with
              | Some (vs, r'') => Some (v :: vs, r'')
              | None => None
              end
          | "]" :: r' => Some ([v], r')
          | _ => None
          end
      | None => None
      end
  end.

Fixpoint members (n : nat) (s : list ascii) : option (pydict * list ascii) :=
  match n with
  | O => None
  | S n' =>
      match skip_ws s with
      | "034" :: r0 =>
          match read_string r0 with
          | Some (k, r1) =>
              match skip_ws r1 with
              | ":" :: r2 =>
                  match value r2 with
                  | Some (v, r3) =>
                      match skip_ws r3 with
                      | "," :: r4 =>
                          match members n' r4 with
                          | Some (d, r5) =>
                              (* a repeated key keeps its first place
                                 and takes its last value *)
                              let rest :=
                                List.filter
                                  (fun kv => negb (String.eqb (fst kv) k)) d in
                              match dict_lookup k d with
                              | Some v' => Some ((k, v') :: rest, r5)
                              | None => Some ((k, v) :: rest, r5)
                              end
                          | None => None
                          end
                      | "}" :: r4 => Some ([(k, v)], r4)
                      | _ => None
                      end
                  | None => None
                  end
              | _ => None
              end
          | None => None
          end
      | _ => None
      end
  end.
End Containers.

Fixpoint value (fuel : nat) (s : list ascii) : option (pyval * list ascii) :=
  match fuel with
  | O => None
  | S fuel' =>
      match skip_ws s with
      | "n" :: "u" :: "l" :: "l" :: r => Some (PNone, r)
      | "t" :: "r" :: "u" :: "e" :: r => Some (PBool true, r)
      | "f" :: "a" :: "l" :: "s" :: "e" :: r => Some (PBool false, r)
      | "034" :: r =>
          match read_string r with
          | Some (str, r') => Some (PStr str, r')
          | None => None
          end
      | "[" :: r =>
          match skip_ws r with
          | "]" :: r' => Some (PList [], r')
          | _ =>
              match elements (value fuel') (List.length r) r with
              | Some (vs, r') => Some (PList vs, r')
              | None => None
              end
          end
      | "{" :: r =>
          match skip_ws r with
          | "}" :: r' => Some (PDict [], r')
          | _ =>
              match members (value fuel') (List.length r) r with
              | Some (d, r') => Some (PDict d, r')
              | None => None
              end
          end
      | "-" :: r =>
          match read_int r with
          | Some (z, r') => Some (PInt (- z), r')
          | None => None
          end
      | r =>
          match read_int r with
          | Some (z, r') => Some (PInt z, r')
          | None => None
          end
      end
  end.

Definition loads (data : string) : option pyval :=
  let s := list_ascii_of_string data in
  match value (S (List.length s)) s with
  | Some (v, r) =>
      match skip_ws r with
      | [] => Some v
      | _ => None
      end
  | None => None
  end.

Local Close Scope char_scope.

Definition quoted (q s : string) : string := q +:+ s +:+ q.

Fixpoint dumps (v : pyval) : string :=
  match v with
  | PNone => "null"
  | PBool true => "true"
  | PBool false => "false"
  | PInt z => pretty z
  | PStr s => quoted Client.DQ s
  | PList l =>
      "[" +:+
      (fix go (l : list pyval) : string :=
         match l with
         | [] => EmptyString
         | [x] => dumps x
         | x :: r => dumps x +:+ ", " +:+ go r
         end) l +:+ "]"
  | PDict d =>
      "{" +:+
      (fix go (d : pydict) : string :=
         match d with
         | [] => EmptyString
         | [(k, x)] => quoted Client.DQ k +:+ ": " +:+ dumps x
         | (k, x) :: r => quoted Client.DQ k +:+ ": " +:+ dumps x +:+ ", " +:+ go r
         end) d +:+ "}"
  end.

Fixpoint repr (v : pyval) : string :=
  match v with
  | PNone => "None"
  | PBool true => "True"
  | PBool false => "False"
  | PInt z => pretty z
  | PStr s => quoted "'" s
  | PList l =>
      "[" +:+
      (fix go (l : list pyval) : string :=
         match l with
         | [] => EmptyString
         | [x] => repr x
         | x :: r => repr x +:+ ", " +:+ go r
         end) l +:+ "]"
  | PDict d =>
      "{" +:+
      (fix go (d : pydict) : string :=
         match d with
         | [] => EmptyString
         | [(k, x)] => quoted "'" k +:+ ": " +:+ repr x
         | (k, x) :: r => quoted "'" k +:+ ": " +:+ repr x +:+ ", " +:+ go r
         end) d +:+ "}"
  end.

Definition str (v : pyval) : string :=
  match v with
  | PStr s => s
  | _ => repr v
  end.

Definition hex_digit (n : nat) : ascii :=
  ascii_of_nat (if Nat.ltb n 10 then 48 + n else 55 + n).

Definition quote_plus_char (c : ascii) : string :=
  let n := nat_of_ascii c in
  if ((48 <=? n) && (n <=? 57) || (65 <=? n) && (n <=? 90) ||
      (97 <=? n) && (n <=? 122) ||
      (n =? 95) || (n =? 46) || (n =? 45) || (n =? 126))%nat
  then String c EmptyString
  else if (n =? 32)%nat then "+"
  else String "%"%char
         (String (hex_digit (n / 16)) (String (hex_digit (n mod 16)) EmptyString)).

Fixpoint quote_plus (s : string) : string :=
  match s with
  | EmptyString => EmptyString
  | String c t => quote_plus_char c +:+ quote_plus t
  end.

Fixpoint urlencode_pairs (q : list (string * string)) : string :=
  match q with
  | [] => EmptyString
  | [(k, v)] => quote_plus k +:+ "=" +:+ quote_plus v
  | (k, v) :: r => quote_plus k +:+ "=" +:+ quote_plus v +:+ "&" +:+ urlencode_pairs r
  end.

Definition library : Library :=
  {| json_loads := loads; json_dumps := dumps;
     urlencode := urlencode_pairs; str_of := str |}.

(** The state in which a script starts: no session, no file written, no
    request sent, the default [args] dict of [send_request] empty. *)
Definition start (server : nat -> Runtime.exchange) : Runtime.world :=
  {| Runtime.heap := {[ Client.default_args := [] ]};
     Runtime.session := PNone;
     Runtime.files := ∅;
     Runtime.sent := [];
     Runtime.net := server;
     Runtime.rnd := fun _ => "0000000000000000000";
     Runtime.slept := 0 |}.

(** A server that gives the listed answers in turn and is unreachable
    afterwards. *)
Definition script (answers : list Runtime.exchange) : nat -> Runtime.exchange :=
  fun n => nth n answers Runtime.Unreachable.

End Concrete.

(** ** Unicode classes used to state the claims about names *)

Module Unicode.
Import PyStr.

(** Greek small letters alpha to omega, U+03B1 to U+03C9; the range holds
    final sigma, U+03C2. *)
Definition is_greek_lower (c : codepoint) : bool :=
  ((945 <=? c) && (c <=? 969))%N.

(** A codepoint of the blocks Greek and Coptic (U+0370 to U+03FF) or Greek
    Extended (U+1F00 to U+1FFF). *)
Definition is_greek (c : codepoint) : bool :=
  ((880 <=? c) && (c <=? 1023) || (7936 <=? c) && (c <=? 8191))%N.

(** The letters that [GREEK_MAP] has as keys. *)
Definition greek_keys : list codepoint :=
  concat (List.map fst ConstellationData.GREEK_MAP).

Definition is_greek_key (c : codepoint) : bool :=
  existsb (N.eqb c) greek_keys.

(** A word: a non-empty run without a space. *)
Definition word (w : str) : Prop :=
  w <> [] /\ forallb (fun c => negb (isspace c)) w = true.

(** A table all of whose keys are single letters. *)
Definition letter_table (table : list (str * str)) : Prop :=
  Forall (fun ge => exists g, fst ge = [g]) table.

(** The two names of the claim about unanchored matching. *)
Definition ETA_ORI : str := lit "Eta Ori".
Definition THETA_ORI : str := lit "Theta Ori".

End Unicode.

(** ** Notions used in the statements about the client *)

Module Notions.
Import Py Runtime.
Local Open Scope string_scope.
Local Open Scope py_scope.

(** The first entry of a job-id list that is not null. *)
Definition first_non_null (js : list pyval) : option pyval :=
  List.find (fun j => negb (is_none j)) js.

Section WithLibrary.
Context `{Library}.

(** The six calls of [job_status] under [if stat == 'success'], as a loop
    over their services. *)
Fixpoint fetch_each (services : list string) : M unit :=
  match services with
  | [] => ret tt
  | service :: rest =>
      run Client.send_request service Client.default_args None then
      fetch_each rest
  end.

Definition sub_fetches (job : string) : list string :=
  [ job +:+ "/calibration"; job +:+ "/tags"; job +:+ "/machine_tags";
    job +:+ "/objects_in_field"; job +:+ "/annotations"; job +:+ "/info" ].

(** The exchanges after which [send_request] returns to its caller: a
    status outside 2xx, or a 2xx answer whose body is a JSON object that
    does not report an error. After every other exchange it raises. *)
Definition tolerated (ex : exchange) : bool :=
  match ex with
  | Answer code body =>
      if ((200 <=? code) && (code <? 300))%Z then
        match json_loads body with
        | Some (PDict d) =>
            match dict_lookup "status" d with
            | Some stat => negb (eq_str stat "error")
            | None => true
            end
        | _ => false
        end
      else true
  | Unreachable => false
  end.

End WithLibrary.
End Notions.

(** ** Concrete inputs *)

Module Inputs.
Import PyStr ConstellationData.

(** An annotation at the origin with the given names and nothing else. *)
Definition star_named (aliases : list str) : annotation Z :=
  {| pixelx := 0%Z; pixely := 0%Z; names := Some aliases;
     ann_type := None; radius := None |}.

(** The name of theta Orionis as Astrometry.net gives it. *)
Definition theta_ori : str := 952%N :: lit " Ori".

(** A name that lists two designations, theta Orionis and eta Orionis. *)
Definition theta_and_eta_ori : str :=
  (952%N :: lit " Ori / ") ++ (951%N :: lit " Ori").

(** Two annotations named alpha and beta Orionis, 40 pixels apart. *)
Definition alpha_ori_star : annotation R :=
  {| pixelx := 10%R; pixely := 10%R; names := Some [lit "Alpha Ori"];
     ann_type := None; radius := None |}.

Definition beta_ori_star : annotation R :=
  {| pixelx := 50%R; pixely := 10%R; names := Some [lit "Beta Ori"];
     ann_type := None; radius := None |}.

Import Py Runtime.
Local Open Scope string_scope.

Definition q (s : string) : string := Concrete.quoted Client.DQ s.

(** Bodies the server may send. *)
Definition error_page : string := "<html>Internal Server Error</html>".

Definition job_success : string :=
  "{" +:+ q "status" +:+ ": " +:+ q "success" +:+ "}".

Definition server_error : string :=
  "{" +:+ q "status" +:+ ": " +:+ q "error" +:+ ", " +:+
  q "errormessage" +:+ ": " +:+ q "no calibration" +:+ "}".

Definition finished_null_then_job : string :=
  "{" +:+ q "processing_finished" +:+ ": true, " +:+ q "jobs" +:+ ": [null, 7]}".

Definition finished_all_null : string :=
  "{" +:+ q "processing_finished" +:+ ": true, " +:+ q "jobs" +:+ ": [null]}".

Definition finished_with_job : string :=
  "{" +:+ q "processing_finished" +:+ ": true, " +:+ q "jobs" +:+ ": [7]}".

Definition unfinished_with_job : string :=
  "{" +:+ q "processing_finished" +:+ ": false, " +:+ q "jobs" +:+ ": [7]}".

Definition unfinished_no_job : string :=
  "{" +:+ q "processing_finished" +:+ ": false, " +:+ q "jobs" +:+ ": []}".

(** A dict object of a caller, and a client that is logged in. *)
Definition caller_args : loc := 2%positive.

Definition logged_in (server : nat -> exchange) : world :=
  with_session (PStr "0123abcd")
    (with_heap (<[caller_args := [("subid", PInt 1)]]> (heap (Concrete.start server)))
               (Concrete.start server)).

End Inputs.

(** ** client.py: the upload calls and the small queries *)

Module ClientUpload.
Import Py Runtime Client.
Local Open Scope string_scope.
Local Open Scope py_scope.

(** The constructors [typ] of the option table of [_get_upload_args]. *)
Inductive pytype := TStr | TFloat | TInt | TBool | TList.

(** [int(v)] and [float(v)], builtins of Python. *)
Class Numbers := {
  py_int : pyval -> outcome pyval;
  py_float : pyval -> outcome pyval
}.

(** The table of [_get_upload_args]: key, default, type. *)
Definition upload_options : list (string * option pyval * pytype) :=
  [ ("allow_commercial_use", Some (PStr "d"), TStr);
    ("allow_modifications", Some (PStr "d"), TStr);
    ("publicly_visible", Some (PStr "y"), TStr);
    ("scale_units", None, TStr);
    ("scale_type", None, TStr);
    ("scale_lower", None, TFloat);
    ("scale_upper", None, TFloat);
    ("scale_est", None, TFloat);
    ("scale_err", None, TFloat);
    ("center_ra", None, TFloat);
    ("center_dec", None, TFloat);
    ("parity", None, TInt);
    ("radius", None, TFloat);
    ("downsample_factor", None, TInt);
    ("positional_error", None, TFloat);
    ("tweak_order", None, TInt);
    ("crpix_center", None, TBool);
    ("invert", None, TBool);
    ("use_sextractor", None, TBool);
    ("image_width", None, TInt);
    ("image_height", None, TInt);
    ("x", None, TList);
    ("y", None, TList);
    ("album", None, TStr) ].

(** [d.update(new)] on dict values. *)
Definition dict_update (d new : pydict) : pydict :=
  fold_left (fun acc kv => dict_store (fst kv) (snd kv) acc) new d.

Section WithLibrary.
Context `{Library} `{Numbers}.

(** [typ(val)] *)
Definition convert (typ : pytype) (val : pyval) : outcome pyval :=
  match typ with
  | TStr => Return (PStr (str_of val))
  | TFloat => py_float val
  | TInt => py_int val
  | TBool => Return (PBool (truthy val))
  | TList =>
      match val with
      | PList _ | PStr _ | PDict _ => Return (PList (items val))
      | _ => Raise TypeError
      end
  end.

(** The loop of [_get_upload_args] over the rest of the table, with the
    [args] built so far. *)
Fixpoint upload_args_from (table : list (string * option pyval * pytype))
    (kwargs args : pydict) : outcome pydict :=
  match table with
  | [] => Return args
  | (key, default, typ) :: rest =>
      match dict_lookup key kwargs with
      | Some val =>
          match convert typ val with
          | Return v => upload_args_from rest kwargs (dict_store key v args)
          | Raise e => Raise e
          | Pending => Pending
          end
      | None =>
          match default with
          | Some dflt => upload_args_from rest kwargs (dict_store key dflt args)
          | None => upload_args_from rest kwargs args
          end
      end
  end.

(** [Client._get_upload_args], on its keyword arguments. *)
Definition get_upload_args (kwargs : pydict) : outcome pydict :=
  upload_args_from upload_options kwargs [].

(** [args.update(new)] on the dict object [args]. *)
Definition update_in_place (args : loc) (new : pydict) : M unit :=
  fun w => (Return tt, with_heap (<[args := dict_update (load args w) new]> (heap w)) w).

(** [Client.url_upload], on the url and its keyword arguments. *)
Definition url_upload (url : pyval) (kwargs : pydict) : M pyval :=
  let* args := new_dict [("url", url)] in
  let* upload_args := lift (get_upload_args kwargs) in
  run update_in_place args upload_args then
  send_request "url_upload" args None.

(** How [upload] ends: with the [IOError] of [open(fn, 'rb')], which it
    raises again, or as the rest of the call ends. *)
Inductive uploaded :=
| IOError
| Ran (o : outcome pyval).

(** [Client.upload], on the file name and its keyword arguments; the file
    is read from the files of the world. *)
Definition upload (fn : option string) (kwargs : pydict) : world -> uploaded * world :=
  fun w =>
    match get_upload_args kwargs with
    | Return upload_args =>
        let '(_, w1) := new_dict upload_args w in
        let args := fresh (dom (heap w)) in
        match fn with
        | None =>
            let '(o, w2) := send_request "upload" args None w1 in (Ran o, w2)
        | Some name =>
            match files w1 !! name with
            | Some content =>
                let '(o, w2) := send_request "upload" args (Some (name, content)) w1 in
                (Ran o, w2)
            | None => (IOError, w1)
            end
        end
    | Raise e => (Ran (Raise e), w)
    | Pending => (Ran Pending, w)
    end.

(** [result[key]] on what [send_request] returned. *)
Definition subscript (v : pyval) (key : string) : outcome pyval :=
  match v with
  | PDict d =>
      match dict_lookup key d with
      | Some x => Return x
      | None => Raise KeyError
      end
  | PList _ | PStr _ => Raise TypeError
  | _ => Raise TypeError
  end.

(** [Client.submission_images(subid)] *)
Definition submission_images (subid : pyval) : M pyval :=
  let* args := new_dict [("subid", subid)] in
  let* result := send_request "submission_images" args None in
  lift (get result "image_ids" PNone).

(** [Client.myjobs()] *)
Definition myjobs : M pyval :=
  let* result := send_request "myjobs/" default_args None in
  lift (subscript result "jobs").

End WithLibrary.
End ClientUpload.

(** ** Further notions used in the statements *)

Module MoreNotions.
Import PyStr ConstellationData.

(** The pattern occurs in a normalized name of the star. *)
Definition matches {num : Type} (pattern : str) (star : annotation num) : bool :=
  existsb (fun name => contains pattern (normalize_name name)) (names_of star).

(** The text that stands for a codepoint after the replacements of a
    table: the text of the first entry with this key, the codepoint itself
    without one. *)
Fixpoint spell (table : list (str * str)) (c : codepoint) : str :=
  match table with
  | [] => [c]
  | (g, e) :: rest => if str_eqb g [c] then e else spell rest c
  end.

(** The codepoints of a name that are no space. *)
Definition letters (s : str) : str := List.filter (fun c => negb (isspace c)) s.

(** A segment with its ends swapped; the label stays. *)
Definition swapped (seg : AnnotateFits.segment) : AnnotateFits.segment :=
  {| AnnotateFits.seg_x1 := AnnotateFits.seg_x2 seg;
     AnnotateFits.seg_y1 := AnnotateFits.seg_y2 seg;
     AnnotateFits.seg_x2 := AnnotateFits.seg_x1 seg;
     AnnotateFits.seg_y2 := AnnotateFits.seg_y1 seg;
     AnnotateFits.seg_label := AnnotateFits.seg_label seg |}.

(** The keys of a dict. *)
Definition keys (d : Py.pydict) : list string := List.map fst d.

(** The names of the options of a table of [_get_upload_args]. *)
Definition option_names
    (table : list (string * option Py.pyval * ClientUpload.pytype)) : list string :=
  List.map (fun entry => fst (fst entry)) table.

(** The request of [requests.get(url)]. *)
Definition get_request (url : string) : Runtime.request :=
  {| Runtime.req_url := url; Runtime.req_headers := []; Runtime.req_data := None |}.

Section WithLibrary.
Context `{Py.Library}.

(** The four requests of [get_job_info] of fetch_job_info.py as a loop
    over their urls. *)
Fixpoint fetch_all (urls : list string) : Runtime.M unit :=
  match urls with
  | [] => Runtime.ret tt
  | url :: rest =>
      Runtime.bind (FetchJobInfo.fetch_and_print url) (fun _ => fetch_all rest)
  end.

(** The urls that [get_job_info] of fetch_job_info.py asks for, in its
    order. *)
Definition job_info_urls (job_id : Py.pyval) : list string :=
  List.map (fun part => FetchJobInfo.api +:+ Py.str_of job_id +:+ part)
    ["/tags"; "/machine_tags"; "/objects_in_field"; "/calibration"]%string.

(** An exchange whose answer has a JSON body, whatever its status. *)
Definition decodable (ex : Runtime.exchange) : bool :=
  match ex with
  | Runtime.Answer _ body =>
      match Py.json_loads body with
      | Some _ => true
      | None => false
      end
  | Runtime.Unreachable => false
  end.

End WithLibrary.
End MoreNotions.

(** ** Further concrete inputs *)

Module MoreInputs.
Import Py Runtime ClientUpload.
Local Open Scope string_scope.

(** [int] and [float] on the integers and booleans of [pyval]; a float
    with an integer value is written as that integer. The other values
    stand for what Python refuses to convert, as it does [None], lists and
    dicts with [TypeError]. *)
Definition to_number (v : pyval) : outcome pyval :=
  match v with
  | PInt z => Return (PInt z)
  | PBool b => Return (PInt (if b then 1 else 0))
  | _ => Raise TypeError
  end.

Definition numbers : Numbers := {| py_int := to_number; py_float := to_number |}.

Definition login_ok : string :=
  "{" +:+ Inputs.q "status" +:+ ": " +:+ Inputs.q "success" +:+ ", " +:+
  Inputs.q "session" +:+ ": " +:+ Inputs.q "0123abcd" +:+ "}".

Definition job_solving : string :=
  "{" +:+ Inputs.q "status" +:+ ": " +:+ Inputs.q "solving" +:+ "}".

Definition job_failure : string :=
  "{" +:+ Inputs.q "status" +:+ ": " +:+ Inputs.q "failure" +:+ "}".

Definition tags_reply : string :=
  "{" +:+ Inputs.q "tags" +:+ ": []}".

(** A world whose disk holds one image. *)
Definition with_image (server : nat -> exchange) : world :=
  with_files (<["refined_image.png" := "PNGDATA"]> ∅) (Concrete.start server).

(** Runs of the server. *)
Definition job_appears_at_second_poll : world :=
  Concrete.start
    (Concrete.script [Answer 200 Inputs.unfinished_no_job;
                      Answer 200 Inputs.finished_null_then_job]).

Definition finished_at_second_poll : world :=
  Concrete.start
    (Concrete.script [Answer 200 Inputs.unfinished_no_job;
                      Answer 200 Inputs.finished_with_job]).


Definition fails_at_second_poll : world :=
  Concrete.start
    (Concrete.script [Answer 200 job_solving; Answer 200 job_failure]).

Definition succeeds_at_second_poll : world :=
  Concrete.start
    (Concrete.script [Answer 200 job_solving; Answer 200 Inputs.job_success]).

(** Keyword arguments of an upload, and the dict [_get_upload_args] makes
    of them. *)
Definition private_upload : pydict :=
  [("publicly_visible", PStr "n"); ("scale_lower", PInt 1);
   ("invert", PInt 0); ("verbose", PBool true)].

Definition upload_args_of_private_upload : pydict :=
  [("allow_commercial_use", PStr "d"); ("allow_modifications", PStr "d");
   ("publicly_visible", PStr "n"); ("scale_lower", PInt 1);
   ("invert", PBool false)].

Definition jobs_listed : string :=
  "{" +:+ Inputs.q "status" +:+ ": " +:+ Inputs.q "success" +:+ ", " +:+
  Inputs.q "jobs" +:+ ": [7, 9]}".

Definition calibration_refused : world :=
  Concrete.start
    (Concrete.script [Answer 200 tags_reply; Answer 200 tags_reply;
                      Answer 200 tags_reply; Answer 500 Inputs.server_error]).

Definition objects_not_json : world :=
  Concrete.start
    (Concrete.script [Answer 200 tags_reply; Answer 200 tags_reply;
                      Answer 500 Inputs.error_page; Answer 200 tags_reply]).

End MoreInputs.

(* ===================================================================== *)
(** * Part II. Lemmas and theorems                                        *)
(* ===================================================================== *)

(** ** The embedding on inputs of the sources and of the spec *)

Section Runs.
Import PyStr ConstellationData Inputs.

Example replace_is_left_to_right :
  replace (lit "aa") (lit "X") (lit "aaaaa") = lit "XXa".
Proof. reflexivity. Qed.

Example split_drops_the_spaces :
  PyStr.split (lit "  a b   cd e ") = [lit "a"; lit "b"; lit "cd"; lit "e"].
Proof. reflexivity. Qed.

Example normalize_name_rigel :
  normalize_name (946%N :: lit "  Ori /  19 Ori ") = lit "Beta Ori / 19 Ori".
Proof. vm_compute. reflexivity. Qed.

Example beta_ori_is_resolved :
  find_star_in_annotations (lit "Beta Ori")
    [star_named [lit "Betelgeuse"]; star_named [946%N :: lit " Ori"; lit "Rigel"]]
  = Some (star_named [946%N :: lit " Ori"; lit "Rigel"]).
Proof. vm_compute. reflexivity. Qed.

Example json_object_is_decoded :
  Concrete.loads finished_null_then_job =
  Some (Py.PDict [("processing_finished"%string, Py.PBool true);
                  ("jobs"%string, Py.PList [Py.PNone; Py.PInt 7])]).
Proof. vm_compute. reflexivity. Qed.

Example html_page_is_not_json : Concrete.loads error_page = None.
Proof. vm_compute. reflexivity. Qed.

End Runs.

(** ** Strings *)

Section StrFacts.
Import PyStr Unicode.

Lemma replace_letter (g : codepoint) (e s : str) :
  replace [g] e s = flat_map (fun c => if N.eqb g c then e else [c]) s.
Proof.
  unfold replace. induction s as [|c t IH]; simpl; [reflexivity|].
  destruct (N.eqb g c); simpl; rewrite IH; reflexivity.
Qed.

Lemma replace_letter_In (g : codepoint) (e s : str) (c : codepoint) :
  In c (replace [g] e s) -> In c e \/ (In c s /\ c <> g).
Proof.
  rewrite replace_letter. induction s as [|x t IH]; simpl; [tauto|].
  rewrite in_app_iff. intros [Hc|Hc].
  - destruct (N.eqb_spec g x) as [->|Hne]; [left; exact Hc|].
    destruct Hc as [<-|[]]. right. split; [left; reflexivity|congruence].
  - destruct (IH Hc) as [?|[? ?]]; [left|right]; tauto.
Qed.

Lemma replace_letter_absent (g : codepoint) (e s : str) :
  ~ In g s -> replace [g] e s = s.
Proof.
  rewrite replace_letter. induction s as [|x t IH]; simpl; [reflexivity|].
  intros Hn. destruct (N.eqb_spec g x) as [->|Hne]; [tauto|].
  simpl. rewrite IH; tauto.
Qed.

Lemma join_In (sep : str) (ws : list str) (c : codepoint) :
  In c (join sep ws) -> In c sep \/ exists w, In w ws /\ In c w.
Proof.
  induction ws as [|w ws IH]; simpl; [tauto|].
  destruct ws as [|w' ws'].
  - intros Hc. right. exists w. tauto.
  - rewrite !in_app_iff. intros [Hc|[Hc|Hc]].
    + right. exists w. tauto.
    + left. exact Hc.
    + destruct (IH Hc) as [?|[v [Hv Hcv]]]; [tauto|].
      right. exists v. split; [right; exact Hv|exact Hcv].
Qed.

Lemma split_In (s : str) (w : str) (c : codepoint) :
  In w (split s) -> In c w -> In c s.
Proof.
  revert w. induction s as [|x t IH]; simpl; [tauto|].
  intros w. destruct (isspace x).
  - intros Hw Hc. right. eapply IH; eassumption.
  - destruct t as [|x' t'].
    + intros [<-|[]] Hc. simpl in Hc. tauto.
    + destruct (isspace x').
      * intros [<-|Hw] Hc; [simpl in Hc; tauto|].
        right. eapply IH; eassumption.
      * destruct (split (x' :: t')) as [|v vs].
        -- intros [<-|[]] Hc. simpl in Hc. tauto.
        -- intros [<-|Hw] Hc.
           ++ destruct Hc as [->|Hc]; [left; reflexivity|].
              right. apply (IH v); [left; reflexivity|exact Hc].
           ++ right. apply (IH w); [right; exact Hw|exact Hc].
Qed.

Lemma split_words (s : str) : Forall word (split s).
Proof.
  induction s as [|x t IH]; simpl; [constructor|].
  destruct (isspace x) eqn:Hx; [exact IH|].
  assert (Hone : word [x]) by (split; [discriminate|simpl; rewrite Hx; reflexivity]).
  destruct t as [|x' t']; [constructor; [exact Hone|constructor]|].
  destruct (isspace x') eqn:Hx'; [constructor; [exact Hone|exact IH]|].
  destruct (split (x' :: t')) as [|v vs]; [constructor; [exact Hone|constructor]|].
  inversion IH as [|? ? [Hv1 Hv2] Hvs]; subst.
  constructor; [|exact Hvs].
  split; [discriminate|]. simpl. rewrite Hx, Hv2. reflexivity.
Qed.

Lemma split_word (w : str) : word w -> split w = [w].
Proof.
  intros [Hne Hw]. induction w as [|x t IH]; [congruence|].
  simpl in Hw. apply andb_prop in Hw as [Hx Ht].
  apply negb_true_iff in Hx.
  cbn [split]. rewrite Hx.
  destruct t as [|x' t']; [reflexivity|].
  pose proof Ht as Ht'. simpl in Ht'. apply andb_prop in Ht' as [Hx' _].
  apply negb_true_iff in Hx'. rewrite Hx'.
  rewrite IH; [reflexivity|discriminate|exact Ht].
Qed.

Lemma split_word_space (w rest : str) :
  word w -> split (w ++ 32%N :: rest) = w :: split rest.
Proof.
  intros [Hne Hw]. induction w as [|x t IH]; [congruence|].
  simpl in Hw. apply andb_prop in Hw as [Hx Ht].
  apply negb_true_iff in Hx.
  change ((x :: t) ++ 32%N :: rest) with (x :: (t ++ 32%N :: rest)).
  cbn [split]. rewrite Hx.
  destruct t as [|x' t'].
  - reflexivity.
  - pose proof Ht as Ht'. simpl in Ht'. apply andb_prop in Ht' as [Hx' _].
    apply negb_true_iff in Hx'.
    change ((x' :: t') ++ 32%N :: rest) with (x' :: (t' ++ 32%N :: rest)) in *.
    cbv iota. rewrite Hx'.
    rewrite IH; [reflexivity|discriminate|exact Ht].
Qed.

Lemma split_join (ws : list str) :
  Forall word ws -> split (join [32%N] ws) = ws.
Proof.
  induction 1 as [|w ws Hw Hws IH]; [reflexivity|].
  destruct ws as [|w' ws'].
  - simpl. apply split_word. exact Hw.
  - change (join [32%N] (w :: w' :: ws'))
      with (w ++ 32%N :: join [32%N] (w' :: ws')).
    rewrite split_word_space by exact Hw. rewrite IH. reflexivity.
Qed.

End StrFacts.

(** ** constellation_data.py: name normalization *)

Section NormalizeFacts.
Import PyStr Unicode ConstellationData.

Lemma replace_greek_cons (ge : str * str) (table : list (str * str)) (s : str) :
  replace_greek (ge :: table) s = replace_greek table (replace (fst ge) (snd ge) s).
Proof. reflexivity. Qed.

(** A codepoint of the result was in the input or comes from a
    replacement text. *)
Lemma replace_greek_In (table : list (str * str)) :
  letter_table table ->
  forall (s : str) (c : codepoint),
    In c (replace_greek table s) ->
    In c s \/ exists ge, In ge table /\ In c (snd ge).
Proof.
  induction 1 as [|ge table [g Hg] Htab IH]; intros s c Hc; [left; exact Hc|].
  rewrite replace_greek_cons, Hg in Hc.
  destruct (IH _ _ Hc) as [Hin|[ge' [Hge' Hin]]].
  - apply replace_letter_In in Hin as [Hin|[Hin _]].
    + right. exists ge. split; [left; reflexivity|exact Hin].
    + left. exact Hin.
  - right. exists ge'. split; [right; exact Hge'|exact Hin].
Qed.

(** A key of the table is gone from the result, when no replacement text
    brings it back. *)
Lemma replace_greek_removes (table : list (str * str)) (g : codepoint) :
  letter_table table ->
  (forall ge, In ge table -> ~ In g (snd ge)) ->
  In [g] (List.map fst table) ->
  forall s : str, ~ In g (replace_greek table s).
Proof.
  induction 1 as [|ge table [g' Hg'] Htab IH]; intros Heng Hkey s; [destruct Hkey|].
  rewrite replace_greek_cons.
  destruct Hkey as [Hhere|Hlater].
  - intros Hin. apply replace_greek_In in Hin as [Hin|[ge' [Hge' Hin]]];
      [|exact (Heng ge' (or_intror Hge') Hin)|exact Htab].
    rewrite Hhere in Hin.
    apply replace_letter_In in Hin as [Hin|[_ Hne]]; [|congruence].
    exact (Heng ge (or_introl eq_refl) Hin).
  - apply IH; [|exact Hlater].
    intros ge' Hge'. apply Heng. right. exact Hge'.
Qed.

(** Without any key in it a name is left as it is. *)
Lemma replace_greek_absent (table : list (str * str)) :
  letter_table table ->
  forall s : str,
    (forall g, In [g] (List.map fst table) -> ~ In g s) ->
    replace_greek table s = s.
Proof.
  induction 1 as [|ge table [g Hg] Htab IH]; intros s Hs; [reflexivity|].
  rewrite replace_greek_cons, Hg.
  rewrite replace_letter_absent.
  - apply IH. intros g' Hg'. apply Hs. right. exact Hg'.
  - apply Hs. left. exact Hg.
Qed.

Lemma GREEK_MAP_letters : letter_table GREEK_MAP.
Proof. repeat constructor; eexists; reflexivity. Qed.

Lemma GREEK_MAP_latin (ge : str * str) (c : codepoint) :
  In ge GREEK_MAP -> In c (snd ge) -> is_greek_key c = false /\ isspace c = false.
Proof.
  assert (Hall : forallb
            (fun ge => forallb
               (fun c => negb (is_greek_key c) && negb (isspace c)) (snd ge))
            GREEK_MAP = true) by (vm_compute; reflexivity).
  intros Hge Hc.
  rewrite forallb_forall in Hall. specialize (Hall ge Hge).
  rewrite forallb_forall in Hall. specialize (Hall c Hc).
  apply andb_prop in Hall as [H1 H2].
  split; apply negb_true_iff; assumption.
Qed.

Lemma greek_key_In (g : codepoint) :
  is_greek_key g = true <-> In [g] (List.map fst GREEK_MAP).
Proof.
  unfold is_greek_key. rewrite existsb_exists. split.
  - intros [c [Hc Heq]]. apply N.eqb_eq in Heq. subst c.
    vm_compute in Hc. vm_compute.
    repeat (destruct Hc as [Hc|Hc]; [subst g; tauto|]). destruct Hc.
  - intros Hin. exists g. split; [|apply N.eqb_refl].
    vm_compute in Hin. vm_compute.
    repeat (destruct Hin as [Hin|Hin]; [injection Hin as <-; tauto|]).
    destruct Hin.
Qed.

Lemma replace_greek_no_key (s : str) (c : codepoint) :
  In c (replace_greek GREEK_MAP s) -> is_greek_key c = false.
Proof.
  intros Hin. destruct (is_greek_key c) eqn:Hk; [|reflexivity].
  exfalso. revert Hin. apply replace_greek_removes.
  - exact GREEK_MAP_letters.
  - intros ge Hge Hc. destruct (GREEK_MAP_latin ge c Hge Hc). congruence.
  - apply greek_key_In. exact Hk.
Qed.

Lemma normalize_name_In (x : str) (c : codepoint) :
  In c (normalize_name x) -> c = 32%N \/ In c (replace_greek GREEK_MAP x).
Proof.
  unfold normalize_name. intros Hin.
  apply join_In in Hin as [Hsp|[w [Hw Hc]]].
  - left. destruct Hsp as [<-|[]]. reflexivity.
  - right. eapply split_In; eassumption.
Qed.

Lemma normalize_name_no_key (x : str) (c : codepoint) :
  In c (normalize_name x) -> is_greek_key c = false.
Proof.
  intros Hin. apply normalize_name_In in Hin as [->|Hin]; [reflexivity|].
  eapply replace_greek_no_key. exact Hin.
Qed.

(** A codepoint of a normalized name that is not Latin text of the table
    or the separating space was in the input already. *)
Lemma normalize_name_from_input (x : str) (c : codepoint) :
  In c (normalize_name x) -> is_greek c = true -> In c x.
Proof.
  intros Hin Hgr. apply normalize_name_In in Hin as [->|Hin]; [discriminate|].
  apply replace_greek_In in Hin as [Hin|[ge [Hge Hc]]];
    [exact Hin| |exact GREEK_MAP_letters].
  exfalso.
  assert (Hall : forallb (fun ge => forallb (fun c => negb (is_greek c)) (snd ge))
                   GREEK_MAP = true) by (vm_compute; reflexivity).
  rewrite forallb_forall in Hall. specialize (Hall ge Hge).
  rewrite forallb_forall in Hall. specialize (Hall c Hc).
  rewrite Hgr in Hall. discriminate.
Qed.

End NormalizeFacts.

Section NormalizeTheorems.
Import PyStr Unicode ConstellationData.

(** C6 (as amended). For every input string the output of
    [normalize_name] contains none of the 24 Greek small letters that
    [GREEK_MAP] has as keys (alpha to omega without final sigma); and when
    every Greek codepoint of the input is one of these 24 letters, the
    output contains no Greek codepoint at all. *)
Theorem C6_normalize_name_removes_mapped_greek (x : str) :
  Forall (fun c => is_greek_key c = false) (normalize_name x) /\
  (Forall (fun c => is_greek c = true -> is_greek_key c = true) x ->
   Forall (fun c => is_greek c = false) (normalize_name x)).
Proof.
  split.
  - apply List.Forall_forall. intros c Hc. eapply normalize_name_no_key. exact Hc.
  - intros Hx. apply List.Forall_forall. intros c Hc.
    destruct (is_greek c) eqn:Hgr; [|reflexivity].
    pose proof (normalize_name_from_input x c Hc Hgr) as Hin.
    rewrite List.Forall_forall in Hx. specialize (Hx c Hin Hgr).
    rewrite (normalize_name_no_key x c Hc) in Hx. discriminate Hx.
Qed.

(** The amended C6 at the name of Rigel as Astrometry.net gives it. *)
Lemma C6_normalize_name_beta_ori :
  Forall (fun c => is_greek c = false)
         (normalize_name (946%N :: lit " Ori")).
Proof.
  apply (proj2 (C6_normalize_name_removes_mapped_greek (946%N :: lit " Ori"))).
  repeat constructor; vm_compute; congruence.
Defined.

(** C6 as stated fails: final sigma (U+03C2) is a Greek small letter, it is
    no key of [GREEK_MAP], and it is still there after normalization. *)
Lemma C6_final_sigma_survives :
  existsb is_greek_lower [962%N] = true /\
  normalize_name [962%N] = [962%N] /\
  existsb is_greek (normalize_name [962%N]) = true.
Proof. vm_compute. repeat split. Qed.

(** C7. Name normalization is idempotent. *)
Theorem C7_normalize_name_idempotent (x : str) :
  normalize_name (normalize_name x) = normalize_name x.
Proof.
  assert (Hfix : replace_greek GREEK_MAP (normalize_name x) = normalize_name x).
  { apply replace_greek_absent; [exact GREEK_MAP_letters|].
    intros g Hg Hin. apply greek_key_In in Hg.
    rewrite (normalize_name_no_key x g Hin) in Hg. discriminate Hg. }
  unfold normalize_name at 1. rewrite Hfix.
  unfold normalize_name.
  change (lit " ") with [32%N].
  rewrite split_join by apply split_words.
  reflexivity.
Qed.

End NormalizeTheorems.


(** ** constellation_data.py: matching a pattern against the annotations *)

Section MatchFacts.
Import PyStr Unicode ConstellationData Inputs.

Lemma startswith_app (p s : str) :
  startswith p s = true <-> exists v, s = p ++ v.
Proof.
  revert s. induction p as [|a p IH]; intros s; simpl.
  - split; [intros _; exists s; reflexivity|reflexivity].
  - destruct s as [|b s].
    + split; [discriminate|intros [v Hv]; discriminate].
    + rewrite andb_true_iff, N.eqb_eq, IH. split.
      * intros [-> [v ->]]. exists v. reflexivity.
      * intros [v Hv]. injection Hv as -> ->. split; [reflexivity|exists v; reflexivity].
Qed.

Lemma contains_app (p s : str) :
  contains p s = true <-> exists u v, s = u ++ p ++ v.
Proof.
  induction s as [|b s IH].
  - simpl. rewrite orb_false_r, startswith_app. split.
    + intros [v Hv]. exists [], v. exact Hv.
    + intros [u [v Huv]]. destruct u; [exists v; exact Huv|discriminate].
  - cbn [contains]. rewrite orb_true_iff, startswith_app, IH. split.
    + intros [[v Hv]|[u [v Huv]]].
      * exists [], v. exact Hv.
      * exists (b :: u), v. simpl. rewrite Huv. reflexivity.
    + intros [u [v Huv]]. destruct u as [|c u].
      * left. exists v. exact Huv.
      * right. injection Huv as -> ->. exists u, v. reflexivity.
Qed.

(** A list cut in two is cut at some position. *)
Lemma cut_position (p l l' : str) :
  p = l ++ l' -> l' = skipn (List.length l) p.
Proof.
  intros ->. revert l'. induction l as [|a l IH]; intros l'; simpl;
    [reflexivity|apply IH].
Qed.

Lemma cut_length (p l l' : str) :
  p = l ++ l' -> (List.length l <= List.length p)%nat.
Proof. intros ->. rewrite length_app. lia. Qed.

(** No occurrence of "Eta Ori" overlaps an occurrence of "Theta Ori": the
    capital E is not in "Theta Ori" and the capital T is not in "Eta Ori".
    So a name around "Theta Ori" contains "Eta Ori" only where the text
    before or the text after contains it. *)
Lemma eta_around_theta (pre post : str) :
  contains ETA_ORI (pre ++ THETA_ORI ++ post) =
  contains ETA_ORI pre || contains ETA_ORI post.
Proof.
  apply eq_true_iff_eq. rewrite orb_true_iff, !contains_app. split.
  - intros [u [v Huv]].
    apply app_eq_app in Huv as [l [[-> Hl]|[-> Hl]]].
    + (* the occurrence starts in the text before *)
      apply app_eq_app in Hl as [l2 [[Hcut Hrest]|[-> ->]]].
      * pose proof (cut_position _ _ _ Hcut) as Hl2.
        pose proof (cut_length _ _ _ Hcut) as Hlen.
        remember (List.length l) as n eqn:Hn. clear Hn.
        change (List.length ETA_ORI) with 7%nat in Hlen.
        do 7 (destruct n as [|n];
               [exfalso; vm_compute in Hl2; subst l2;
                vm_compute in Hrest; discriminate Hrest|]).
        destruct n as [|n]; [|lia].
        vm_compute in Hl2. subst l2. rewrite app_nil_r in Hcut. subst l.
        left. exists u, []. reflexivity.
      * left. exists u, l2. reflexivity.
    + (* the occurrence starts at or after the start of "Theta Ori" *)
      apply app_eq_app in Hl as [l2 [[Hcut Hrest]|[-> ->]]].
      * pose proof (cut_position _ _ _ Hcut) as Hl2.
        pose proof (cut_length _ _ _ Hcut) as Hlen.
        remember (List.length l) as n eqn:Hn. clear Hn.
        change (List.length THETA_ORI) with 9%nat in Hlen.
        do 9 (destruct n as [|n];
               [exfalso; vm_compute in Hl2; subst l2;
                vm_compute in Hrest; discriminate Hrest|]).
        destruct n as [|n]; [|lia].
        vm_compute in Hl2. subst l2.
        right. exists [], v. symmetry. exact Hrest.
      * right. exists l2, v. reflexivity.
  - intros [[u [v ->]]|[u [v ->]]].
    + exists u, (v ++ THETA_ORI ++ post). rewrite <- !app_assoc. reflexivity.
    + exists (pre ++ THETA_ORI ++ u), v. rewrite <- !app_assoc. reflexivity.
Qed.

Lemma find_star_sound {num : Type} (pat : str)
    (annotations : list (annotation num)) (star : annotation num) :
  find_star_in_annotations pat annotations = Some star ->
  In star annotations /\
  exists alias, In alias (names_of star) /\
                contains pat (normalize_name alias) = true.
Proof.
  induction annotations as [|a rest IH]; cbn [find_star_in_annotations];
    [intros Hf; discriminate Hf|].
  destruct (existsb _ (names_of a)) eqn:Hex.
  - intros Hf. injection Hf as <-. split; [left; reflexivity|].
    apply existsb_exists in Hex. exact Hex.
  - intros Hf. destruct (IH Hf) as [Hin Hal]. split; [right; exact Hin|exact Hal].
Qed.

Lemma find_star_none {num : Type} (pat : str) (annotations : list (annotation num)) :
  (forall star alias, In star annotations -> In alias (names_of star) ->
                      contains pat (normalize_name alias) = false) ->
  find_star_in_annotations pat annotations = None.
Proof.
  intros Hno. destruct (find_star_in_annotations pat annotations) as [star|] eqn:Hf;
    [|reflexivity].
  apply find_star_sound in Hf as [Hin [alias [Hal Hc]]].
  rewrite (Hno star alias Hin Hal) in Hc. discriminate Hc.
Qed.

(** C10 (as amended). Matching is case-sensitive substring containment:
    "Eta Ori" is no substring of "Theta Ori". Whenever the pattern
    "Eta Ori" is resolved, the matched annotation has a name whose
    normalization contains the text "Eta Ori" itself, and if that
    normalized name also contains "Theta Ori", then "Eta Ori" already
    occurs in the text before or in the text after "Theta Ori". *)
Theorem C10_eta_ori_needs_its_own_text {num : Type}
    (annotations : list (annotation num)) (star : annotation num) :
  find_star_in_annotations ETA_ORI annotations = Some star ->
  contains ETA_ORI THETA_ORI = false /\
  exists alias,
    In alias (names_of star) /\
    contains ETA_ORI (normalize_name alias) = true /\
    forall pre post,
      normalize_name alias = pre ++ THETA_ORI ++ post ->
      contains ETA_ORI pre = true \/ contains ETA_ORI post = true.
Proof.
  intros Hf. split; [reflexivity|].
  apply find_star_sound in Hf as [_ [alias [Hal Hc]]].
  exists alias. split; [exact Hal|]. split; [exact Hc|].
  intros pre post Heq. rewrite Heq, eta_around_theta in Hc.
  apply orb_true_iff. exact Hc.
Qed.

(** The amended C10 at an annotation whose name lists theta Orionis and
    eta Orionis. *)
Lemma C10_eta_ori_listed_with_theta_ori :
  contains ETA_ORI THETA_ORI = false /\
  exists alias,
    In alias (names_of (star_named [theta_and_eta_ori])) /\
    contains ETA_ORI (normalize_name alias) = true /\
    forall pre post,
      normalize_name alias = pre ++ THETA_ORI ++ post ->
      contains ETA_ORI pre = true \/ contains ETA_ORI post = true.
Proof.
  apply (C10_eta_ori_needs_its_own_text [star_named [theta_and_eta_ori]]).
  reflexivity.
Defined.

(** C10 as stated fails: the name of theta Orionis normalizes to
    "Theta Ori", the pattern "Eta Ori" does not match it, and no
    annotation is matched through the "eta Ori" inside a "Theta Ori" of its
    only name. *)
Lemma C10_theta_ori_not_matched :
  normalize_name theta_ori = THETA_ORI /\
  find_star_in_annotations ETA_ORI [star_named [theta_ori]] = None /\
  (forall num : Type,
     ~ (exists (annotations : list (annotation num)) star alias pre post,
          find_star_in_annotations ETA_ORI annotations = Some star /\
          names star = Some [alias] /\
          normalize_name alias = pre ++ THETA_ORI ++ post /\
          contains ETA_ORI pre = false /\
          contains ETA_ORI post = false)).
Proof.
  split; [reflexivity|]. split; [reflexivity|].
  intros num [annotations [star [alias [pre [post [Hf [Hn [Heq [Hpre Hpost]]]]]]]]].
  apply find_star_sound in Hf as [_ [alias' [Hal Hc]]].
  unfold names_of in Hal. rewrite Hn in Hal.
  destruct Hal as [<-|[]].
  rewrite Heq, eta_around_theta, Hpre, Hpost in Hc. discriminate Hc.
Qed.

End MatchFacts.

(** ** annotate_fits.py: separations along a constellation line *)

Section GeometryFacts.
Import PyStr ConstellationData AnnotateFits.
Local Open Scope R_scope.

Lemma dict_get_In {V : Type} (key : str) (d : list (str * V)) (v : V) :
  dict_get key d = Some v -> In v (List.map snd d).
Proof.
  induction d as [|[k x] d IH]; simpl; [intros Hd; discriminate Hd|].
  destruct (str_eqb key k).
  - intros Hd. injection Hd as ->. left. reflexivity.
  - intros Hd. right. apply IH. exact Hd.
Qed.

(** No star of the catalog has the distance zero, so a known distance is a
    true value in [if d1 and d2]. *)
Lemma STAR_DISTANCES_LY_truthy (key : str) (d : R) :
  dict_get key STAR_DISTANCES_LY = Some d -> float_truthy d = true.
Proof.
  intros Hd. apply dict_get_In in Hd.
  unfold float_truthy. destruct (Req_EM_T d 0) as [Hz|Hnz]; [|reflexivity].
  exfalso. subst d. simpl in Hd.
  repeat (destruct Hd as [Hd|Hd]; [lra|]). exact Hd.
Qed.

Lemma radians_0 : radians 0 = 0.
Proof. unfold radians. lra. Qed.

Lemma radians_180 : radians 180 = PI.
Proof. unfold radians. lra. Qed.

Lemma dist_ly_same_direction : dist_ly 100 100 0 = 0.
Proof.
  unfold dist_ly. rewrite radians_0, cos_0.
  replace (100 ^ 2 + 100 ^ 2 - 2 * 100 * 100 * 1) with 0 by lra.
  apply sqrt_0.
Qed.

Lemma dist_ly_opposite : dist_ly 100 100 180 = 200.
Proof.
  unfold dist_ly. rewrite radians_180, cos_PI.
  replace (100 ^ 2 + 100 ^ 2 - 2 * 100 * 100 * -1) with (200 ^ 2) by lra.
  apply sqrt_pow2. lra.
Qed.

(** C9. For a line both of whose end stars are found among the annotations
    and have a distance in [STAR_DISTANCES_LY], and with a pixel scale, the
    label carries the angular separation theta (pixel distance times pixel
    scale) and the physical separation
    sqrt(d1^2 + d2^2 - 2 d1 d2 cos(theta in radians)); this formula gives 0
    for d1 = d2 = 100 at 0 degrees and 200 at 180 degrees. *)
Theorem C9_law_of_cosines
    (annotations : list (annotation R)) (star1_pat star2_pat : str)
    (star1 star2 : annotation R) (scale d1 d2 : R) :
  find_star_in_annotations star1_pat annotations = Some star1 ->
  find_star_in_annotations star2_pat annotations = Some star2 ->
  scale <> 0 ->
  dict_get star1_pat STAR_DISTANCES_LY = Some d1 ->
  dict_get star2_pat STAR_DISTANCES_LY = Some d2 ->
  (exists seg lab,
     draw_line (Some scale) annotations star1_pat star2_pat = Some seg /\
     seg_label seg = Some lab /\
     label_deg lab =
       dist_px (pixelx star1) (pixely star1) (pixelx star2) (pixely star2) * scale /\
     label_ly lab =
       Some (sqrt (d1 ^ 2 + d2 ^ 2
                   - 2 * d1 * d2 * cos (label_deg lab * PI / 180)))) /\
  dist_ly 100 100 0 = 0 /\
  dist_ly 100 100 180 = 200.
Proof.
  intros H1 H2 Hs Hd1 Hd2.
  split; [|split; [exact dist_ly_same_direction|exact dist_ly_opposite]].
  unfold draw_line. rewrite H1, H2.
  assert (Hscale : float_truthy scale = true).
  { unfold float_truthy. destruct (Req_EM_T scale 0); [contradiction|reflexivity]. }
  rewrite Hscale, Hd1, Hd2.
  rewrite (STAR_DISTANCES_LY_truthy _ _ Hd1), (STAR_DISTANCES_LY_truthy _ _ Hd2).
  eexists. eexists. split; [reflexivity|]. split; [reflexivity|].
  split; reflexivity.
Qed.

(** Every star of a line of [CONSTELLATION_LINES] has a distance in
    [STAR_DISTANCES_LY]. *)
Lemma CONSTELLATION_LINES_distances_known (star1_pat star2_pat : str) :
  In (star1_pat, star2_pat) (concat (List.map snd CONSTELLATION_LINES)) ->
  exists d1 d2,
    dict_get star1_pat STAR_DISTANCES_LY = Some d1 /\
    dict_get star2_pat STAR_DISTANCES_LY = Some d2.
Proof.
  intros Hin. cbn in Hin.
  repeat (destruct Hin as [Hin|Hin];
          [injection Hin as <- <-; eexists; eexists; split; reflexivity|]).
  destruct Hin.
Qed.

(** The 40 pixels between the two stars of the scenario of the spec are
    0.04 degrees at 0.001 degrees per pixel. *)
Lemma dist_px_scenario : dist_px 10 10 50 10 * 0.001 = 0.04.
Proof.
  unfold dist_px.
  replace ((50 - 10) ^ 2 + (10 - 10) ^ 2) with (40 ^ 2) by lra.
  rewrite sqrt_pow2 by lra. lra.
Qed.

(** C9 at the line from alpha to beta Orionis with a pixel scale of
    0.001 degrees per pixel. *)
Lemma C9_alpha_beta_ori :
  (exists seg lab,
     draw_line (Some 0.001) [Inputs.alpha_ori_star; Inputs.beta_ori_star]
               (lit "Alpha Ori") (lit "Beta Ori") = Some seg /\
     seg_label seg = Some lab /\
     label_deg lab = dist_px 10 10 50 10 * 0.001 /\
     label_ly lab =
       Some (sqrt (642.5 ^ 2 + 863.0 ^ 2
                   - 2 * 642.5 * 863.0 * cos (label_deg lab * PI / 180)))) /\
  dist_ly 100 100 0 = 0 /\
  dist_ly 100 100 180 = 200.
Proof.
  apply (C9_law_of_cosines [Inputs.alpha_ori_star; Inputs.beta_ori_star]
           (lit "Alpha Ori") (lit "Beta Ori")
           Inputs.alpha_ori_star Inputs.beta_ori_star 0.001 642.5 863.0);
    try reflexivity.
  lra.
Defined.

End GeometryFacts.

(** ** client.py: one request *)

Section RequestFacts.
Import Py Runtime Client Notions.
Context `{Library}.
Local Open Scope string_scope.
Local Open Scope list_scope.

Lemma inject_session_frame (args : loc) (w : world) :
  net (inject_session args w) = net w /\
  sent (inject_session args w) = sent w /\
  session (inject_session args w) = session w /\
  files (inject_session args w) = files w /\
  slept (inject_session args w) = slept w /\
  rnd (inject_session args w) = rnd w.
Proof. unfold inject_session. destruct (is_none (session w)); repeat split. Qed.

(** The world in which the reply is handled: the session is injected and
    the request is on the log. *)
Lemma send_request_eq (service : string) (args : loc)
    (file_args : option (string * string)) (w : world) :
  send_request service args file_args w =
  handle_reply (http_reply (net w (List.length (sent w))))
    (with_sent (sent w ++ [build_request service args file_args (inject_session args w)])
               (inject_session args w)).
Proof.
  destruct (inject_session_frame args w) as (Hnet & Hsent & _).
  unfold send_request, urlopen, bind, exchange_with, ret.
  rewrite Hnet, Hsent. reflexivity.
Qed.

(** Handling a reply touches nothing but the files. *)
Lemma handle_reply_frame (f : reply) (w : world) :
  let w' := snd (handle_reply f w) in
  net w' = net w /\ sent w' = sent w /\ heap w' = heap w /\
  session w' = session w /\ slept w' = slept w /\ rnd w' = rnd w.
Proof.
  destruct f as [status txt|code txt|]; cbn -[json2python get eq_str];
    [|repeat split..].
  unfold bind, lift, raise, ret.
  destruct (get (json2python txt) "status" PNone) as [stat|e|]; [|repeat split..].
  destruct (eq_str stat "error"); [|repeat split].
  destruct (get (json2python txt) "errormessage" (PStr "(none)")) as [errstr|e|];
    [|repeat split..].
  destruct errstr; repeat split.
Qed.

Lemma send_request_frame (service : string) (args : loc)
    (file_args : option (string * string)) (w : world) :
  let w' := snd (send_request service args file_args w) in
  net w' = net w /\
  sent w' = sent w ++ [build_request service args file_args (inject_session args w)] /\
  heap w' = heap (inject_session args w) /\
  session w' = session w /\ slept w' = slept w /\ rnd w' = rnd w.
Proof.
  cbv zeta. rewrite send_request_eq.
  destruct (handle_reply_frame
              (http_reply (net w (List.length (sent w))))
              (with_sent (sent w ++ [build_request service args file_args
                                       (inject_session args w)])
                         (inject_session args w)))
    as (Hnet & Hsent & Hheap & Hsess & Hslept & Hrnd).
  destruct (inject_session_frame args w) as (Inet & Isent & Isess & _ & Islept & Irnd).
  rewrite Hnet, Hsent, Hheap, Hsess, Hslept, Hrnd. cbn.
  rewrite Inet, Isess, Islept, Irnd. repeat split.
Qed.

Lemma send_request_sent_length (service : string) (args : loc)
    (file_args : option (string * string)) (w : world) :
  List.length (sent (snd (send_request service args file_args w))) =
  S (List.length (sent w)).
Proof.
  destruct (send_request_frame service args file_args w) as (_ & Hsent & _).
  rewrite Hsent, length_app. simpl. lia.
Qed.

Lemma build_request_url (service : string) (args : loc)
    (file_args : option (string * string)) (w : world) :
  req_url (build_request service args file_args w) = get_url service.
Proof.
  unfold build_request. destruct (encode _ _ _). reflexivity.
Qed.

Lemma http_reply_failure (code : Z) (body : string) :
  (code < 200 \/ 300 <= code)%Z ->
  http_reply (Answer code body) = HTTPFailure code body.
Proof.
  intros Hc. unfold http_reply.
  destruct ((200 <=? code) && (code <? 300))%Z eqn:Hb; [|reflexivity].
  apply andb_prop in Hb as [H1 H2].
  apply Z.leb_le in H1. apply Z.ltb_lt in H2. lia.
Qed.

Lemma http_reply_opened (code : Z) (body : string) :
  (200 <= code < 300)%Z ->
  http_reply (Answer code body) = Opened code body.
Proof.
  intros [H1 H2]. unfold http_reply.
  apply Z.leb_le in H1. apply Z.ltb_lt in H2. rewrite H1, H2. reflexivity.
Qed.

(** A JSON object that reports no error is what [send_request] returns. *)
Lemma send_request_object (service : string) (args : loc)
    (file_args : option (string * string)) (w : world)
    (code : Z) (body : string) (d : pydict) (stat : pyval) :
  net w (List.length (sent w)) = Answer code body ->
  (200 <= code < 300)%Z ->
  json_loads body = Some (PDict d) ->
  get (PDict d) "status" PNone = Return stat ->
  eq_str stat "error" = false ->
  fst (send_request service args file_args w) = Return (PDict d).
Proof.
  intros Hnet Hcode Hjson Hstat Herr.
  rewrite send_request_eq, Hnet, (http_reply_opened _ _ Hcode).
  unfold handle_reply, json2python, bind, lift, ret. rewrite Hjson, Hstat, Herr.
  reflexivity.
Qed.

Lemma tolerated_returns (service : string) (args : loc)
    (file_args : option (string * string)) (w : world) :
  tolerated (net w (List.length (sent w))) = true ->
  exists v, fst (send_request service args file_args w) = Return v.
Proof.
  rewrite send_request_eq. unfold tolerated, http_reply.
  destruct (net w (List.length (sent w))) as [code body|]; [|intros Hf; discriminate Hf].
  destruct ((200 <=? code) && (code <? 300))%Z.
  - unfold handle_reply, json2python, bind, lift, ret, get.
    destruct (json_loads body) as [[| | | | |d]|]; try (intros Hf; discriminate Hf).
    destruct (dict_lookup "status" d) as [stat|].
    + intros Hs. apply negb_true_iff in Hs. rewrite Hs. eexists. reflexivity.
    + intros _. eexists. reflexivity.
  - intros _. eexists. reflexivity.
Qed.

Lemma not_tolerated_raises (service : string) (args : loc)
    (file_args : option (string * string)) (w : world) :
  tolerated (net w (List.length (sent w))) = false ->
  exists e, fst (send_request service args file_args w) = Raise e.
Proof.
  rewrite send_request_eq. unfold tolerated, http_reply.
  destruct (net w (List.length (sent w))) as [code body|];
    [|intros _; eexists; reflexivity].
  destruct ((200 <=? code) && (code <? 300))%Z; [|intros Hf; discriminate Hf].
  unfold handle_reply, json2python, bind, lift, ret, raise, get.
  destruct (json_loads body) as [[| | | | |d]|]; try (intros _; eexists; reflexivity).
  destruct (dict_lookup "status" d) as [stat|]; [|intros Hf; discriminate Hf].
  intros Hs. apply negb_false_iff in Hs. rewrite Hs.
  destruct (dict_lookup "errormessage" d) as [[]|]; eexists; reflexivity.
Qed.

End RequestFacts.

Section RequestTheorems.
Import Py Runtime Client Notions.
Context `{Library}.
Local Open Scope string_scope.
Local Open Scope list_scope.

(** C1 (as amended). When the exchange ends with a status outside 2xx,
    [send_request] writes the raw body of the response to the file
    err.html and then returns [None] to its caller; it raises nothing. *)
Theorem C1_http_failure_is_saved_and_swallowed
    (service : string) (args : loc) (file_args : option (string * string))
    (w : world) (code : Z) (body : string) :
  net w (List.length (sent w)) = Answer code body ->
  (code < 200 \/ 300 <= code)%Z ->
  fst (send_request service args file_args w) = Return PNone /\
  files (snd (send_request service args file_args w)) !! "err.html" = Some body.
Proof.
  intros Hnet Hcode.
  rewrite send_request_eq, Hnet, (http_reply_failure _ _ Hcode).
  split; [reflexivity|].
  cbn. apply lookup_insert_eq.
Qed.

(** C2 (what the code does). When the exchange succeeds and the body is
    not JSON, [json2python] gives [None] and [send_request] ends with the
    [AttributeError] of [None.get]; [MalformedResponse] is never raised. *)
Theorem C2_undecodable_body_raises_AttributeError
    (service : string) (args : loc) (file_args : option (string * string))
    (w : world) (code : Z) (body : string) :
  net w (List.length (sent w)) = Answer code body ->
  (200 <= code < 300)%Z ->
  json_loads body = None ->
  fst (send_request service args file_args w) = Raise AttributeError.
Proof.
  intros Hnet Hcode Hjson.
  rewrite send_request_eq, Hnet, (http_reply_opened _ _ Hcode).
  unfold handle_reply, json2python. rewrite Hjson. reflexivity.
Qed.

Lemma dict_store_other (key k : string) (v : pyval) (d : pydict) :
  key <> k -> dict_lookup key (dict_store k v d) = dict_lookup key d.
Proof.
  intros Hne. induction d as [|[k' v'] d IH]; simpl.
  - destruct (String.eqb_spec key k); [contradiction|reflexivity].
  - destruct (String.eqb_spec k k') as [<-|Hk]; simpl.
    + destruct (String.eqb_spec key k); [contradiction|reflexivity].
    + destruct (String.eqb_spec key k'); [reflexivity|exact IH].
Qed.

Lemma load_inject_session_other (args l : loc) (w : world) :
  l <> args -> load l (inject_session args w) = load l w.
Proof.
  intros Hne. unfold inject_session. destruct (is_none (session w)); [reflexivity|].
  unfold load. cbn. rewrite lookup_insert_ne by congruence. reflexivity.
Qed.

Lemma load_inject_session (args : loc) (w : world) :
  load args (inject_session args w) =
  if is_none (session w) then load args w
  else dict_store "session" (session w) (load args w).
Proof.
  unfold inject_session. destruct (is_none (session w)); [reflexivity|].
  unfold load at 1. cbn. rewrite lookup_insert_eq. reflexivity.
Qed.

Lemma load_after_send_request (service : string) (args : loc)
    (file_args : option (string * string)) (w : world) (l : loc) :
  load l (snd (send_request service args file_args w)) =
  load l (inject_session args w).
Proof.
  destruct (send_request_frame service args file_args w) as (_ & _ & Hheap & _).
  unfold load. rewrite Hheap. reflexivity.
Qed.

(** C5 (as amended). [send_request] leaves every dict object other than
    the one passed as [args] unchanged, and [args] too when the client has
    no session. When a session is set it stores the token under the key
    session in the dict object of the caller itself; the other keys of
    that dict keep their values. *)
Theorem C5_session_is_injected_in_place
    (service : string) (args : loc) (file_args : option (string * string))
    (w : world) :
  (forall l, l <> args ->
     load l (snd (send_request service args file_args w)) = load l w) /\
  (session w = PNone ->
     load args (snd (send_request service args file_args w)) = load args w) /\
  (session w <> PNone ->
     load args (snd (send_request service args file_args w)) =
     dict_store "session" (session w) (load args w)) /\
  (forall key, key <> "session" ->
     dict_lookup key (load args (snd (send_request service args file_args w))) =
     dict_lookup key (load args w)).
Proof.
  repeat split.
  - intros l Hl. rewrite load_after_send_request.
    apply load_inject_session_other. exact Hl.
  - intros Hs. rewrite load_after_send_request, load_inject_session, Hs.
    reflexivity.
  - intros Hs. rewrite load_after_send_request, load_inject_session.
    destruct (session w); try reflexivity. contradiction.
  - intros key Hkey. rewrite load_after_send_request, load_inject_session.
    destruct (is_none (session w)); [reflexivity|].
    apply dict_store_other. exact Hkey.
Qed.

End RequestTheorems.

Section RequestExamples.
Import Py Runtime Client Notions Inputs.
#[local] Existing Instance Concrete.library.
Local Open Scope string_scope.
Local Open Scope list_scope.

(** The amended C1 at a login that the server answers with status 500. *)
Lemma C1_login_answered_500 :
  fst (send_request "login" caller_args None
         (Concrete.start (Concrete.script [Answer 500 error_page]))) = Return PNone /\
  files (snd (send_request "login" caller_args None
                (Concrete.start (Concrete.script [Answer 500 error_page]))))
    !! "err.html" = Some error_page.
Proof.
  apply (C1_http_failure_is_saved_and_swallowed "login" caller_args None
           (Concrete.start (Concrete.script [Answer 500 error_page]))
           500 error_page).
  - reflexivity.
  - right. lia.
Defined.

(** C1 as stated fails: after a status 500 the call returns [None]; no
    [HTTPError], and no other exception, reaches the caller. *)
Lemma C1_status_500_returns_None :
  fst (send_request "login" caller_args None
         (Concrete.start (Concrete.script [Answer 500 error_page]))) = Return PNone /\
  fst (send_request "login" caller_args None
         (Concrete.start (Concrete.script [Answer 500 error_page])))
    <> Raise (HTTPError 500).
Proof. split; [reflexivity|intros Hf; discriminate Hf]. Qed.

(** C2 at a status 200 whose body is an HTML page. *)
Lemma C2_html_page_with_status_200 :
  fst (send_request "login" caller_args None
         (Concrete.start (Concrete.script [Answer 200 error_page])))
  = Raise AttributeError.
Proof.
  apply (C2_undecodable_body_raises_AttributeError "login" caller_args None
           (Concrete.start (Concrete.script [Answer 200 error_page]))
           200 error_page).
  - reflexivity.
  - lia.
  - reflexivity.
Defined.

(** The amended C5 at a client that is logged in. *)
Lemma C5_logged_in_call :
  load caller_args
    (snd (send_request "submission_images" caller_args None
            (logged_in (Concrete.script [Answer 200 job_success])))) =
  dict_store "session" (PStr "0123abcd") [("subid", PInt 1)].
Proof.
  apply (proj1 (proj2 (proj2
           (C5_session_is_injected_in_place "submission_images" caller_args None
              (logged_in (Concrete.script [Answer 200 job_success])))))).
  intros Hf. discriminate Hf.
Defined.

(** C5 as stated fails: with a session, the dict of the caller has one
    more key after the call, and the default dict of [send_request], empty
    before, holds the token after a call without [args]. *)
Lemma C5_caller_dict_is_mutated :
  load caller_args (logged_in (Concrete.script [Answer 200 job_success])) =
    [("subid", PInt 1)] /\
  load caller_args
    (snd (send_request "submission_images" caller_args None
            (logged_in (Concrete.script [Answer 200 job_success])))) =
    [("subid", PInt 1); ("session", PStr "0123abcd")] /\
  load default_args (logged_in (Concrete.script [Answer 200 job_success])) = [] /\
  load default_args
    (snd (send_request "myjobs/" default_args None
            (logged_in (Concrete.script [Answer 200 job_success])))) =
    [("session", PStr "0123abcd")].
Proof. repeat split; vm_compute; reflexivity. Qed.

End RequestExamples.

(** ** Polling a submission *)

Section PollFacts.
Import Py Runtime Client AstrometrySolver Notions.
Context `{Library}.
Local Open Scope string_scope.
Local Open Scope list_scope.

(** The world after the request of one poll of [wait_for_submission]. *)
Lemma requests_get_answer (url : string) (w : world) (code : Z) (body : string) :
  net w (List.length (sent w)) = Answer code body ->
  requests_get url w =
  (Return {| status_code := code; text := body |},
   with_sent (sent w ++ [{| req_url := url; req_headers := []; req_data := None |}]) w).
Proof.
  intros Hnet. unfold requests_get, bind, exchange_with, ret. rewrite Hnet. reflexivity.
Qed.

(** A poll that sees a finished submission ends the loop: the job list is
    returned when its first entry is not null, the empty list otherwise. *)
Lemma wait_for_submission_finished (rounds : nat) (sub_id : pyval) (w : world)
    (code : Z) (body : string) (d : pydict) (pf : pyval) (js : list pyval) :
  net w (List.length (sent w)) = Answer code body ->
  json_loads body = Some (PDict d) ->
  get (PDict d) "processing_finished" PNone = Return pf ->
  truthy pf = true ->
  get (PDict d) "jobs" (PList []) = Return (PList js) ->
  fst (wait_for_submission (S rounds) sub_id w) =
  Return (match js with
          | j :: _ => if is_none j then PList [] else PList js
          | [] => PList []
          end).
Proof.
  intros Hnet Hjson Hpf Htrue Hjobs.
  cbn [wait_for_submission]. unfold bind at 1.
  rewrite (requests_get_answer _ _ _ _ Hnet).
  unfold bind at 1. unfold response_json at 1. cbn [text]. rewrite Hjson.
  unfold ret at 1. unfold bind at 1. rewrite Hpf. unfold lift at 1.
  rewrite Htrue. unfold bind at 1. rewrite Hjobs. unfold lift at 1.
  destruct js as [|j js']; [reflexivity|].
  cbn [truthy List.length Nat.eqb negb]. unfold bind, lift. cbn [subscript0].
  destruct (is_none j); reflexivity.
Qed.

(** A poll that sees an unfinished submission sleeps two seconds and polls
    again. *)
Lemma wait_for_submission_unfinished (rounds : nat) (sub_id : pyval) (w : world)
    (code : Z) (body : string) (d : pydict) (pf : pyval) :
  net w (List.length (sent w)) = Answer code body ->
  json_loads body = Some (PDict d) ->
  get (PDict d) "processing_finished" PNone = Return pf ->
  truthy pf = false ->
  exists w1,
    wait_for_submission (S rounds) sub_id w = wait_for_submission rounds sub_id w1 /\
    net w1 = net w /\
    List.length (sent w1) = S (List.length (sent w)) /\
    slept w1 = (slept w + 2)%Z.
Proof.
  intros Hnet Hjson Hpf Hfalse.
  eexists. split.
  - cbn [wait_for_submission]. unfold bind at 1.
    rewrite (requests_get_answer _ _ _ _ Hnet).
    unfold bind at 1. unfold response_json at 1. cbn [text]. rewrite Hjson.
    unfold ret at 1. unfold bind at 1. rewrite Hpf. unfold lift at 1.
    rewrite Hfalse. unfold bind at 1. unfold sleep at 1. reflexivity.
  - cbn. rewrite length_app. cbn. repeat split. lia.
Qed.

(** [wait_for_submission] returns only from a poll whose response reports
    [processing_finished]. *)
Lemma wait_for_submission_returns (rounds : nat) (sub_id : pyval) :
  forall (w w' : world) (v : pyval),
    wait_for_submission rounds sub_id w = (Return v, w') ->
    exists (k : nat) (code : Z) (body : string) (d : pydict) (pf : pyval),
      List.length (sent w') = (List.length (sent w) + S k)%nat /\
      net w (List.length (sent w) + k)%nat = Answer code body /\
      json_loads body = Some (PDict d) /\
      get (PDict d) "processing_finished" PNone = Return pf /\
      truthy pf = true.
Proof.
  induction rounds as [|rounds IH]; intros w w' v Hret; [discriminate Hret|].
  destruct (net w (List.length (sent w))) as [code body|] eqn:Hnet.
  2:{ cbn [wait_for_submission] in Hret. unfold bind at 1 in Hret.
      unfold requests_get, bind, exchange_with, ret in Hret. rewrite Hnet in Hret.
      discriminate Hret. }
  destruct (json_loads body) as [result|] eqn:Hjson.
  2:{ cbn [wait_for_submission] in Hret. unfold bind at 1 in Hret.
      rewrite (requests_get_answer _ _ _ _ Hnet) in Hret.
      unfold bind at 1 in Hret. unfold response_json at 1 in Hret.
      cbn [text] in Hret. rewrite Hjson in Hret. discriminate Hret. }
  destruct (get result "processing_finished" PNone) as [pf|e|] eqn:Hpf.
  2,3: cbn [wait_for_submission] in Hret; unfold bind at 1 in Hret;
       rewrite (requests_get_answer _ _ _ _ Hnet) in Hret;
       unfold bind at 1 in Hret; unfold response_json at 1 in Hret;
       cbn [text] in Hret; rewrite Hjson in Hret;
       unfold ret at 1 in Hret; unfold bind at 1 in Hret; rewrite Hpf in Hret;
       discriminate Hret.
  assert (Hd : exists d, result = PDict d).
  { destruct result; try discriminate Hpf. eexists. reflexivity. }
  destruct Hd as [d ->].
  destruct (truthy pf) eqn:Htruthy.
  - exists 0%nat, code, body, d, pf.
    rewrite Nat.add_0_r. repeat split; try assumption.
    cbn [wait_for_submission] in Hret. unfold bind at 1 in Hret.
    rewrite (requests_get_answer _ _ _ _ Hnet) in Hret.
    unfold bind at 1 in Hret. unfold response_json at 1 in Hret.
    cbn [text] in Hret. rewrite Hjson in Hret.
    unfold ret at 1 in Hret. unfold bind at 1 in Hret. rewrite Hpf in Hret.
    unfold lift at 1 in Hret. rewrite Htruthy in Hret.
    assert (Hw : sent w' = sent w ++
                   [{| req_url := base_url +:+ "/submissions/" +:+ str_of sub_id;
                       req_headers := []; req_data := None |}]).
    { unfold bind, lift, ret in Hret.
      destruct (get (PDict d) "jobs" (PList [])) as [job_ids|e|];
        try discriminate Hret.
      destruct (truthy job_ids); [|injection Hret as _ <-; reflexivity].
      destruct (subscript0 job_ids) as [first|e|]; try discriminate Hret.
      destruct (negb (is_none first)); injection Hret as _ <-; reflexivity. }
    rewrite Hw, length_app. cbn. lia.
  - destruct (wait_for_submission_unfinished rounds sub_id w code body d pf
                Hnet Hjson Hpf Htruthy) as (w1 & Heq & Hnet1 & Hlen1 & _).
    rewrite Heq in Hret.
    destruct (IH _ _ _ Hret) as (k & code' & body' & d' & pf' & Hl & Hn & Hj & Hp & Ht).
    exists (S k), code', body', d', pf'.
    rewrite Hlen1 in Hl, Hn. rewrite Hnet1 in Hn.
    replace (List.length (sent w) + S k)%nat with (S (List.length (sent w)) + k)%nat by lia.
    repeat split; try assumption. lia.
Qed.

Lemma loop_var_first (js : list pyval) (j0 j : pyval) :
  first_non_null js = Some j ->
  loop_var js j0 = j /\ is_none j = false /\ js <> [].
Proof.
  unfold first_non_null. revert j0. induction js as [|x js IH]; intros j0 Hf;
    [discriminate Hf|].
  cbn [List.find loop_var] in *. destruct (is_none x) eqn:Hx; cbn [negb] in Hf.
  - destruct (IH x Hf) as (H1 & H2 & _). repeat split; [exact H1|exact H2|].
    intros Hnil. discriminate Hnil.
  - injection Hf as <-. repeat split; [exact Hx|]. intros Hnil. discriminate Hnil.
Qed.

Lemma loop_var_none (js : list pyval) (j0 : pyval) :
  first_non_null js = None -> is_none j0 = true -> is_none (loop_var js j0) = true.
Proof.
  unfold first_non_null. revert j0. induction js as [|x js IH]; intros j0 Hf Hj0;
    [exact Hj0|].
  cbn [List.find loop_var] in *. destruct (is_none x) eqn:Hx; cbn [negb] in Hf.
  - apply IH; assumption.
  - discriminate Hf.
Qed.

(** One poll of the loop of [run_client]: a job id that is not null ends
    the loop, whatever else the response says; without one the loop sleeps
    five seconds and polls again. *)
Lemma run_client_select_job_poll (rounds : nat) (sub_id : pyval) (w : world)
    (code : Z) (body : string) (d : pydict) (stat : pyval) (js : list pyval) :
  net w (List.length (sent w)) = Answer code body ->
  (200 <= code < 300)%Z ->
  json_loads body = Some (PDict d) ->
  get (PDict d) "status" PNone = Return stat ->
  eq_str stat "error" = false ->
  get (PDict d) "jobs" (PList []) = Return (PList js) ->
  match first_non_null js with
  | Some j => fst (run_client_select_job (S rounds) sub_id w) = Return j
  | None =>
      exists w1,
        run_client_select_job (S rounds) sub_id w =
        run_client_select_job rounds sub_id w1 /\
        net w1 = net w /\
        List.length (sent w1) = S (List.length (sent w)) /\
        slept w1 = (slept w + 5)%Z
  end.
Proof.
  intros Hnet Hcode Hjson Hstat Herr Hjobs.
  pose proof (send_request_object ("submissions/" +:+ str_of sub_id) default_args None
                w code body d stat Hnet Hcode Hjson Hstat Herr) as Hobj.
  pose proof (send_request_frame ("submissions/" +:+ str_of sub_id) default_args None w)
    as (Fnet & _ & _ & _ & Fslept & _).
  pose proof (send_request_sent_length ("submissions/" +:+ str_of sub_id)
                default_args None w) as Flen.
  assert (Hstep : run_client_select_job (S rounds) sub_id w =
    let w1 := snd (send_request ("submissions/" +:+ str_of sub_id) default_args None w) in
    if negb (Nat.eqb (List.length js) 0) && negb (is_none (loop_var js PNone))
    then (Return (loop_var js PNone), w1)
    else run_client_select_job rounds sub_id (with_slept (slept w1 + 5)%Z w1)).
  { cbn [run_client_select_job]. unfold bind at 1. unfold sub_status.
    unfold bind at 1.
    destruct (send_request ("submissions/" +:+ str_of sub_id) default_args None w)
      as [o w1].
    cbn [fst snd] in *. subst o. unfold ret at 1.
    unfold bind at 1. rewrite Hjobs. unfold lift at 1.
    unfold bind at 1. cbn [len]. unfold lift at 1. cbn [items].
    destruct (negb (Nat.eqb (List.length js) 0) && negb (is_none (loop_var js PNone)));
      [reflexivity|].
    unfold bind at 1. unfold sleep at 1. reflexivity. }
  destruct (first_non_null js) as [j|] eqn:Hfirst.
  - rewrite Hstep. cbv zeta.
    destruct (loop_var_first js PNone j Hfirst) as (Hj & Hnn & Hne).
    rewrite Hj, Hnn. destruct js as [|x js']; [contradiction|]. reflexivity.
  - eexists. split.
    + rewrite Hstep. cbv zeta.
      rewrite (loop_var_none js PNone Hfirst eq_refl), andb_false_r. reflexivity.
    + cbn [with_slept net sent slept]. rewrite Fnet, Flen, Fslept. repeat split.
Qed.

End PollFacts.

Section PollTheorems.
Import Py Runtime Client AstrometrySolver Notions.
Context `{Library}.
Local Open Scope string_scope.
Local Open Scope list_scope.

Lemma main_track_no_jobs (rounds : nat) (sub_id : pyval) (w : world) :
  fst (wait_for_submission rounds sub_id w) = Return (PList []) ->
  fst (main_track rounds sub_id w) = Return NoJobs.
Proof.
  unfold main_track, bind.
  destruct (wait_for_submission rounds sub_id w) as [o w1]. cbn [fst].
  intros ->. reflexivity.
Qed.

Lemma main_track_first (rounds : nat) (sub_id : pyval) (w : world)
    (j : pyval) (rest : list pyval) :
  fst (wait_for_submission rounds sub_id w) = Return (PList (j :: rest)) ->
  forall (t : tracked) (w' : world),
    main_track rounds sub_id w = (Return t, w') ->
    exists success calib, t = JobTracked j success calib.
Proof.
  unfold main_track, bind.
  destruct (wait_for_submission rounds sub_id w) as [o w1]. cbn [fst].
  intros -> t w'. cbn [truthy List.length Nat.eqb negb subscript0]. unfold lift at 1.
  destruct (wait_for_job rounds j w1) as [[[|]| |] w2]; try (intros Ht; discriminate Ht).
  - destruct (get_job_info j w2) as [[calib| |] w3]; try (intros Ht; discriminate Ht).
    unfold ret. intros Ht. injection Ht as <- _. eexists. eexists. reflexivity.
  - unfold ret. intros Ht. injection Ht as <- _. eexists. eexists. reflexivity.
Qed.

(** C3 (as amended). For a submission response that reports
    [processing_finished] and carries a list of job ids:
    [AstrometrySolver.wait_for_submission] returns the list, and [main]
    tracks its first entry, when that first entry is not null (it is then
    the first entry that is not null); when the list is empty or every
    entry is null it returns the empty list and [main] ends the image with
    "no jobs", without an exception. The loop of [run_client] selects the
    first entry that is not null whenever there is one. *)
Theorem C3_first_job_id
    (rounds : nat) (sub_id : pyval) (w : world)
    (code : Z) (body : string) (d : pydict) (pf : pyval) (js : list pyval) :
  net w (List.length (sent w)) = Answer code body ->
  json_loads body = Some (PDict d) ->
  get (PDict d) "processing_finished" PNone = Return pf ->
  truthy pf = true ->
  get (PDict d) "jobs" (PList []) = Return (PList js) ->
  (forall j rest,
     js = j :: rest -> is_none j = false ->
     first_non_null js = Some j /\
     fst (wait_for_submission (S rounds) sub_id w) = Return (PList js) /\
     forall t w',
       main_track (S rounds) sub_id w = (Return t, w') ->
       exists success calib, t = JobTracked j success calib) /\
  (first_non_null js = None ->
     fst (wait_for_submission (S rounds) sub_id w) = Return (PList []) /\
     fst (main_track (S rounds) sub_id w) = Return NoJobs) /\
  (forall stat j,
     (200 <= code < 300)%Z ->
     get (PDict d) "status" PNone = Return stat ->
     eq_str stat "error" = false ->
     first_non_null js = Some j ->
     fst (run_client_select_job (S rounds) sub_id w) = Return j).
Proof.
  intros Hnet Hjson Hpf Htrue Hjobs.
  pose proof (wait_for_submission_finished rounds sub_id w code body d pf js
                Hnet Hjson Hpf Htrue Hjobs) as Hwait.
  split; [|split].
  - intros j rest -> Hj. rewrite Hj in Hwait.
    split; [|split].
    + unfold first_non_null. cbn [List.find]. rewrite Hj. reflexivity.
    + exact Hwait.
    + apply (main_track_first (S rounds) sub_id w j rest). exact Hwait.
  - intros Hnone.
    assert (Hempty : fst (wait_for_submission (S rounds) sub_id w) = Return (PList [])).
    { destruct js as [|j rest]; [exact Hwait|].
      unfold first_non_null in Hnone. cbn [List.find] in Hnone.
      destruct (is_none j); [exact Hwait|discriminate Hnone]. }
    split; [exact Hempty|]. apply main_track_no_jobs. exact Hempty.
  - intros stat j Hcode Hstat Herr Hfirst.
    pose proof (run_client_select_job_poll rounds sub_id w code body d stat js
                  Hnet Hcode Hjson Hstat Herr Hjobs) as Hpoll.
    rewrite Hfirst in Hpoll. exact Hpoll.
Qed.

(** C4 (as amended). [AstrometrySolver.wait_for_submission] returns, so
    that [main] can go on to the job, only from a poll whose response
    reports a true [processing_finished]. The loop of [run_client] has no
    such gate: it selects the first job id that is not null of any response
    that carries one. *)
Theorem C4_job_discovery_gate :
  (forall (rounds : nat) (sub_id : pyval) (w w' : world) (v : pyval),
     wait_for_submission rounds sub_id w = (Return v, w') ->
     exists (k : nat) (code : Z) (body : string) (d : pydict) (pf : pyval),
       List.length (sent w') = (List.length (sent w) + S k)%nat /\
       net w (List.length (sent w) + k)%nat = Answer code body /\
       json_loads body = Some (PDict d) /\
       get (PDict d) "processing_finished" PNone = Return pf /\
       truthy pf = true) /\
  (forall (rounds : nat) (sub_id : pyval) (w : world)
          (code : Z) (body : string) (d : pydict) (stat : pyval)
          (js : list pyval) (j : pyval),
     net w (List.length (sent w)) = Answer code body ->
     (200 <= code < 300)%Z ->
     json_loads body = Some (PDict d) ->
     get (PDict d) "status" PNone = Return stat ->
     eq_str stat "error" = false ->
     get (PDict d) "jobs" (PList []) = Return (PList js) ->
     first_non_null js = Some j ->
     fst (run_client_select_job (S rounds) sub_id w) = Return j).
Proof.
  split.
  - intros rounds sub_id. apply wait_for_submission_returns.
  - intros rounds sub_id w code body d stat js j Hnet Hcode Hjson Hstat Herr Hjobs Hfirst.
    pose proof (run_client_select_job_poll rounds sub_id w code body d stat js
                  Hnet Hcode Hjson Hstat Herr Hjobs) as Hpoll.
    rewrite Hfirst in Hpoll. exact Hpoll.
Qed.

End PollTheorems.

Section PollExamples.
Import Py Runtime Client AstrometrySolver Notions Inputs.
#[local] Existing Instance Concrete.library.
Local Open Scope string_scope.
Local Open Scope list_scope.

(** The amended C3 at a finished submission with the job list [7]. *)
Lemma C3_finished_with_one_job :
  fst (wait_for_submission 1 (PInt 1)
         (Concrete.start (Concrete.script [Answer 200 finished_with_job])))
    = Return (PList [PInt 7]) /\
  fst (run_client_select_job 1 (PInt 1)
         (Concrete.start (Concrete.script [Answer 200 finished_with_job])))
    = Return (PInt 7).
Proof.
  destruct (C3_first_job_id 0 (PInt 1)
              (Concrete.start (Concrete.script [Answer 200 finished_with_job]))
              200 finished_with_job
              [("processing_finished", PBool true); ("jobs", PList [PInt 7])]
              (PBool true) [PInt 7]) as (Hfirst & _ & Hclient);
    [reflexivity..|].
  split.
  - apply (Hfirst (PInt 7) [] eq_refl eq_refl).
  - apply (Hclient PNone (PInt 7)); [lia|reflexivity..].
Defined.

(** C3 as stated fails on both pollers. After a finished response with the
    jobs [null, 7] the first job id that is not null is 7, and [main] of
    astrometry_solver.py ends with "no jobs". After finished responses with
    the jobs [null] the loop of [run_client] does not end: after three polls
    and fifteen seconds of sleep it is still polling. *)
Lemma C3_pollers_disagree :
  Concrete.loads finished_null_then_job =
    Some (PDict [("processing_finished", PBool true);
                 ("jobs", PList [PNone; PInt 7])]) /\
  first_non_null [PNone; PInt 7] = Some (PInt 7) /\
  fst (main_track 1 (PInt 1)
         (Concrete.start (Concrete.script [Answer 200 finished_null_then_job])))
    = Return NoJobs /\
  Concrete.loads finished_all_null =
    Some (PDict [("processing_finished", PBool true); ("jobs", PList [PNone])]) /\
  fst (run_client_select_job 3 (PInt 1)
         (Concrete.start (fun _ => Answer 200 finished_all_null))) = Pending /\
  slept (snd (run_client_select_job 3 (PInt 1)
                (Concrete.start (fun _ => Answer 200 finished_all_null)))) = 15%Z.
Proof. repeat split; vm_compute; reflexivity. Qed.

(** The amended C4 at a submission that is finished at the second poll. *)
Lemma C4_finished_at_second_poll :
  exists (k : nat) (code : Z) (body : string) (d : pydict) (pf : pyval),
    List.length
      (sent (snd (wait_for_submission 2 (PInt 1)
                    (Concrete.start
                       (Concrete.script [Answer 200 unfinished_no_job;
                                         Answer 200 finished_with_job])))))
    = (0 + S k)%nat /\
    Concrete.script [Answer 200 unfinished_no_job; Answer 200 finished_with_job]
                    (0 + k)%nat = Answer code body /\
    Concrete.loads body = Some (PDict d) /\
    get (PDict d) "processing_finished" PNone = Return pf /\
    truthy pf = true.
Proof.
  assert (Hrun :
    wait_for_submission 2 (PInt 1)
      (Concrete.start
         (Concrete.script [Answer 200 unfinished_no_job; Answer 200 finished_with_job]))
    = (Return (PList [PInt 7]),
       snd (wait_for_submission 2 (PInt 1)
              (Concrete.start
                 (Concrete.script [Answer 200 unfinished_no_job;
                                   Answer 200 finished_with_job])))))
    by (vm_compute; reflexivity).
  exact (proj1 C4_job_discovery_gate 2%nat (PInt 1) _ _ _ Hrun).
Defined.

(** C4 as stated fails: the loop of [run_client] takes the job id 7 from a
    response whose [processing_finished] is false, the first and only
    response of the run. *)
Lemma C4_run_client_selects_before_finished :
  Concrete.loads unfinished_with_job =
    Some (PDict [("processing_finished", PBool false); ("jobs", PList [PInt 7])]) /\
  fst (run_client_select_job 1 (PInt 1)
         (Concrete.start (Concrete.script [Answer 200 unfinished_with_job])))
    = Return (PInt 7) /\
  List.length
    (sent (snd (run_client_select_job 1 (PInt 1)
                  (Concrete.start (Concrete.script [Answer 200 unfinished_with_job])))))
    = 1%nat.
Proof. repeat split; vm_compute; reflexivity. Qed.

End PollExamples.

(** ** Fetching the results of a job *)

Section FetchFacts.
Import Py Runtime Client Notions.
Context `{Library}.
Local Open Scope string_scope.
Local Open Scope list_scope.

Lemma fetch_each_cons (service : string) (rest : list string) (w : world) :
  fetch_each (service :: rest) w =
  match send_request service default_args None w with
  | (Return _, w1) => fetch_each rest w1
  | (Raise e, w1) => (Raise e, w1)
  | (Pending, w1) => (Pending, w1)
  end.
Proof. reflexivity. Qed.

(** While the exchanges are tolerated every service is asked, in order. *)
Lemma fetch_each_tolerated (services : list string) :
  forall w : world,
    (forall i, (i < List.length services)%nat ->
               tolerated (net w (List.length (sent w) + i)%nat) = true) ->
    exists w',
      fetch_each services w = (Return tt, w') /\
      net w' = net w /\
      List.map req_url (sent w') =
      List.map req_url (sent w) ++ List.map get_url services.
Proof.
  induction services as [|service rest IH]; intros w Htol.
  - exists w. cbn. rewrite app_nil_r. repeat split.
  - rewrite fetch_each_cons.
    pose proof (Htol 0%nat ltac:(cbn; lia)) as H0. rewrite Nat.add_0_r in H0.
    destruct (tolerated_returns service default_args None w H0) as [v Hv].
    destruct (send_request_frame service default_args None w) as (Fnet & Fsent & _).
    pose proof (send_request_sent_length service default_args None w) as Flen.
    destruct (send_request service default_args None w) as [o w1].
    cbn [fst snd] in *. subst o.
    destruct (IH w1) as (w' & Hrun & Hnet & Hurls).
    { intros i Hi. rewrite Fnet, Flen.
      replace (S (List.length (sent w)) + i)%nat
        with (List.length (sent w) + S i)%nat by lia.
      apply Htol. cbn. lia. }
    exists w'. split; [exact Hrun|]. split; [congruence|].
    rewrite Hurls, Fsent, map_app. cbn [List.map].
    rewrite build_request_url, <- app_assoc. reflexivity.
Qed.

(** The first exchange that is not tolerated ends the loop with its
    exception: the services after it are not asked. *)
Lemma fetch_each_aborts (services : list string) :
  forall (w : world) (k : nat),
    (k < List.length services)%nat ->
    (forall i, (i < k)%nat ->
               tolerated (net w (List.length (sent w) + i)%nat) = true) ->
    tolerated (net w (List.length (sent w) + k)%nat) = false ->
    exists e w',
      fetch_each services w = (Raise e, w') /\
      List.length (sent w') = (List.length (sent w) + S k)%nat.
Proof.
  induction services as [|service rest IH]; intros w k Hk Htol Hbad;
    [cbn in Hk; lia|].
  rewrite fetch_each_cons.
  destruct (send_request_frame service default_args None w) as (Fnet & _).
  pose proof (send_request_sent_length service default_args None w) as Flen.
  destruct k as [|k].
  - rewrite Nat.add_0_r in Hbad.
    destruct (not_tolerated_raises service default_args None w Hbad) as [e He].
    destruct (send_request service default_args None w) as [o w1].
    cbn [fst snd] in *. subst o.
    exists e, w1. split; [reflexivity|lia].
  - pose proof (Htol 0%nat ltac:(lia)) as H0. rewrite Nat.add_0_r in H0.
    destruct (tolerated_returns service default_args None w H0) as [v Hv].
    destruct (send_request service default_args None w) as [o w1].
    cbn [fst snd] in *. subst o.
    destruct (IH w1 k) as (e & w' & Hrun & Hlen).
    + cbn in Hk. lia.
    + intros i Hi. rewrite Fnet, Flen.
      replace (S (List.length (sent w)) + i)%nat
        with (List.length (sent w) + S i)%nat by lia.
      apply Htol. lia.
    + rewrite Fnet, Flen.
      replace (S (List.length (sent w)) + k)%nat
        with (List.length (sent w) + S k)%nat by lia.
      exact Hbad.
    + exists e, w'. split; [exact Hrun|]. rewrite Hlen, Flen. lia.
Qed.

(** [job_status] with its six calls read as the loop [fetch_each]. *)
Lemma job_status_eq (job_id : pyval) (w : world) :
  job_status job_id false w =
  match send_request ("jobs/" +:+ str_of job_id) default_args None w with
  | (Return result, w1) =>
      match get result "status" PNone with
      | Return stat =>
          if eq_str stat "success" then
            match fetch_each (sub_fetches ("jobs/" +:+ str_of job_id)) w1 with
            | (Return _, w2) => (Return stat, w2)
            | (Raise e, w2) => (Raise e, w2)
            | (Pending, w2) => (Pending, w2)
            end
          else (Return stat, w1)
      | Raise e => (Raise e, w1)
      | Pending => (Pending, w1)
      end
  | (Raise e, w1) => (Raise e, w1)
  | (Pending, w1) => (Pending, w1)
  end.
Proof.
  unfold job_status. cbv zeta. unfold bind at 1.
  destruct (send_request ("jobs/" +:+ str_of job_id) default_args None w)
    as [[result|e|] w1]; try reflexivity.
  cbv iota beta. unfold bind at 1. unfold lift at 1.
  destruct (get result "status" PNone) as [stat|e|]; try reflexivity.
  unfold bind at 1.
  destruct (eq_str stat "success"); [|reflexivity].
  change (run send_request (("jobs/" +:+ str_of job_id) +:+ "/calibration")
                default_args None then
          run send_request (("jobs/" +:+ str_of job_id) +:+ "/tags")
                default_args None then
          run send_request (("jobs/" +:+ str_of job_id) +:+ "/machine_tags")
                default_args None then
          run send_request (("jobs/" +:+ str_of job_id) +:+ "/objects_in_field")
                default_args None then
          run send_request (("jobs/" +:+ str_of job_id) +:+ "/annotations")
                default_args None then
          run send_request (("jobs/" +:+ str_of job_id) +:+ "/info")
                default_args None then
          ret tt)%py
    with (fetch_each (sub_fetches ("jobs/" +:+ str_of job_id))).
  destruct (fetch_each (sub_fetches ("jobs/" +:+ str_of job_id)) w1)
    as [[u|e|] w2]; reflexivity.
Qed.

(** C8 (as amended). For a job whose status is success, [Client.job_status]
    asks for the six results in order. A request that ends with a status
    outside 2xx gives [None] and the requests after it are still made; when
    all six exchanges are of this kind or give a JSON object without an
    error status, all six are made and the status is returned. The first
    request whose exchange is not of this kind, as when the server reports
    an error of its own, raises out of [job_status], and the requests after
    it are not made. *)
Theorem C8_job_status_sub_fetches
    (job_id : pyval) (w : world) (code : Z) (body : string) (d : pydict) :
  net w (List.length (sent w)) = Answer code body ->
  (200 <= code < 300)%Z ->
  json_loads body = Some (PDict d) ->
  get (PDict d) "status" PNone = Return (PStr "success") ->
  ((forall i, (i < 6)%nat ->
      tolerated (net w (S (List.length (sent w)) + i)%nat) = true) ->
   exists w',
     job_status job_id false w = (Return (PStr "success"), w') /\
     List.map req_url (sent w') =
     List.map req_url (sent w) ++
     List.map get_url (("jobs/" +:+ str_of job_id)
                         :: sub_fetches ("jobs/" +:+ str_of job_id))) /\
  (forall k, (k < 6)%nat ->
     (forall i, (i < k)%nat ->
        tolerated (net w (S (List.length (sent w)) + i)%nat) = true) ->
     tolerated (net w (S (List.length (sent w)) + k)%nat) = false ->
     exists e w',
       job_status job_id false w = (Raise e, w') /\
       List.length (sent w') = (S (List.length (sent w)) + S k)%nat) /\
  (forall c b, (c < 200 \/ 300 <= c)%Z -> tolerated (Answer c b) = true) /\
  (forall c b d', (200 <= c < 300)%Z -> json_loads b = Some (PDict d') ->
     dict_lookup "status" d' = Some (PStr "error") ->
     tolerated (Answer c b) = false).
Proof.
  intros Hnet Hcode Hjson Hstat.
  pose proof (send_request_object ("jobs/" +:+ str_of job_id) default_args None
                w code body d (PStr "success") Hnet Hcode Hjson Hstat eq_refl) as Hobj.
  destruct (send_request_frame ("jobs/" +:+ str_of job_id) default_args None w)
    as (Fnet & Fsent & _).
  pose proof (send_request_sent_length ("jobs/" +:+ str_of job_id) default_args None w)
    as Flen.
  split; [|split; [|split]].
  - intros Htol. rewrite job_status_eq.
    destruct (send_request ("jobs/" +:+ str_of job_id) default_args None w) as [o w1].
    cbn [fst snd] in *. subst o. rewrite Hstat. cbn [eq_str String.eqb Ascii.eqb Bool.eqb].
    destruct (fetch_each_tolerated (sub_fetches ("jobs/" +:+ str_of job_id)) w1)
      as (w' & Hrun & _ & Hurls).
    { intros i Hi. rewrite Fnet, Flen. apply Htol. exact Hi. }
    rewrite Hrun. exists w'. split; [reflexivity|].
    rewrite Hurls, Fsent, map_app. cbn [List.map].
    rewrite build_request_url, <- app_assoc. reflexivity.
  - intros k Hk Htol Hbad. rewrite job_status_eq.
    destruct (send_request ("jobs/" +:+ str_of job_id) default_args None w) as [o w1].
    cbn [fst snd] in *. subst o. rewrite Hstat. cbn [eq_str String.eqb Ascii.eqb Bool.eqb].
    destruct (fetch_each_aborts (sub_fetches ("jobs/" +:+ str_of job_id)) w1 k)
      as (e & w' & Hrun & Hlen).
    + exact Hk.
    + intros i Hi. rewrite Fnet, Flen. apply Htol. exact Hi.
    + rewrite Fnet, Flen. exact Hbad.
    + rewrite Hrun. exists e, w'. split; [reflexivity|]. rewrite Hlen, Flen. reflexivity.
  - intros c b Hc. unfold tolerated.
    destruct ((200 <=? c) && (c <? 300))%Z eqn:Hb; [|reflexivity].
    apply andb_prop in Hb as [H1 H2]. apply Z.leb_le in H1. apply Z.ltb_lt in H2. lia.
  - intros c b d' [H1 H2] Hb Hs. unfold tolerated.
    apply Z.leb_le in H1. apply Z.ltb_lt in H2. rewrite H1, H2, Hb, Hs. reflexivity.
Qed.

End FetchFacts.

Section FetchExamples.
Import Py Runtime Client Notions Inputs.
#[local] Existing Instance Concrete.library.
Local Open Scope string_scope.
Local Open Scope list_scope.

(** The amended C8 at a job whose calibration request is answered with
    status 500 and whose other requests succeed. *)
Lemma C8_calibration_answered_500 :
  exists w',
    job_status (PInt 7) false
      (Concrete.start
         (Concrete.script
            [Answer 200 job_success; Answer 500 error_page; Answer 200 job_success;
             Answer 200 job_success; Answer 200 job_success; Answer 200 job_success;
             Answer 200 job_success]))
    = (Return (PStr "success"), w') /\
    List.map req_url (sent w') =
    List.map get_url
      [ "jobs/7"; "jobs/7/calibration"; "jobs/7/tags"; "jobs/7/machine_tags";
        "jobs/7/objects_in_field"; "jobs/7/annotations"; "jobs/7/info" ].
Proof.
  destruct (C8_job_status_sub_fetches (PInt 7)
              (Concrete.start
                 (Concrete.script
                    [Answer 200 job_success; Answer 500 error_page;
                     Answer 200 job_success; Answer 200 job_success;
                     Answer 200 job_success; Answer 200 job_success;
                     Answer 200 job_success]))
              200 job_success [("status", PStr "success")])
    as [Hall _]; [reflexivity|lia|reflexivity|reflexivity|].
  assert (Htol : forall i, (i < 6)%nat ->
            tolerated
              (net (Concrete.start
                      (Concrete.script
                         [Answer 200 job_success; Answer 500 error_page;
                          Answer 200 job_success; Answer 200 job_success;
                          Answer 200 job_success; Answer 200 job_success;
                          Answer 200 job_success]))
                   (S (List.length
                         (sent (Concrete.start
                                  (Concrete.script
                                     [Answer 200 job_success; Answer 500 error_page;
                                      Answer 200 job_success; Answer 200 job_success;
                                      Answer 200 job_success; Answer 200 job_success;
                                      Answer 200 job_success])))) + i)%nat) = true).
  { intros i Hi. do 6 (destruct i as [|i]; [reflexivity|]). lia. }
  exact (Hall Htol).
Defined.

(** C8 as stated fails: when the server answers the calibration request
    with an error of its own, [job_status] raises [RequestError] and the
    five requests after it are never made; in fetch_job_info.py a tags
    answer that is not JSON ends [get_job_info] at its first request. *)
Lemma C8_server_error_aborts_the_fetch :
  fst (job_status (PInt 7) false
         (Concrete.start
            (Concrete.script
               [Answer 200 job_success; Answer 200 server_error;
                Answer 200 job_success; Answer 200 job_success;
                Answer 200 job_success; Answer 200 job_success;
                Answer 200 job_success])))
    = Raise (RequestError "server error message: no calibration") /\
  List.map req_url
    (sent (snd (job_status (PInt 7) false
                  (Concrete.start
                     (Concrete.script
                        [Answer 200 job_success; Answer 200 server_error;
                         Answer 200 job_success; Answer 200 job_success;
                         Answer 200 job_success; Answer 200 job_success;
                         Answer 200 job_success])))))
    = List.map get_url [ "jobs/7"; "jobs/7/calibration" ] /\
  fst (FetchJobInfo.get_job_info (PStr "14931481")
         (Concrete.start
            (Concrete.script
               [Answer 200 error_page; Answer 200 job_success;
                Answer 200 job_success; Answer 200 job_success])))
    = Raise JSONDecodeError /\
  List.length
    (sent (snd (FetchJobInfo.get_job_info (PStr "14931481")
                  (Concrete.start
                     (Concrete.script
                        [Answer 200 error_page; Answer 200 job_success;
                         Answer 200 job_success; Answer 200 job_success])))))
    = 1%nat.
Proof. repeat split; vm_compute; reflexivity. Qed.

End FetchExamples.


(** ** Further properties: resolving a pattern *)

Section ResolveFacts.
Import PyStr Unicode ConstellationData MoreNotions Inputs.
Context {num : Type}.

Lemma find_star_cons (pat : str) (a : annotation num) (rest : list (annotation num)) :
  find_star_in_annotations pat (a :: rest) =
  if matches pat a then Some a else find_star_in_annotations pat rest.
Proof. reflexivity. Qed.

(** X1. [find_star_in_annotations] returns the first annotation of the list,
    in list order, one of whose normalized names contains the pattern, and
    [None] exactly when no annotation has such a name. *)
Theorem X1_find_star_first_match (pat : str) (annotations : list (annotation num)) :
  (forall star,
     find_star_in_annotations pat annotations = Some star <->
     exists pre post,
       annotations = pre ++ star :: post /\
       matches pat star = true /\
       Forall (fun a => matches pat a = false) pre) /\
  (find_star_in_annotations pat annotations = None <->
   Forall (fun a => matches pat a = false) annotations).
Proof.
  induction annotations as [|a rest [IHsome IHnone]].
  - split.
    + intros star. split; [intros Hf; discriminate Hf|].
      intros (pre & post & Heq & _). destruct pre; discriminate Heq.
    + split; [constructor|reflexivity].
  - rewrite find_star_cons. destruct (matches pat a) eqn:Ha; split.
    + intros star. split.
      * intros Hf. injection Hf as <-. exists [], rest. repeat split; [exact Ha|constructor].
      * intros (pre & post & Heq & Hm & Hpre). destruct pre as [|b pre].
        -- injection Heq as -> _. reflexivity.
        -- injection Heq as <- _. inversion Hpre as [|? ? Hb _]; subst.
           rewrite Ha in Hb. discriminate Hb.
    + split; [intros Hf; discriminate Hf|].
      intros Hall. inversion Hall as [|? ? Hb _]; subst.
      rewrite Ha in Hb. discriminate Hb.
    + intros star. rewrite IHsome. split.
      * intros (pre & post & -> & Hm & Hpre). exists (a :: pre), post.
        repeat split; [exact Hm|]. constructor; assumption.
      * intros (pre & post & Heq & Hm & Hpre). destruct pre as [|b pre].
        -- injection Heq as -> _. rewrite Ha in Hm. discriminate Hm.
        -- injection Heq as <- ->. inversion Hpre; subst.
           exists pre, post. repeat split; assumption.
    + rewrite IHnone. split.
      * intros Hall. constructor; assumption.
      * intros Hall. inversion Hall; subst. assumption.
Qed.

(** X2. An annotation that [find_star_in_annotations] returns is one of the
    list and has a name; an annotation without names, with the key missing
    or with the empty list, is never returned. *)
Theorem X2_find_star_returns_a_named_member
    (pat : str) (annotations : list (annotation num)) (star : annotation num) :
  find_star_in_annotations pat annotations = Some star ->
  In star annotations /\ names_of star <> [] /\
  names star <> None /\ names star <> Some [].
Proof.
  intros Hf. apply find_star_sound in Hf as [Hin [alias [Hal _]]].
  split; [exact Hin|].
  assert (Hne : names_of star <> []).
  { intros Hnil. rewrite Hnil in Hal. destruct Hal. }
  split; [exact Hne|].
  unfold names_of in Hne. split; intros Hn; rewrite Hn in Hne; apply Hne; reflexivity.
Qed.

End ResolveFacts.

Section ResolveExamples.
Import PyStr Unicode ConstellationData MoreNotions Inputs.

(** X1 at two annotations that both carry the name of Rigel: the first one
    is returned. *)
Lemma X1_first_of_two_rigels :
  exists pre post,
    [star_named [lit "Betelgeuse"];
     star_named [946%N :: lit " Ori"; lit "Rigel"];
     star_named [lit "Beta Ori"]]
    = pre ++ star_named [946%N :: lit " Ori"; lit "Rigel"] :: post /\
    matches (lit "Beta Ori") (star_named [946%N :: lit " Ori"; lit "Rigel"]) = true /\
    Forall (fun a => matches (lit "Beta Ori") a = false) pre.
Proof.
  apply (proj1 (proj1 (X1_find_star_first_match (lit "Beta Ori")
                         [star_named [lit "Betelgeuse"];
                          star_named [946%N :: lit " Ori"; lit "Rigel"];
                          star_named [lit "Beta Ori"]])
                      (star_named [946%N :: lit " Ori"; lit "Rigel"]))).
  vm_compute. reflexivity.
Defined.

(** X2 at the same list. *)
Lemma X2_rigel_is_named :
  In (star_named [946%N :: lit " Ori"; lit "Rigel"])
     [star_named []; star_named [946%N :: lit " Ori"; lit "Rigel"]] /\
  names_of (star_named [946%N :: lit " Ori"; lit "Rigel"]) <> [] /\
  names (star_named [946%N :: lit " Ori"; lit "Rigel"]) <> None /\
  names (star_named [946%N :: lit " Ori"; lit "Rigel"]) <> Some [].
Proof.
  apply (X2_find_star_returns_a_named_member (lit "Rigel")
           [star_named []; star_named [946%N :: lit " Ori"; lit "Rigel"]]).
  vm_compute. reflexivity.
Defined.

End ResolveExamples.

(** ** Further properties: the shape and the letters of a normalized name *)

Section ShapeFacts.
Import PyStr Unicode ConstellationData MoreNotions.

Lemma word_no_space (w : str) (c : codepoint) :
  word w -> In c w -> isspace c = false.
Proof.
  intros [_ Hw] Hc. rewrite forallb_forall in Hw.
  apply negb_true_iff. apply Hw. exact Hc.
Qed.

Lemma join_cons_cons (sep w w' : str) (ws : list str) :
  join sep (w :: w' :: ws) = w ++ sep ++ join sep (w' :: ws).
Proof. reflexivity. Qed.

(** The words joined by one space start with the first codepoint of the
    first word. *)
Lemma join_words_head (ws : list str) (c : codepoint) (t : str) :
  Forall word ws -> join [32%N] ws = c :: t -> isspace c = false.
Proof.
  intros Hws Hj. destruct ws as [|w ws]; [discriminate Hj|].
  inversion Hws as [|? ? Hw _]; subst.
  assert (Hin : In c w).
  { destruct w as [|x w']; [destruct Hw as [Hne _]; congruence|].
    destruct ws as [|w2 ws].
    - cbn in Hj. injection Hj as -> _. left. reflexivity.
    - rewrite join_cons_cons in Hj. cbn in Hj. injection Hj as -> _. left. reflexivity. }
  exact (word_no_space w c Hw Hin).
Qed.

Lemma join_words_last (ws : list str) :
  Forall word ws -> join [32%N] ws <> [] ->
  isspace (List.last (join [32%N] ws) 0%N) = false.
Proof.
  induction 1 as [|w ws Hw Hws IH]; intros Hne; [exfalso; apply Hne; reflexivity|].
  destruct ws as [|w2 ws].
  - cbn [join]. apply (word_no_space w); [exact Hw|].
    destruct Hw as [Hwne _].
    destruct (exists_last Hwne) as (l & a & ->).
    rewrite List.last_last. apply in_or_app. right. left. reflexivity.
  - rewrite join_cons_cons.
    assert (Hrest : join [32%N] (w2 :: ws) <> []).
    { inversion Hws as [|? ? [Hw2 _] _]; subst.
      destruct w2 as [|x w2']; [congruence|].
      destruct ws; cbn; discriminate. }
    specialize (IH Hrest).
    destruct (exists_last Hrest) as (l & a & Hl).
    rewrite Hl in *. rewrite !app_assoc, List.last_last. rewrite List.last_last in IH. exact IH.
Qed.

Lemma contains_after_word (p w r : str) (c0 : codepoint) :
  isspace c0 = true ->
  forallb (fun c => negb (isspace c)) w = true ->
  contains (c0 :: p) (w ++ r) = contains (c0 :: p) r.
Proof.
  intros Hc0 Hw. induction w as [|x w IH]; [reflexivity|].
  cbn [forallb] in Hw. apply andb_prop in Hw as [Hx Hw].
  change ((x :: w) ++ r) with (x :: (w ++ r)).
  cbn [contains startswith].
  destruct (N.eqb_spec c0 x) as [->|_].
  - rewrite Hc0 in Hx. discriminate Hx.
  - cbn [andb orb]. apply IH. exact Hw.
Qed.

Lemma join_words_no_double_space (ws : list str) :
  Forall word ws -> contains [32%N; 32%N] (join [32%N] ws) = false.
Proof.
  induction 1 as [|w ws Hw Hws IH]; [reflexivity|].
  destruct ws as [|w2 ws].
  - cbn [join]. rewrite <- (app_nil_r w).
    rewrite contains_after_word; [reflexivity|reflexivity|exact (proj2 Hw)].
  - rewrite join_cons_cons.
    rewrite contains_after_word; [|reflexivity|exact (proj2 Hw)].
    change ([32%N] ++ join [32%N] (w2 :: ws)) with (32%N :: join [32%N] (w2 :: ws)).
    cbn [contains]. rewrite IH, orb_false_r.
    destruct (join [32%N] (w2 :: ws)) as [|c t] eqn:Hj; [reflexivity|].
    pose proof (join_words_head (w2 :: ws) c t Hws Hj) as Hc.
    cbn [startswith]. destruct (N.eqb_spec 32%N c) as [<-|_]; [discriminate Hc|].
    rewrite andb_false_r. reflexivity.
Qed.

(** X3. A normalized name has no space at its start or its end, no two
    spaces in a row, and no whitespace other than U+0020. *)
Theorem X3_normalize_name_is_single_spaced (x : str) :
  (forall c, In c (normalize_name x) -> isspace c = true -> c = 32%N) /\
  contains [32%N; 32%N] (normalize_name x) = false /\
  (forall c t, normalize_name x = c :: t -> isspace c = false) /\
  (normalize_name x <> [] -> isspace (List.last (normalize_name x) 0%N) = false).
Proof.
  unfold normalize_name. change (lit " ") with [32%N].
  pose proof (split_words (replace_greek GREEK_MAP x)) as Hws.
  split; [|split; [|split]].
  - intros c Hc Hsp. apply join_In in Hc as [[<-|[]]|[w [Hw Hcw]]]; [reflexivity|].
    rewrite List.Forall_forall in Hws.
    rewrite (word_no_space w c (Hws w Hw) Hcw) in Hsp. discriminate Hsp.
  - apply join_words_no_double_space. exact Hws.
  - intros c t. apply join_words_head. exact Hws.
  - apply join_words_last. exact Hws.
Qed.

Lemma flat_map_flat_map {A B C : Type} (f : A -> list B) (g : B -> list C) (l : list A) :
  flat_map g (flat_map f l) = flat_map (fun a => flat_map g (f a)) l.
Proof.
  induction l as [|a l IH]; [reflexivity|].
  cbn [flat_map]. rewrite flat_map_app, IH. reflexivity.
Qed.

Lemma flat_map_same {A : Type} (f : A -> list A) (l : list A) :
  (forall a, In a l -> f a = [a]) -> flat_map f l = l.
Proof.
  induction l as [|a l IH]; intros Hf; [reflexivity|].
  cbn [flat_map]. rewrite (Hf a (or_introl eq_refl)), IH; [reflexivity|].
  intros b Hb. apply Hf. right. exact Hb.
Qed.

Lemma str_eqb_eq (a b : str) : str_eqb a b = true -> a = b.
Proof.
  revert b. induction a as [|x a IH]; intros [|y b] Hab; try discriminate Hab;
    [reflexivity|].
  cbn [str_eqb] in Hab. apply andb_prop in Hab as [Hxy Hab].
  apply N.eqb_eq in Hxy. subst. f_equal. apply IH. exact Hab.
Qed.

Lemma spell_no_key (table : list (str * str)) (c : codepoint) :
  (forall ge, In ge table -> fst ge <> [c]) -> spell table c = [c].
Proof.
  induction table as [|[g e] table IH]; intros Hno; [reflexivity|].
  cbn [spell]. destruct (str_eqb g [c]) eqn:Hg.
  - exfalso. apply (Hno (g, e) (or_introl eq_refl)). cbn [fst].
    apply str_eqb_eq. exact Hg.
  - apply IH. intros ge Hge. apply Hno. right. exact Hge.
Qed.

Lemma spell_cases (table : list (str * str)) (c : codepoint) :
  spell table c = [c] \/
  exists ge, In ge table /\ fst ge = [c] /\ spell table c = snd ge.
Proof.
  induction table as [|[g e] table IH]; [left; reflexivity|].
  cbn [spell]. destruct (str_eqb g [c]) eqn:Hg.
  - right. exists (g, e). split; [left; reflexivity|]. split; [|reflexivity].
    cbn [fst]. apply str_eqb_eq. exact Hg.
  - destruct IH as [IH|(ge & Hge & Hk & Hs)]; [left; exact IH|].
    right. exists ge. split; [right; exact Hge|]. split; assumption.
Qed.

(** The replacements one after the other amount to spelling every
    codepoint on its own, when no replacement text holds a key. *)
Lemma replace_greek_spell (table : list (str * str)) :
  letter_table table ->
  (forall ge c, In ge table -> In c (snd ge) ->
                forall ge', In ge' table -> fst ge' <> [c]) ->
  forall s, replace_greek table s = flat_map (spell table) s.
Proof.
  induction 1 as [|[g e] table [g0 Hg] Htab IH]; intros Hlatin s.
  - cbn. symmetry. apply flat_map_same. reflexivity.
  - cbn [fst] in Hg. subst g.
    rewrite replace_greek_cons. cbn [fst snd].
    rewrite IH.
    2:{ intros ge c Hge Hc ge' Hge'. apply (Hlatin ge c); [right; exact Hge|exact Hc|].
        right. exact Hge'. }
    rewrite replace_letter, flat_map_flat_map.
    apply flat_map_ext. intros c. cbn [spell str_eqb].
    rewrite andb_true_r.
    destruct (N.eqb g0 c).
    + apply flat_map_same. intros c' Hc'. apply spell_no_key.
      intros ge' Hge'. apply (Hlatin ([g0], e) c'); [left; reflexivity|exact Hc'|].
      right. exact Hge'.
    + cbn [flat_map]. apply app_nil_r.
Qed.

Lemma GREEK_MAP_spell (s : str) :
  replace_greek GREEK_MAP s = flat_map (spell GREEK_MAP) s.
Proof.
  apply replace_greek_spell; [exact GREEK_MAP_letters|].
  intros ge c Hge Hc ge' Hge' Hk.
  destruct (GREEK_MAP_latin ge c Hge Hc) as [Hnokey _].
  assert (Hkey : is_greek_key c = true).
  { apply greek_key_In. rewrite <- Hk. apply in_map. exact Hge'. }
  rewrite Hkey in Hnokey. discriminate Hnokey.
Qed.

Lemma letters_app (a b : str) : letters (a ++ b) = letters a ++ letters b.
Proof. unfold letters. apply List.filter_app. Qed.

Lemma letters_no_space (w : str) :
  forallb (fun c => negb (isspace c)) w = true -> letters w = w.
Proof.
  induction w as [|c w IH]; [reflexivity|].
  cbn [forallb letters List.filter]. intros Hw. apply andb_prop in Hw as [Hc Hw].
  rewrite Hc. f_equal. apply IH. exact Hw.
Qed.

Lemma letters_join (ws : list str) :
  Forall word ws -> letters (join [32%N] ws) = concat ws.
Proof.
  induction 1 as [|w ws Hw Hws IH]; [reflexivity|].
  destruct ws as [|w2 ws].
  - cbn [join concat]. rewrite app_nil_r. apply letters_no_space. exact (proj2 Hw).
  - rewrite join_cons_cons, !letters_app, IH.
    rewrite (letters_no_space w (proj2 Hw)). reflexivity.
Qed.

Lemma letters_cons (c : codepoint) (t : str) :
  letters (c :: t) = if isspace c then letters t else c :: letters t.
Proof. unfold letters. cbn [List.filter]. destruct (isspace c); reflexivity. Qed.

Lemma concat_split (s : str) : concat (PyStr.split s) = letters s.
Proof.
  induction s as [|c t IH]; [reflexivity|].
  rewrite letters_cons. cbn [PyStr.split]. destruct (isspace c) eqn:Hc.
  - exact IH.
  - rewrite <- IH. destruct t as [|c' t']; [reflexivity|].
    destruct (isspace c') eqn:Hc'; [reflexivity|].
    destruct (PyStr.split (c' :: t')) as [|w ws]; reflexivity.
Qed.

Lemma letters_spell (s : str) :
  letters (flat_map (spell GREEK_MAP) s) = flat_map (spell GREEK_MAP) (letters s).
Proof.
  assert (Hkeys : forallb (fun ge => forallb (fun c => negb (isspace c)) (fst ge))
                    GREEK_MAP = true) by (vm_compute; reflexivity).
  rewrite forallb_forall in Hkeys.
  induction s as [|c s IH]; [reflexivity|].
  cbn [flat_map]. rewrite letters_app, IH, (letters_cons c s).
  destruct (spell_cases GREEK_MAP c) as [Hs|(ge & Hge & Hk & Hs)].
  - rewrite Hs, (letters_cons c []). destruct (isspace c).
    + reflexivity.
    + cbn [flat_map]. rewrite Hs. reflexivity.
  - assert (Hc : isspace c = false).
    { specialize (Hkeys ge Hge). rewrite Hk in Hkeys. cbn [forallb] in Hkeys.
      rewrite andb_true_r in Hkeys. apply negb_true_iff. exact Hkeys. }
    rewrite Hc. cbn [flat_map]. rewrite Hs. f_equal.
    apply letters_no_space. apply forallb_forall. intros c' Hc'.
    apply negb_true_iff. exact (proj2 (GREEK_MAP_latin ge c' Hge Hc')).
Qed.

(** X4. Normalization changes nothing but whitespace and the letters of
    [GREEK_MAP]: the codepoints of the output that are no space are those
    of the input, in the same order, each key of [GREEK_MAP] spelled out. *)
Theorem X4_normalize_name_keeps_the_letters (x : str) :
  letters (normalize_name x) = flat_map (spell GREEK_MAP) (letters x).
Proof.
  unfold normalize_name. change (lit " ") with [32%N].
  rewrite letters_join by apply split_words.
  rewrite concat_split, GREEK_MAP_spell. apply letters_spell.
Qed.

End ShapeFacts.

Section ShapeExamples.
Import PyStr Unicode ConstellationData MoreNotions.

(** X3 at a name with spaces around and inside. *)
Lemma X3_padded_rigel :
  isspace (List.last (normalize_name (lit "  " ++ 946%N :: lit "   Ori ")) 0%N) = false.
Proof.
  apply (proj2 (proj2 (proj2
           (X3_normalize_name_is_single_spaced (lit "  " ++ 946%N :: lit "   Ori "))))).
  vm_compute. intros Hf. discriminate Hf.
Defined.

End ShapeExamples.

(** ** Further properties: separations *)

Section SeparationFacts.
Import PyStr ConstellationData AnnotateFits MoreNotions.
Local Open Scope R_scope.

Lemma dist_px_sym (x1 y1 x2 y2 : R) : dist_px x2 y2 x1 y1 = dist_px x1 y1 x2 y2.
Proof. unfold dist_px. f_equal. ring. Qed.

Lemma dist_ly_sym (d1 d2 dist_deg : R) : dist_ly d2 d1 dist_deg = dist_ly d1 d2 dist_deg.
Proof. unfold dist_ly. cbv zeta. f_equal. ring. Qed.

Lemma float_truthy_nonzero (x : R) : x <> 0 -> float_truthy x = true.
Proof.
  intros Hx. unfold float_truthy. destruct (Req_EM_T x 0); [contradiction|reflexivity].
Qed.

(** X5. The physical separation obeys the triangle inequality: for
    distances that are not negative it lies between their difference and
    their sum, whatever the angle; it is the difference at 0 degrees and
    the sum at 180 degrees. *)
Theorem X5_dist_ly_triangle (d1 d2 dist_deg : R) :
  0 <= d1 -> 0 <= d2 ->
  Rabs (d1 - d2) <= dist_ly d1 d2 dist_deg <= d1 + d2 /\
  dist_ly d1 d2 0 = Rabs (d1 - d2) /\
  dist_ly d1 d2 180 = d1 + d2.
Proof.
  intros H1 H2. split; [|split].
  - unfold dist_ly. cbv zeta.
    pose proof (COS_bound (radians dist_deg)) as [Hlo Hhi].
    set (c := cos (radians dist_deg)) in *.
    assert (Hprod : 0 <= d1 * d2) by (apply Rmult_le_pos; assumption).
    split.
    + rewrite <- sqrt_Rsqr_abs. apply sqrt_le_1_alt. unfold Rsqr. nra.
    + rewrite <- (sqrt_pow2 (d1 + d2)) by lra. apply sqrt_le_1_alt. nra.
  - unfold dist_ly. cbv zeta. rewrite radians_0, cos_0.
    rewrite <- sqrt_Rsqr_abs. f_equal. unfold Rsqr. ring.
  - unfold dist_ly. cbv zeta. rewrite radians_180, cos_PI.
    rewrite <- (sqrt_pow2 (d1 + d2)) by lra. f_equal. ring.
Qed.

(** X5 at the distances of alpha and beta Orionis. *)
Lemma X5_alpha_beta_ori :
  Rabs (642.5 - 863.0) <= dist_ly 642.5 863.0 0.04 <= 642.5 + 863.0 /\
  dist_ly 642.5 863.0 0 = Rabs (642.5 - 863.0) /\
  dist_ly 642.5 863.0 180 = 642.5 + 863.0.
Proof. apply X5_dist_ly_triangle; lra. Defined.

(** X6. A line does not depend on the order of its two patterns: with the
    patterns exchanged [draw_line] draws the same segment with its ends
    exchanged, and the label, the angular and the physical separation are
    the same. *)
Theorem X6_draw_line_symmetric (deg_per_pixel : option R)
    (annotations : list (annotation R)) (star1_pat star2_pat : str) :
  draw_line deg_per_pixel annotations star2_pat star1_pat =
  option_map swapped (draw_line deg_per_pixel annotations star1_pat star2_pat).
Proof.
  unfold draw_line.
  destruct (find_star_in_annotations star1_pat annotations) as [star1|];
    destruct (find_star_in_annotations star2_pat annotations) as [star2|];
    try reflexivity.
  cbn [option_map]. unfold swapped. cbn [seg_x1 seg_y1 seg_x2 seg_y2 seg_label].
  f_equal. f_equal.
  destruct deg_per_pixel as [scale|]; [|reflexivity].
  destruct (float_truthy scale); [|reflexivity].
  f_equal. rewrite (dist_px_sym (pixelx star1) (pixely star1)).
  f_equal; try lra.
  destruct (dict_get star1_pat STAR_DISTANCES_LY) as [v1|];
    destruct (dict_get star2_pat STAR_DISTANCES_LY) as [v2|]; try reflexivity.
  rewrite andb_comm. destruct (float_truthy v1 && float_truthy v2); [|reflexivity].
  f_equal. apply dist_ly_sym.
Qed.

Lemma dist_ly_nonneg (d1 d2 dist_deg : R) : 0 <= dist_ly d1 d2 dist_deg.
Proof. unfold dist_ly. apply sqrt_pos. Qed.

(** X7. Every line of [CONSTELLATION_LINES] that is drawn with a pixel
    scale carries a physical separation: both of its stars have a distance
    in [STAR_DISTANCES_LY], and none of these distances is zero. *)
Theorem X7_catalog_lines_carry_a_distance
    (annotations : list (annotation R)) (star1_pat star2_pat : str)
    (scale : R) (seg : segment) :
  In (star1_pat, star2_pat) (concat (List.map snd CONSTELLATION_LINES)) ->
  scale <> 0 ->
  draw_line (Some scale) annotations star1_pat star2_pat = Some seg ->
  exists lab ly,
    seg_label seg = Some lab /\ label_ly lab = Some ly /\ 0 <= ly.
Proof.
  intros Hline Hscale Hdraw.
  destruct (CONSTELLATION_LINES_distances_known _ _ Hline) as (d1 & d2 & Hd1 & Hd2).
  unfold draw_line in Hdraw.
  destruct (find_star_in_annotations star1_pat annotations) as [star1|];
    [|discriminate Hdraw].
  destruct (find_star_in_annotations star2_pat annotations) as [star2|];
    [|discriminate Hdraw].
  rewrite (float_truthy_nonzero scale Hscale), Hd1, Hd2 in Hdraw.
  rewrite (STAR_DISTANCES_LY_truthy _ _ Hd1), (STAR_DISTANCES_LY_truthy _ _ Hd2) in Hdraw.
  injection Hdraw as <-. cbn [seg_label].
  eexists. eexists. split; [reflexivity|]. split; [reflexivity|].
  apply dist_ly_nonneg.
Qed.

(** X7 at the belt of Orion. *)
Lemma X7_delta_epsilon_ori :
  exists seg lab ly,
    draw_line (Some 0.5)
      [ {| pixelx := 3; pixely := 4; names := Some [lit "Delta Ori"];
           ann_type := None; radius := None |};
        {| pixelx := 6; pixely := 8; names := Some [lit "Epsilon Ori"];
           ann_type := None; radius := None |} ]
      (lit "Delta Ori") (lit "Epsilon Ori") = Some seg /\
    seg_label seg = Some lab /\ label_ly lab = Some ly /\ 0 <= ly.
Proof.
  assert (Hdraw : exists seg,
    draw_line (Some 0.5)
      [ {| pixelx := 3; pixely := 4; names := Some [lit "Delta Ori"];
           ann_type := None; radius := None |};
        {| pixelx := 6; pixely := 8; names := Some [lit "Epsilon Ori"];
           ann_type := None; radius := None |} ]
      (lit "Delta Ori") (lit "Epsilon Ori") = Some seg).
  { unfold draw_line.
    change (find_star_in_annotations (lit "Delta Ori") _)
      with (Some {| pixelx := 3; pixely := 4; names := Some [lit "Delta Ori"];
                    ann_type := @None str; radius := @None R |}).
    change (find_star_in_annotations (lit "Epsilon Ori") _)
      with (Some {| pixelx := 6; pixely := 8; names := Some [lit "Epsilon Ori"];
                    ann_type := @None str; radius := @None R |}).
    eexists. reflexivity. }
  destruct Hdraw as [seg Hseg].
  assert (Hline : In (lit "Delta Ori", lit "Epsilon Ori")
                     (concat (List.map snd CONSTELLATION_LINES))) by (cbn; tauto).
  assert (Hscale : 0.5 <> 0) by lra.
  destruct (X7_catalog_lines_carry_a_distance _ _ _ _ seg Hline Hscale Hseg)
    as (lab & ly & Hlab & Hly & Hpos).
  exists seg, lab, ly. repeat split; assumption.
Defined.

End SeparationFacts.

(** ** Further properties: one request *)

Section MoreRequestFacts.
Import Py Runtime Client Notions.
Context `{Library}.
Local Open Scope string_scope.
Local Open Scope list_scope.



(** X9. When the server answers with the status "error", [send_request]
    raises [RequestError] with the [errormessage] of the answer after the
    text "server error message: ", and with "(none)" in its place when the
    answer has none; a message that is no string ends the call with the
    [TypeError] of the concatenation. *)
Theorem X9_server_error_message
    (service : string) (args : loc) (file_args : option (string * string))
    (w : world) (code : Z) (body : string) (d : pydict) :
  net w (List.length (sent w)) = Answer code body ->
  (200 <= code < 300)%Z ->
  json_loads body = Some (PDict d) ->
  dict_lookup "status" d = Some (PStr "error") ->
  fst (send_request service args file_args w) =
  match dict_lookup "errormessage" d with
  | Some (PStr e) => Raise (RequestError ("server error message: " +:+ e))
  | Some _ => Raise TypeError
  | None => Raise (RequestError "server error message: (none)")
  end.
Proof.
  intros Hnet Hcode Hjson Hstat.
  rewrite send_request_eq, Hnet, (http_reply_opened _ _ Hcode).
  unfold handle_reply, json2python, bind, lift, ret, raise, get.
  rewrite Hjson, Hstat. cbn [eq_str String.eqb Ascii.eqb Bool.eqb].
  destruct (dict_lookup "errormessage" d) as [[]|]; reflexivity.
Qed.

Lemma dict_store_same (key : string) (v : pyval) (d : pydict) :
  dict_lookup key (dict_store key v d) = Some v.
Proof.
  induction d as [|[k v'] d IH]; cbn [dict_store dict_lookup].
  - rewrite String.eqb_refl. reflexivity.
  - destruct (String.eqb_spec key k) as [->|Hne]; cbn [dict_lookup].
    + rewrite String.eqb_refl. reflexivity.
    + destruct (String.eqb_spec key k); [contradiction|exact IH].
Qed.

(** X10. With a session, the request that [send_request] sends is encoded
    from the dict of the caller after the token was stored in it: the JSON
    text that goes out is that of a dict whose key session holds the
    token. *)
Theorem X10_request_is_encoded_with_the_session
    (service : string) (args : loc) (file_args : option (string * string))
    (w : world) :
  session w <> PNone ->
  exists rq d,
    sent (snd (send_request service args file_args w)) = sent w ++ [rq] /\
    d = load args (snd (send_request service args file_args w)) /\
    dict_lookup "session" d = Some (session w) /\
    req_data rq =
      Some (snd (encode (python2json d) file_args (rnd w (List.length (sent w))))).
Proof.
  intros Hs.
  destruct (send_request_frame service args file_args w) as (_ & Hsent & Hheap & _).
  destruct (inject_session_frame args w) as (_ & Isent & _ & _ & _ & Irnd).
  exists (build_request service args file_args (inject_session args w)),
         (load args (inject_session args w)).
  split; [exact Hsent|]. split.
  - unfold load. rewrite Hheap. reflexivity.
  - split.
    + unfold inject_session.
      destruct (session w) eqn:Hsess; try contradiction;
        cbn [is_none]; unfold load at 1; cbn [heap with_heap];
        rewrite lookup_insert_eq; apply dict_store_same.
    + unfold build_request. rewrite Isent, Irnd.
      destruct (encode _ _ _) as [headers data]. reflexivity.
Qed.

End MoreRequestFacts.

Section MoreRequestExamples.
Import Py Runtime Client Notions.
#[local] Existing Instance Concrete.library.
Local Open Scope string_scope.
Local Open Scope list_scope.


(** X9 at an answer that reports that there is no calibration. *)
Lemma X9_no_calibration :
  fst (send_request "jobs/7/calibration" default_args None
         (Concrete.start (Concrete.script [Answer 200 Inputs.server_error])))
  = Raise (RequestError "server error message: no calibration").
Proof.
  apply (X9_server_error_message "jobs/7/calibration"
           default_args None
           (Concrete.start (Concrete.script [Answer 200 Inputs.server_error]))
           200 Inputs.server_error
           [("status", PStr "error"); ("errormessage", PStr "no calibration")]).
  - reflexivity.
  - lia.
  - reflexivity.
  - reflexivity.
Defined.

(** X10 at a client that is logged in. *)
Lemma X10_logged_in_request :
  exists rq d,
    sent (snd (send_request "submission_images" Inputs.caller_args None
                 (Inputs.logged_in (Concrete.script [])))) =
      sent (Inputs.logged_in (Concrete.script [])) ++ [rq] /\
    d = load Inputs.caller_args
          (snd (send_request "submission_images" Inputs.caller_args
                  None (Inputs.logged_in (Concrete.script [])))) /\
    dict_lookup "session" d = Some (session (Inputs.logged_in (Concrete.script []))) /\
    req_data rq =
      Some (snd (encode (python2json d) None
                   (rnd (Inputs.logged_in (Concrete.script []))
                        (List.length (sent (Inputs.logged_in (Concrete.script []))))))).
Proof.
  apply (X10_request_is_encoded_with_the_session
           "submission_images" Inputs.caller_args None
           (Inputs.logged_in (Concrete.script []))).
  intros Hf. discriminate Hf.
Defined.

End MoreRequestExamples.

(** ** Further properties: the callers of a request *)

Section CallerFacts.
Import Py Runtime Client Notions.
Context `{Library}.
Local Open Scope string_scope.
Local Open Scope list_scope.

Lemma login_eq (apikey : string) (w : world) :
  login apikey w =
  match send_request "login" (fresh (dom (heap w))) None
          (with_heap (<[fresh (dom (heap w)) := [("apikey", PStr apikey)]]> (heap w)) w)
  with
  | (Return result, w2) =>
      match get result "session" PNone with
      | Return sess =>
          if negb (truthy sess)
          then (Raise (RequestError "no session in result"), w2)
          else (Return tt, with_session sess w2)
      | Raise e => (Raise e, w2)
      | Pending => (Pending, w2)
      end
  | (Raise e, w2) => (Raise e, w2)
  | (Pending, w2) => (Pending, w2)
  end.
Proof.
  unfold login. unfold bind at 1. unfold new_dict at 1. unfold bind at 1.
  destruct (send_request "login" (fresh (dom (heap w))) None _) as [[result|e|] w2];
    try reflexivity.
  unfold bind, lift, raise.
  destruct (get result "session" PNone) as [sess|e|]; try reflexivity.
  destruct (negb (truthy sess)); reflexivity.
Qed.

Lemma send_request_failure_None (service : string) (args : loc)
    (file_args : option (string * string)) (w : world) (code : Z) (body : string) :
  net w (List.length (sent w)) = Answer code body ->
  (code < 200 \/ 300 <= code)%Z ->
  fst (send_request service args file_args w) = Return PNone /\
  files (snd (send_request service args file_args w)) !! "err.html" = Some body.
Proof.
  intros Hnet Hcode.
  rewrite send_request_eq, Hnet, (http_reply_failure _ _ Hcode).
  split; [reflexivity|]. cbn. apply lookup_insert_eq.
Qed.

(** X11. A login that the server answers with a session token stores the
    token as the session of the client, with one request; the dict objects
    that exist before the call are left as they are. *)
Theorem X11_login_stores_the_token
    (apikey : string) (w : world) (code : Z) (body : string)
    (d : pydict) (stat sess : pyval) :
  net w (List.length (sent w)) = Answer code body ->
  (200 <= code < 300)%Z ->
  json_loads body = Some (PDict d) ->
  get (PDict d) "status" PNone = Return stat ->
  eq_str stat "error" = false ->
  dict_lookup "session" d = Some sess ->
  truthy sess = true ->
  exists w',
    login apikey w = (Return tt, w') /\
    session w' = sess /\
    List.length (sent w') = S (List.length (sent w)) /\
    forall l, l ∈ dom (heap w) -> load l w' = load l w.
Proof.
  intros Hnet Hcode Hjson Hstat Herr Hsess Htruthy.
  set (l0 := fresh (dom (heap w))).
  set (w1 := with_heap (<[l0 := [("apikey", PStr apikey)]]> (heap w)) w).
  pose proof (send_request_object "login" l0 None w1 code body d stat
                Hnet Hcode Hjson Hstat Herr) as Hobj.
  pose proof (send_request_sent_length "login" l0 None w1) as Flen.
  pose proof (load_after_send_request "login" l0 None w1) as Fload.
  rewrite login_eq. fold l0. fold w1.
  destruct (send_request "login" l0 None w1) as [o w2]. cbn [fst snd] in *. subst o.
  cbn [get]. rewrite Hsess, Htruthy. cbn [negb].
  eexists. split; [reflexivity|]. split; [reflexivity|]. split; [exact Flen|].
  intros l Hl.
  assert (Hne : l <> l0).
  { intros ->. exact (is_fresh (dom (heap w)) Hl). }
  transitivity (load l w2); [reflexivity|].
  rewrite Fload, load_inject_session_other by exact Hne.
  unfold load, w1. cbn [heap with_heap]. rewrite lookup_insert_ne by congruence.
  reflexivity.
Qed.

(** X12. A login whose answer has no session token, or an empty one, raises
    [RequestError] and leaves the session of the client as it was. *)
Theorem X12_login_without_token
    (apikey : string) (w : world) (code : Z) (body : string)
    (d : pydict) (stat sess : pyval) :
  net w (List.length (sent w)) = Answer code body ->
  (200 <= code < 300)%Z ->
  json_loads body = Some (PDict d) ->
  get (PDict d) "status" PNone = Return stat ->
  eq_str stat "error" = false ->
  get (PDict d) "session" PNone = Return sess ->
  truthy sess = false ->
  fst (login apikey w) = Raise (RequestError "no session in result") /\
  session (snd (login apikey w)) = session w.
Proof.
  intros Hnet Hcode Hjson Hstat Herr Hsess Hfalsy.
  set (l0 := fresh (dom (heap w))).
  set (w1 := with_heap (<[l0 := [("apikey", PStr apikey)]]> (heap w)) w).
  pose proof (send_request_object "login" l0 None w1 code body d stat
                Hnet Hcode Hjson Hstat Herr) as Hobj.
  destruct (send_request_frame "login" l0 None w1) as (_ & _ & _ & Fsess & _).
  rewrite login_eq. fold l0. fold w1.
  destruct (send_request "login" l0 None w1) as [o w2]. cbn [fst snd] in *. subst o.
  rewrite Hsess, Hfalsy. cbn [negb fst snd]. split; [reflexivity|exact Fsess].
Qed.

(** X13. After an exchange with a status outside 2xx the callers of
    [send_request] fail on the [None] it returns: [login], [sub_status] and
    [job_status] end with [AttributeError], not with an error of the
    transport; [login] leaves the session as it was, and the body of the
    answer is in err.html. *)
Theorem X13_callers_fail_on_None
    (w : world) (code : Z) (body : string) :
  net w (List.length (sent w)) = Answer code body ->
  (code < 200 \/ 300 <= code)%Z ->
  (forall apikey,
     fst (login apikey w) = Raise AttributeError /\
     session (snd (login apikey w)) = session w /\
     files (snd (login apikey w)) !! "err.html" = Some body) /\
  (forall sub_id, fst (sub_status sub_id false w) = Raise AttributeError) /\
  (forall job_id, fst (job_status job_id false w) = Raise AttributeError).
Proof.
  intros Hnet Hcode. split; [|split].
  - intros apikey.
    set (l0 := fresh (dom (heap w))).
    set (w1 := with_heap (<[l0 := [("apikey", PStr apikey)]]> (heap w)) w).
    destruct (send_request_failure_None "login" l0 None w1 code body Hnet Hcode)
      as [Hnone Hfile].
    destruct (send_request_frame "login" l0 None w1) as (_ & _ & _ & Fsess & _).
    rewrite login_eq. fold l0. fold w1.
    destruct (send_request "login" l0 None w1) as [o w2]. cbn [fst snd] in *. subst o.
    cbn [get fst snd]. repeat split; assumption.
  - intros sub_id.
    destruct (send_request_failure_None ("submissions/" +:+ str_of sub_id)
                default_args None w code body Hnet Hcode) as [Hnone _].
    unfold sub_status, bind.
    destruct (send_request ("submissions/" +:+ str_of sub_id) default_args None w)
      as [o w2]. cbn [fst] in *. subst o. reflexivity.
  - intros job_id.
    destruct (send_request_failure_None ("jobs/" +:+ str_of job_id)
                default_args None w code body Hnet Hcode) as [Hnone _].
    rewrite job_status_eq.
    destruct (send_request ("jobs/" +:+ str_of job_id) default_args None w)
      as [o w2]. cbn [fst] in *. subst o. reflexivity.
Qed.

(** X14. For a job whose status is not "success", as while it is being
    solved, [job_status] returns the status after its one request: the
    results are asked for only when the job has succeeded. *)
Theorem X14_job_status_without_success
    (job_id : pyval) (w : world) (code : Z) (body : string)
    (d : pydict) (stat : pyval) :
  net w (List.length (sent w)) = Answer code body ->
  (200 <= code < 300)%Z ->
  json_loads body = Some (PDict d) ->
  get (PDict d) "status" PNone = Return stat ->
  eq_str stat "error" = false ->
  eq_str stat "success" = false ->
  exists w',
    job_status job_id false w = (Return stat, w') /\
    List.length (sent w') = S (List.length (sent w)).
Proof.
  intros Hnet Hcode Hjson Hstat Herr Hsucc.
  pose proof (send_request_object ("jobs/" +:+ str_of job_id) default_args None
                w code body d stat Hnet Hcode Hjson Hstat Herr) as Hobj.
  pose proof (send_request_sent_length ("jobs/" +:+ str_of job_id) default_args None w)
    as Flen.
  rewrite job_status_eq.
  destruct (send_request ("jobs/" +:+ str_of job_id) default_args None w) as [o w1].
  cbn [fst snd] in *. subst o. rewrite Hstat, Hsucc.
  exists w1. split; [reflexivity|exact Flen].
Qed.

End CallerFacts.

Section CallerExamples.
Import Py Runtime Client Notions Inputs MoreInputs.
#[local] Existing Instance Concrete.library.
Local Open Scope string_scope.
Local Open Scope list_scope.

(** X11 at a login that succeeds. *)
Lemma X11_login_ok :
  exists w',
    login "apikey0" (Concrete.start (Concrete.script [Answer 200 login_ok]))
      = (Return tt, w') /\
    session w' = PStr "0123abcd" /\
    List.length (sent w') =
      S (List.length (sent (Concrete.start (Concrete.script [Answer 200 login_ok])))) /\
    forall l, l ∈ dom (heap (Concrete.start (Concrete.script [Answer 200 login_ok]))) ->
      load l w' = load l (Concrete.start (Concrete.script [Answer 200 login_ok])).
Proof.
  apply (X11_login_stores_the_token "apikey0"
           (Concrete.start (Concrete.script [Answer 200 login_ok]))
           200 login_ok
           [("status", PStr "success"); ("session", PStr "0123abcd")]
           (PStr "success") (PStr "0123abcd")).
  - reflexivity.
  - lia.
  - reflexivity.
  - reflexivity.
  - reflexivity.
  - reflexivity.
  - reflexivity.
Defined.

(** X12 at an answer that reports success and carries no token. *)
Lemma X12_login_answer_without_token :
  fst (login "apikey0" (Concrete.start (Concrete.script [Answer 200 job_success])))
    = Raise (RequestError "no session in result") /\
  session (snd (login "apikey0"
                  (Concrete.start (Concrete.script [Answer 200 job_success]))))
    = session (Concrete.start (Concrete.script [Answer 200 job_success])).
Proof.
  apply (X12_login_without_token "apikey0"
           (Concrete.start (Concrete.script [Answer 200 job_success]))
           200 job_success [("status", PStr "success")] (PStr "success") PNone).
  - reflexivity.
  - lia.
  - reflexivity.
  - reflexivity.
  - reflexivity.
  - reflexivity.
  - reflexivity.
Defined.

(** X13 at a status 500. *)
Lemma X13_status_500 :
  fst (sub_status (PInt 1) false
         (Concrete.start (Concrete.script [Answer 500 error_page])))
  = Raise AttributeError.
Proof.
  destruct (X13_callers_fail_on_None
              (Concrete.start (Concrete.script [Answer 500 error_page]))
              500 error_page) as (_ & Hsub & _); [reflexivity|right; lia|].
  apply Hsub.
Defined.

(** X14 at a job that is being solved. *)
Lemma X14_job_solving :
  exists w',
    job_status (PInt 7) false
      (Concrete.start (Concrete.script [Answer 200 job_solving]))
    = (Return (PStr "solving"), w') /\
    List.length (sent w') =
      S (List.length (sent (Concrete.start (Concrete.script [Answer 200 job_solving])))).
Proof.
  apply (X14_job_status_without_success (PInt 7)
           (Concrete.start (Concrete.script [Answer 200 job_solving]))
           200 job_solving [("status", PStr "solving")] (PStr "solving")).
  - reflexivity.
  - lia.
  - reflexivity.
  - reflexivity.
  - reflexivity.
  - reflexivity.
Defined.

End CallerExamples.

(** ** Further properties: what the polling loops return *)

Section MorePollFacts.
Import Py Runtime Client AstrometrySolver Notions.
Context `{Library}.
Local Open Scope string_scope.
Local Open Scope list_scope.

(** What [send_request] returns is [None], after a status outside 2xx, or
    the decoded body of a 2xx answer. *)
Lemma send_request_returns_dict (service : string) (args : loc)
    (file_args : option (string * string)) (w : world) (d : pydict) :
  fst (send_request service args file_args w) = Return (PDict d) ->
  exists code body,
    net w (List.length (sent w)) = Answer code body /\
    (200 <= code < 300)%Z /\
    json_loads body = Some (PDict d).
Proof.
  rewrite send_request_eq. unfold http_reply.
  destruct (net w (List.length (sent w))) as [code body|];
    [|intros Hf; discriminate Hf].
  destruct ((200 <=? code) && (code <? 300))%Z eqn:Hcode;
    [|intros Hf; discriminate Hf].
  apply andb_prop in Hcode as [H1 H2]. apply Z.leb_le in H1. apply Z.ltb_lt in H2.
  unfold handle_reply, json2python, bind, lift, ret, raise.
  destruct (json_loads body) as [v|] eqn:Hjson; [|intros Hf; discriminate Hf].
  destruct (get v "status" PNone) as [stat|e|]; try (intros Hf; discriminate Hf).
  destruct (eq_str stat "error").
  - destruct (get v "errormessage" (PStr "(none)")) as [[]|e|];
      intros Hf; discriminate Hf.
  - cbn [fst]. intros Hf. injection Hf as ->.
    exists code, body. repeat split; assumption.
Qed.

Lemma run_client_select_job_S (rounds : nat) (sub_id : pyval) (w : world) :
  run_client_select_job (S rounds) sub_id w =
  match send_request ("submissions/" +:+ str_of sub_id) default_args None w with
  | (Return stat, w1) =>
      match get stat "jobs" (PList []) with
      | Return jobs =>
          match len jobs with
          | Return n =>
              if negb (Nat.eqb n 0) && negb (is_none (loop_var (items jobs) PNone))
              then (Return (loop_var (items jobs) PNone), w1)
              else run_client_select_job rounds sub_id (with_slept (slept w1 + 5)%Z w1)
          | Raise e => (Raise e, w1)
          | Pending => (Pending, w1)
          end
      | Raise e => (Raise e, w1)
      | Pending => (Pending, w1)
      end
  | (Raise e, w1) => (Raise e, w1)
  | (Pending, w1) => (Pending, w1)
  end.
Proof.
  cbn [run_client_select_job]. unfold bind at 1. unfold sub_status. unfold bind at 1.
  destruct (send_request ("submissions/" +:+ str_of sub_id) default_args None w)
    as [[stat|e|] w1]; try reflexivity.
  unfold ret at 1. unfold bind at 1. unfold lift at 1.
  destruct (get stat "jobs" (PList [])) as [jobs|e|]; try reflexivity.
  unfold bind at 1. unfold lift at 1.
  destruct (len jobs) as [n|e|]; try reflexivity.
  destruct (negb (Nat.eqb n 0) && negb (is_none (loop_var (items jobs) PNone)));
    reflexivity.
Qed.

Lemma loop_var_is_first (js : list pyval) (j0 : pyval) :
  is_none j0 = true ->
  is_none (loop_var js j0) = false ->
  first_non_null js = Some (loop_var js j0).
Proof.
  unfold first_non_null. revert j0.
  induction js as [|x js IH]; intros j0 Hj0 Hsel; cbn [loop_var List.find] in *.
  - rewrite Hj0 in Hsel. discriminate Hsel.
  - destruct (is_none x) eqn:Hx; cbn [negb].
    + apply IH; assumption.
    + reflexivity.
Qed.

(** X15. A job id that the loop of [run_client] selects is never null: it
    is the first entry that is not null of the job list of the last answer
    polled, a 2xx answer with a JSON object. The loop makes one request per
    poll and sleeps five seconds between two polls. *)
Theorem X15_selected_job_is_first_non_null (rounds : nat) (sub_id : pyval) :
  forall (w w' : world) (j : pyval),
    run_client_select_job rounds sub_id w = (Return j, w') ->
    is_none j = false /\
    exists (k : nat) (code : Z) (body : string) (d : pydict) (jobs : pyval),
      List.length (sent w') = (List.length (sent w) + S k)%nat /\
      slept w' = (slept w + 5 * Z.of_nat k)%Z /\
      net w (List.length (sent w) + k)%nat = Answer code body /\
      (200 <= code < 300)%Z /\
      json_loads body = Some (PDict d) /\
      get (PDict d) "jobs" (PList []) = Return jobs /\
      first_non_null (items jobs) = Some j.
Proof.
  induction rounds as [|rounds IH]; intros w w' j Hrun; [discriminate Hrun|].
  rewrite run_client_select_job_S in Hrun.
  pose proof (send_request_returns_dict ("submissions/" +:+ str_of sub_id)
                default_args None w) as Hdict.
  destruct (send_request_frame ("submissions/" +:+ str_of sub_id) default_args None w)
    as (Fnet & _ & _ & _ & Fslept & _).
  pose proof (send_request_sent_length ("submissions/" +:+ str_of sub_id)
                default_args None w) as Flen.
  destruct (send_request ("submissions/" +:+ str_of sub_id) default_args None w)
    as [[stat|e|] w1]; try discriminate Hrun.
  cbn [fst snd] in *.
  destruct (get stat "jobs" (PList [])) as [jobs|e|] eqn:Hjobs; try discriminate Hrun.
  assert (Hd : exists d, stat = PDict d).
  { destruct stat; try discriminate Hjobs. eexists. reflexivity. }
  destruct Hd as [d ->].
  destruct (len jobs) as [n|e|]; try discriminate Hrun.
  destruct (negb (Nat.eqb n 0) && negb (is_none (loop_var (items jobs) PNone)))
    eqn:Hcond.
  - injection Hrun as <- <-.
    apply andb_prop in Hcond as [_ Hsel]. apply negb_true_iff in Hsel.
    split; [exact Hsel|].
    destruct (Hdict d eq_refl) as (code & body & Hnet & Hcode & Hjson).
    exists 0%nat, code, body, d, jobs.
    rewrite Nat.add_0_r, Z.mul_0_r, Z.add_0_r.
    repeat split; try assumption; try lia.
    apply loop_var_is_first; [reflexivity|exact Hsel].
  - destruct (IH _ _ _ Hrun) as (Hj & k & code & body & d' & jobs' &
                                 Hl & Hs & Hn & Hc & Hjs & Hg & Hfirst).
    split; [exact Hj|].
    exists (S k), code, body, d', jobs'.
    cbn [sent slept net with_slept] in Hl, Hs, Hn.
    rewrite Flen in Hl, Hn. rewrite Fnet in Hn. rewrite Fslept in Hs.
    replace (List.length (sent w) + S k)%nat with (S (List.length (sent w)) + k)%nat by lia.
    repeat split; try assumption; lia.
Qed.

End MorePollFacts.

Section SolverPollFacts.
Import Py Runtime Client AstrometrySolver Notions.
Context `{Library}.
Local Open Scope string_scope.
Local Open Scope list_scope.

Lemma wait_for_submission_S (rounds : nat) (sub_id : pyval) (w : world) :
  wait_for_submission (S rounds) sub_id w =
  match requests_get (base_url +:+ "/submissions/" +:+ str_of sub_id) w with
  | (Return response, w1) =>
      match json_loads (text response) with
      | Some result =>
          match get result "processing_finished" PNone with
          | Return pf =>
              if truthy pf then
                match get result "jobs" (PList []) with
                | Return job_ids =>
                    if truthy job_ids then
                      match subscript0 job_ids with
                      | Return first =>
                          if negb (is_none first) then (Return job_ids, w1)
                          else (Return (PList []), w1)
                      | Raise e => (Raise e, w1)
                      | Pending => (Pending, w1)
                      end
                    else (Return (PList []), w1)
                | Raise e => (Raise e, w1)
                | Pending => (Pending, w1)
                end
              else wait_for_submission rounds sub_id (with_slept (slept w1 + 2)%Z w1)
          | Raise e => (Raise e, w1)
          | Pending => (Pending, w1)
          end
      | None => (Raise JSONDecodeError, w1)
      end
  | (Raise e, w1) => (Raise e, w1)
  | (Pending, w1) => (Pending, w1)
  end.
Proof.
  cbn [wait_for_submission]. unfold bind at 1.
  destruct (requests_get (base_url +:+ "/submissions/" +:+ str_of sub_id) w)
    as [[response|e|] w1]; try reflexivity.
  unfold bind at 1. unfold response_json at 1.
  destruct (json_loads (text response)) as [result|]; [|reflexivity].
  unfold ret at 1. unfold bind at 1. unfold lift at 1.
  destruct (get result "processing_finished" PNone) as [pf|e|]; try reflexivity.
  destruct (truthy pf).
  - unfold bind at 1. unfold lift at 1.
    destruct (get result "jobs" (PList [])) as [job_ids|e|]; try reflexivity.
    destruct (truthy job_ids); [|reflexivity].
    unfold bind at 1. unfold lift at 1.
    destruct (subscript0 job_ids) as [first|e|]; try reflexivity.
    destruct (negb (is_none first)); reflexivity.
  - unfold bind at 1. unfold sleep at 1. reflexivity.
Qed.

(** What [requests.get] does to the world. *)
Lemma requests_get_run (url : string) (w : world) :
  requests_get url w =
  (match net w (List.length (sent w)) with
   | Answer code body => Return {| status_code := code; text := body |}
   | Unreachable => Raise ConnectionError
   end,
   with_sent (sent w ++ [{| req_url := url; req_headers := []; req_data := None |}]) w).
Proof.
  unfold requests_get, bind, exchange_with, ret, raise.
  destruct (net w (List.length (sent w))); reflexivity.
Qed.

Lemma wait_for_submission_value (rounds : nat) (sub_id : pyval) :
  forall (w w' : world) (v : pyval),
    wait_for_submission rounds sub_id w = (Return v, w') ->
    exists (k : nat) (code : Z) (body : string) (d : pydict),
      List.length (sent w') = (List.length (sent w) + S k)%nat /\
      slept w' = (slept w + 2 * Z.of_nat k)%Z /\
      net w (List.length (sent w) + k)%nat = Answer code body /\
      json_loads body = Some (PDict d) /\
      (v = PList [] \/
       (get (PDict d) "jobs" (PList []) = Return v /\
        exists first, subscript0 v = Return first /\ is_none first = false)).
Proof.
  induction rounds as [|rounds IH]; intros w w' v Hrun; [discriminate Hrun|].
  rewrite wait_for_submission_S, requests_get_run in Hrun.
  destruct (net w (List.length (sent w))) as [code body|] eqn:Hnet;
    [|discriminate Hrun].
  cbn [text] in Hrun.
  destruct (json_loads body) as [result|] eqn:Hjson; [|discriminate Hrun].
  destruct (get result "processing_finished" PNone) as [pf|e|] eqn:Hpf;
    try discriminate Hrun.
  assert (Hd : exists d, result = PDict d).
  { destruct result; try discriminate Hpf. eexists. reflexivity. }
  destruct Hd as [d ->].
  destruct (truthy pf).
  - assert (Hshape :
      fst (Return v : outcome pyval, w') = Return v /\
      sent w' = sent w ++ [{| req_url := base_url +:+ "/submissions/" +:+ str_of sub_id;
                               req_headers := []; req_data := None |}] /\
      slept w' = slept w /\
      (v = PList [] \/
       (get (PDict d) "jobs" (PList []) = Return v /\
        exists first, subscript0 v = Return first /\ is_none first = false))).
    { destruct (get (PDict d) "jobs" (PList [])) as [job_ids|e|] eqn:Hjobs;
        try discriminate Hrun.
      destruct (truthy job_ids).
      - destruct (subscript0 job_ids) as [first|e|] eqn:Hsub; try discriminate Hrun.
        destruct (is_none first) eqn:Hfirst; cbn [negb] in Hrun;
          injection Hrun as <- <-.
        + split; [reflexivity|]. split; [reflexivity|]. split; [reflexivity|].
          left. reflexivity.
        + split; [reflexivity|]. split; [reflexivity|]. split; [reflexivity|].
          right. split; [reflexivity|]. exists first. split; assumption.
      - injection Hrun as <- <-.
        split; [reflexivity|]. split; [reflexivity|]. split; [reflexivity|].
        left. reflexivity. }
    destruct Hshape as (_ & Hsent & Hslept & Hv).
    exists 0%nat, code, body, d.
    rewrite Nat.add_0_r, Z.mul_0_r, Z.add_0_r, Hsent, length_app. cbn [List.length].
    repeat split; try assumption; try lia.
  - destruct (IH _ _ _ Hrun) as (k & code' & body' & d' & Hl & Hs & Hn & Hj & Hv).
    exists (S k), code', body', d'.
    cbn [sent slept net with_slept with_sent] in Hl, Hs, Hn.
    rewrite length_app in Hl, Hn. cbn [List.length] in Hl, Hn.
    replace (List.length (sent w) + S k)%nat with (List.length (sent w) + 1 + k)%nat by lia.
    repeat split; try assumption; lia.
Qed.

(** X16. What [wait_for_submission] returns is the empty list or the job
    list of the last answer polled, and then the first entry of that list
    is not null. The loop makes one request per poll and sleeps two seconds
    between two polls. *)
Theorem X16_wait_for_submission_result (rounds : nat) (sub_id : pyval)
    (w w' : world) (v : pyval) :
  wait_for_submission rounds sub_id w = (Return v, w') ->
  exists (k : nat) (code : Z) (body : string) (d : pydict),
    List.length (sent w') = (List.length (sent w) + S k)%nat /\
    slept w' = (slept w + 2 * Z.of_nat k)%Z /\
    net w (List.length (sent w) + k)%nat = Answer code body /\
    json_loads body = Some (PDict d) /\
    (v = PList [] \/
     (get (PDict d) "jobs" (PList []) = Return v /\
      exists first, subscript0 v = Return first /\ is_none first = false)).
Proof. apply wait_for_submission_value. Qed.


Lemma wait_for_job_S (rounds : nat) (job_id : pyval) (w : world) :
  wait_for_job (S rounds) job_id w =
  match requests_get (base_url +:+ "/jobs/" +:+ str_of job_id) w with
  | (Return response, w1) =>
      match json_loads (text response) with
      | Some result =>
          match get result "status" PNone with
          | Return status =>
              if eq_str status "success" then (Return true, w1)
              else if eq_str status "failure" then (Return false, w1)
              else wait_for_job rounds job_id (with_slept (slept w1 + 2)%Z w1)
          | Raise e => (Raise e, w1)
          | Pending => (Pending, w1)
          end
      | None => (Raise JSONDecodeError, w1)
      end
  | (Raise e, w1) => (Raise e, w1)
  | (Pending, w1) => (Pending, w1)
  end.
Proof.
  cbn [wait_for_job]. unfold bind at 1.
  destruct (requests_get (base_url +:+ "/jobs/" +:+ str_of job_id) w)
    as [[response|e|] w1]; try reflexivity.
  unfold bind at 1. unfold response_json at 1.
  destruct (json_loads (text response)) as [result|]; [|reflexivity].
  unfold ret at 1. unfold bind at 1. unfold lift at 1.
  destruct (get result "status" PNone) as [status|e|]; try reflexivity.
  destruct (eq_str status "success"); [reflexivity|].
  destruct (eq_str status "failure"); [reflexivity|].
  unfold bind at 1. unfold sleep at 1. reflexivity.
Qed.

(** X18. [wait_for_job] returns only from a poll whose answer has the
    status "success" or "failure": [True] for the first, [False] for the
    second. Every other status, or none, makes it sleep two seconds and poll
    again. *)
Theorem X18_wait_for_job_result (rounds : nat) (job_id : pyval) :
  forall (w w' : world) (b : bool),
    wait_for_job rounds job_id w = (Return b, w') ->
    exists (k : nat) (code : Z) (body : string) (d : pydict) (status : pyval),
      List.length (sent w') = (List.length (sent w) + S k)%nat /\
      slept w' = (slept w + 2 * Z.of_nat k)%Z /\
      net w (List.length (sent w) + k)%nat = Answer code body /\
      json_loads body = Some (PDict d) /\
      get (PDict d) "status" PNone = Return status /\
      eq_str status (if b then "success" else "failure") = true.
Proof.
  induction rounds as [|rounds IH]; intros w w' b Hrun; [discriminate Hrun|].
  rewrite wait_for_job_S, requests_get_run in Hrun.
  destruct (net w (List.length (sent w))) as [code body|] eqn:Hnet;
    [|discriminate Hrun].
  cbn [text] in Hrun.
  destruct (json_loads body) as [result|] eqn:Hjson; [|discriminate Hrun].
  destruct (get result "status" PNone) as [status|e|] eqn:Hstatus;
    try discriminate Hrun.
  assert (Hd : exists d, result = PDict d).
  { destruct result; try discriminate Hstatus. eexists. reflexivity. }
  destruct Hd as [d ->].
  destruct (eq_str status "success") eqn:Hsucc.
  - injection Hrun as <- <-. exists 0%nat, code, body, d, status.
    rewrite Nat.add_0_r, Z.mul_0_r, Z.add_0_r. cbn [sent slept with_sent].
    rewrite length_app. cbn [List.length]. repeat split; try assumption; try lia.
  - destruct (eq_str status "failure") eqn:Hfail.
    + injection Hrun as <- <-. exists 0%nat, code, body, d, status.
      rewrite Nat.add_0_r, Z.mul_0_r, Z.add_0_r. cbn [sent slept with_sent].
      rewrite length_app. cbn [List.length]. repeat split; try assumption; try lia.
    + destruct (IH _ _ _ Hrun) as (k & code' & body' & d' & st' &
                                   Hl & Hs & Hn & Hj & Hg & He).
      exists (S k), code', body', d', st'.
      cbn [sent slept net with_slept with_sent] in Hl, Hs, Hn.
      rewrite length_app in Hl, Hn. cbn [List.length] in Hl, Hn.
      replace (List.length (sent w) + S k)%nat
        with (List.length (sent w) + 1 + k)%nat by lia.
      repeat split; try assumption; lia.
Qed.

End SolverPollFacts.

Section MorePollExamples.
Import Py Runtime Client AstrometrySolver Notions Inputs MoreInputs.
#[local] Existing Instance Concrete.library.
Local Open Scope string_scope.
Local Open Scope list_scope.

(** X15 at a submission whose job appears at the second poll. *)
Lemma X15_job_at_second_poll :
  is_none (PInt 7) = false /\
  exists (k : nat) (code : Z) (body : string) (d : pydict) (jobs : pyval),
    List.length (sent (snd (run_client_select_job 2 (PInt 1) job_appears_at_second_poll)))
      = (List.length (sent job_appears_at_second_poll) + S k)%nat /\
    slept (snd (run_client_select_job 2 (PInt 1) job_appears_at_second_poll))
      = (slept job_appears_at_second_poll + 5 * Z.of_nat k)%Z /\
    net job_appears_at_second_poll
        (List.length (sent job_appears_at_second_poll) + k)%nat = Answer code body /\
    (200 <= code < 300)%Z /\
    json_loads body = Some (PDict d) /\
    get (PDict d) "jobs" (PList []) = Return jobs /\
    first_non_null (items jobs) = Some (PInt 7).
Proof.
  assert (Hrun :
    run_client_select_job 2 (PInt 1) job_appears_at_second_poll =
    (Return (PInt 7), snd (run_client_select_job 2 (PInt 1) job_appears_at_second_poll)))
    by (vm_compute; reflexivity).
  exact (X15_selected_job_is_first_non_null 2 (PInt 1) _ _ _ Hrun).
Defined.

(** X16 at a submission that is finished at the second poll. *)
Lemma X16_finished_at_second_poll :
  exists (k : nat) (code : Z) (body : string) (d : pydict),
    List.length (sent (snd (wait_for_submission 2 (PInt 1) finished_at_second_poll)))
      = (List.length (sent finished_at_second_poll) + S k)%nat /\
    slept (snd (wait_for_submission 2 (PInt 1) finished_at_second_poll))
      = (slept finished_at_second_poll + 2 * Z.of_nat k)%Z /\
    net finished_at_second_poll
        (List.length (sent finished_at_second_poll) + k)%nat = Answer code body /\
    json_loads body = Some (PDict d) /\
    (PList [PInt 7] = PList [] \/
     (get (PDict d) "jobs" (PList []) = Return (PList [PInt 7]) /\
      exists first, subscript0 (PList [PInt 7]) = Return first /\ is_none first = false)).
Proof.
  assert (Hrun :
    wait_for_submission 2 (PInt 1) finished_at_second_poll =
    (Return (PList [PInt 7]),
     snd (wait_for_submission 2 (PInt 1) finished_at_second_poll)))
    by (vm_compute; reflexivity).
  exact (X16_wait_for_submission_result 2 (PInt 1) _ _ _ Hrun).
Defined.


(** X18 at a job that fails at the second poll. *)
Lemma X18_fails_at_second_poll :
  exists (k : nat) (code : Z) (body : string) (d : pydict) (status : pyval),
    List.length (sent (snd (wait_for_job 2 (PInt 7) fails_at_second_poll)))
      = (List.length (sent fails_at_second_poll) + S k)%nat /\
    slept (snd (wait_for_job 2 (PInt 7) fails_at_second_poll))
      = (slept fails_at_second_poll + 2 * Z.of_nat k)%Z /\
    net fails_at_second_poll
        (List.length (sent fails_at_second_poll) + k)%nat = Answer code body /\
    json_loads body = Some (PDict d) /\
    get (PDict d) "status" PNone = Return status /\
    eq_str status "failure" = true.
Proof.
  assert (Hrun :
    wait_for_job 2 (PInt 7) fails_at_second_poll =
    (Return false, snd (wait_for_job 2 (PInt 7) fails_at_second_poll)))
    by (vm_compute; reflexivity).
  exact (X18_wait_for_job_result 2 (PInt 7) _ _ _ Hrun).
Defined.

End MorePollExamples.

(** ** Further properties: waiting for a job in [run_client] *)

Section AwaitFacts.
Import Py Runtime Client Notions.
Context `{Library}.
Local Open Scope string_scope.
Local Open Scope list_scope.

Lemma run_client_await_job_S (rounds : nat) (solved_id : pyval) (w : world) :
  run_client_await_job (S rounds) solved_id w =
  match send_request ("jobs/" +:+ str_of solved_id) default_args None w with
  | (Return stat, w1) =>
      match get stat "status" (PStr EmptyString) with
      | Return st =>
          if eq_str st "success" then (Return true, w1)
          else if eq_str st "failure" then (Raise (SystemExit (-1)), w1)
          else run_client_await_job rounds solved_id (with_slept (slept w1 + 5)%Z w1)
      | Raise e => (Raise e, w1)
      | Pending => (Pending, w1)
      end
  | (Raise e, w1) => (Raise e, w1)
  | (Pending, w1) => (Pending, w1)
  end.
Proof.
  cbn [run_client_await_job]. unfold bind at 1. unfold job_status. cbv zeta.
  unfold bind at 1.
  destruct (send_request ("jobs/" +:+ str_of solved_id) default_args None w)
    as [[stat|e|] w1]; try reflexivity.
  unfold ret at 1. unfold bind at 1. unfold lift at 1.
  destruct (get stat "status" (PStr EmptyString)) as [st|e|]; try reflexivity.
  destruct (eq_str st "success"); [reflexivity|].
  destruct (eq_str st "failure"); [reflexivity|].
  unfold bind at 1. unfold sleep at 1. reflexivity.
Qed.

(** X19. The second loop of [run_client] returns only from a poll whose
    answer has the status "success"; it makes one request per poll and
    sleeps five seconds between two polls. A poll whose answer has the
    status "failure" ends the program with the exit code -1. *)
Theorem X19_run_client_await_job_result (rounds : nat) (solved_id : pyval) :
  (forall (w w' : world) (b : bool),
     run_client_await_job rounds solved_id w = (Return b, w') ->
     b = true /\
     exists (k : nat) (code : Z) (body : string) (d : pydict) (st : pyval),
       List.length (sent w') = (List.length (sent w) + S k)%nat /\
       slept w' = (slept w + 5 * Z.of_nat k)%Z /\
       net w (List.length (sent w) + k)%nat = Answer code body /\
       json_loads body = Some (PDict d) /\
       get (PDict d) "status" (PStr EmptyString) = Return st /\
       eq_str st "success" = true) /\
  (forall (w : world) (code : Z) (body : string) (d : pydict),
     net w (List.length (sent w)) = Answer code body ->
     (200 <= code < 300)%Z ->
     json_loads body = Some (PDict d) ->
     dict_lookup "status" d = Some (PStr "failure") ->
     fst (run_client_await_job (S rounds) solved_id w) = Raise (SystemExit (-1))).
Proof.
  split.
  - induction rounds as [|rounds IH]; intros w w' b Hrun; [discriminate Hrun|].
    rewrite run_client_await_job_S in Hrun.
    pose proof (send_request_returns_dict ("jobs/" +:+ str_of solved_id)
                  default_args None w) as Hdict.
    destruct (send_request_frame ("jobs/" +:+ str_of solved_id) default_args None w)
      as (Fnet & _ & _ & _ & Fslept & _).
    pose proof (send_request_sent_length ("jobs/" +:+ str_of solved_id)
                  default_args None w) as Flen.
    destruct (send_request ("jobs/" +:+ str_of solved_id) default_args None w)
      as [[stat|e|] w1]; try discriminate Hrun.
    cbn [fst snd] in *.
    destruct (get stat "status" (PStr EmptyString)) as [st|e|] eqn:Hst;
      try discriminate Hrun.
    assert (Hd : exists d, stat = PDict d).
    { destruct stat; try discriminate Hst. eexists. reflexivity. }
    destruct Hd as [d ->].
    destruct (eq_str st "success") eqn:Hsucc.
    + injection Hrun as <- <-. split; [reflexivity|].
      destruct (Hdict d eq_refl) as (code & body & Hnet & _ & Hjson).
      exists 0%nat, code, body, d, st.
      rewrite Nat.add_0_r, Z.mul_0_r, Z.add_0_r.
      repeat split; try assumption; try lia.
    + destruct (eq_str st "failure"); [discriminate Hrun|].
      destruct (IH _ _ _ Hrun) as (Hb & k & code & body & d' & st' &
                                   Hl & Hs & Hn & Hj & Hg & He).
      split; [exact Hb|].
      exists (S k), code, body, d', st'.
      cbn [sent slept net with_slept] in Hl, Hs, Hn.
      rewrite Flen in Hl, Hn. rewrite Fnet in Hn. rewrite Fslept in Hs.
      replace (List.length (sent w) + S k)%nat
        with (S (List.length (sent w)) + k)%nat by lia.
      repeat split; try assumption; try lia.
  - intros w code body d Hnet Hcode Hjson Hstat.
    assert (Hget : get (PDict d) "status" PNone = Return (PStr "failure")).
    { cbn [get]. rewrite Hstat. reflexivity. }
    pose proof (send_request_object ("jobs/" +:+ str_of solved_id) default_args None
                  w code body d (PStr "failure") Hnet Hcode Hjson Hget eq_refl) as Hobj.
    rewrite run_client_await_job_S.
    destruct (send_request ("jobs/" +:+ str_of solved_id) default_args None w)
      as [o w1]. cbn [fst] in Hobj. subst o.
    cbn [get]. rewrite Hstat. reflexivity.
Qed.

End AwaitFacts.

Section AwaitExamples.
Import Py Runtime Client Notions Inputs MoreInputs.
#[local] Existing Instance Concrete.library.
Local Open Scope string_scope.
Local Open Scope list_scope.

(** X19 at a job that succeeds at the second poll, and at a job that has
    failed. *)
Lemma X19_succeeds_at_second_poll :
  (true = true /\
   exists (k : nat) (code : Z) (body : string) (d : pydict) (st : pyval),
     List.length (sent (snd (run_client_await_job 2 (PInt 7) succeeds_at_second_poll)))
       = (List.length (sent succeeds_at_second_poll) + S k)%nat /\
     slept (snd (run_client_await_job 2 (PInt 7) succeeds_at_second_poll))
       = (slept succeeds_at_second_poll + 5 * Z.of_nat k)%Z /\
     net succeeds_at_second_poll
         (List.length (sent succeeds_at_second_poll) + k)%nat = Answer code body /\
     json_loads body = Some (PDict d) /\
     get (PDict d) "status" (PStr EmptyString) = Return st /\
     eq_str st "success" = true) /\
  fst (run_client_await_job 1 (PInt 7)
         (Concrete.start (Concrete.script [Answer 200 job_failure])))
  = Raise (SystemExit (-1)).
Proof.
  assert (Hrun :
    run_client_await_job 2 (PInt 7) succeeds_at_second_poll =
    (Return true, snd (run_client_await_job 2 (PInt 7) succeeds_at_second_poll)))
    by (vm_compute; reflexivity).
  split.
  - exact (proj1 (X19_run_client_await_job_result 2 (PInt 7)) _ _ _ Hrun).
  - apply (proj2 (X19_run_client_await_job_result 0 (PInt 7))
             (Concrete.start (Concrete.script [Answer 200 job_failure]))
             200%Z job_failure [("status", PStr "failure")]).
    + reflexivity.
    + lia.
    + vm_compute. reflexivity.
    + reflexivity.
Defined.

End AwaitExamples.

(** ** Further properties: the four requests of fetch_job_info.py *)

Section FetchAllFacts.
Import Py Runtime AstrometrySolver FetchJobInfo Notions MoreNotions.
Context `{Library}.
Local Open Scope string_scope.
Local Open Scope list_scope.

Lemma fetch_and_print_run (url : string) (w : world) :
  fetch_and_print url w =
  (match net w (List.length (sent w)) with
   | Answer _ body =>
       match json_loads body with
       | Some _ => Return tt
       | None => Raise JSONDecodeError
       end
   | Unreachable => Raise ConnectionError
   end,
   with_sent (sent w ++ [get_request url]) w).
Proof.
  unfold fetch_and_print. unfold bind at 1. rewrite requests_get_run.
  destruct (net w (List.length (sent w))) as [code body|]; [|reflexivity].
  unfold bind, response_json. cbn [text].
  destruct (json_loads body); reflexivity.
Qed.

Lemma get_job_info_eq (job_id : pyval) (w : world) :
  get_job_info job_id w = fetch_all (job_info_urls job_id) w.
Proof.
  unfold get_job_info, job_info_urls. cbn [List.map fetch_all].
  unfold bind, ret.
  destruct (fetch_and_print (api +:+ str_of job_id +:+ "/tags") w)
    as [[[]|e|] w1]; try reflexivity.
  destruct (fetch_and_print (api +:+ str_of job_id +:+ "/machine_tags") w1)
    as [[[]|e|] w2]; try reflexivity.
  destruct (fetch_and_print (api +:+ str_of job_id +:+ "/objects_in_field") w2)
    as [[[]|e|] w3]; try reflexivity.
  destruct (fetch_and_print (api +:+ str_of job_id +:+ "/calibration") w3)
    as [[[]|e|] w4]; reflexivity.
Qed.

Lemma fetch_all_decodable (urls : list string) :
  forall w : world,
    (forall i, (i < List.length urls)%nat ->
               decodable (net w (List.length (sent w) + i)%nat) = true) ->
    exists w', fetch_all urls w = (Return tt, w') /\
               sent w' = sent w ++ List.map get_request urls /\
               net w' = net w.
Proof.
  induction urls as [|url rest IH]; intros w Hall.
  - exists w. cbn [fetch_all List.map]. rewrite app_nil_r. repeat split.
  - cbn [fetch_all]. unfold bind at 1. rewrite fetch_and_print_run.
    pose proof (Hall 0%nat ltac:(cbn; lia)) as H0. rewrite Nat.add_0_r in H0.
    unfold decodable in H0.
    destruct (net w (List.length (sent w))) as [code body|]; [|discriminate H0].
    destruct (json_loads body); [|discriminate H0].
    destruct (IH (with_sent (sent w ++ [get_request url]) w)) as (w' & Hrun & Hs & Hn).
    { intros i Hi. cbn [net sent with_sent]. rewrite length_app. cbn [List.length].
      replace (List.length (sent w) + 1 + i)%nat
        with (List.length (sent w) + S i)%nat by lia.
      apply Hall. cbn [List.length]. lia. }
    exists w'. split; [exact Hrun|]. split; [|exact Hn].
    rewrite Hs. cbn [sent with_sent List.map]. rewrite <- app_assoc. reflexivity.
Qed.

Lemma fetch_all_stops (urls : list string) :
  forall (w : world) (k : nat) (code : Z) (body : string),
    (k < List.length urls)%nat ->
    (forall i, (i < k)%nat ->
               decodable (net w (List.length (sent w) + i)%nat) = true) ->
    net w (List.length (sent w) + k)%nat = Answer code body ->
    json_loads body = None ->
    exists w', fetch_all urls w = (Raise JSONDecodeError, w') /\
               sent w' = sent w ++ List.map get_request (firstn (S k) urls).
Proof.
  induction urls as [|url rest IH]; intros w k code body Hk Hall Hnet Hjson.
  - cbn in Hk. lia.
  - cbn [fetch_all]. unfold bind at 1. rewrite fetch_and_print_run.
    destruct k as [|k].
    + rewrite Nat.add_0_r in Hnet. rewrite Hnet, Hjson.
      eexists. split; [reflexivity|]. reflexivity.
    + pose proof (Hall 0%nat ltac:(lia)) as H0. rewrite Nat.add_0_r in H0.
      unfold decodable in H0.
      destruct (net w (List.length (sent w))) as [code0 body0|]; [|discriminate H0].
      destruct (json_loads body0); [|discriminate H0].
      destruct (IH (with_sent (sent w ++ [get_request url]) w) k code body)
        as (w' & Hrun & Hs).
      { cbn [List.length] in Hk. lia. }
      { intros i Hi. cbn [net sent with_sent]. rewrite length_app. cbn [List.length].
        replace (List.length (sent w) + 1 + i)%nat
          with (List.length (sent w) + S i)%nat by lia.
        apply Hall. lia. }
      { cbn [net sent with_sent]. rewrite length_app. cbn [List.length].
        replace (List.length (sent w) + 1 + k)%nat
          with (List.length (sent w) + S k)%nat by lia.
        exact Hnet. }
      { exact Hjson. }
      exists w'. split; [exact Hrun|].
      rewrite Hs. cbn [sent with_sent]. rewrite <- app_assoc. reflexivity.
Qed.

(** X20. [get_job_info] of fetch_job_info.py asks for the tags, the
    machine tags, the objects in the field and the calibration of the job,
    in this order. It looks at no status code: when the four answers have
    JSON bodies it returns after the four requests. At the first answer
    whose body is no JSON it raises the decoding error, and the requests
    after that one are not made. *)
Theorem X20_get_job_info_requests (job_id : pyval) (w : world) :
  ((forall i, (i < 4)%nat ->
              decodable (net w (List.length (sent w) + i)%nat) = true) ->
   exists w', FetchJobInfo.get_job_info job_id w = (Return tt, w') /\
              sent w' = sent w ++ List.map get_request (job_info_urls job_id)) /\
  (forall (k : nat) (code : Z) (body : string),
     (k < 4)%nat ->
     (forall i, (i < k)%nat ->
                decodable (net w (List.length (sent w) + i)%nat) = true) ->
     net w (List.length (sent w) + k)%nat = Answer code body ->
     json_loads body = None ->
     exists w', FetchJobInfo.get_job_info job_id w = (Raise JSONDecodeError, w') /\
                sent w' = sent w ++
                          List.map get_request (firstn (S k) (job_info_urls job_id))).
Proof.
  split.
  - intros Hall. rewrite get_job_info_eq.
    destruct (fetch_all_decodable (job_info_urls job_id) w Hall) as (w' & Hrun & Hs & _).
    exists w'. split; assumption.
  - intros k code body Hk Hall Hnet Hjson. rewrite get_job_info_eq.
    exact (fetch_all_stops (job_info_urls job_id) w k code body Hk Hall Hnet Hjson).
Qed.

End FetchAllFacts.

Section FetchAllExamples.
Import Py Runtime AstrometrySolver FetchJobInfo Notions MoreNotions Inputs MoreInputs.
#[local] Existing Instance Concrete.library.
Local Open Scope string_scope.
Local Open Scope list_scope.

(** X20 at a job whose calibration is answered with the status 500 and a
    JSON body, and at a job whose objects are answered with a page that is
    no JSON. *)
Lemma X20_four_answers :
  (exists w', FetchJobInfo.get_job_info (PInt 7) calibration_refused = (Return tt, w') /\
              sent w' = sent calibration_refused ++
                        List.map get_request (job_info_urls (PInt 7))) /\
  (exists w', FetchJobInfo.get_job_info (PInt 7) objects_not_json
                = (Raise JSONDecodeError, w') /\
              sent w' = sent objects_not_json ++
                        List.map get_request (firstn 3 (job_info_urls (PInt 7)))).
Proof.
  split.
  - apply (proj1 (X20_get_job_info_requests (PInt 7) calibration_refused)).
    intros i Hi.
    destruct i as [|[|[|[|i]]]]; [vm_compute; reflexivity..|lia].
  - apply (proj2 (X20_get_job_info_requests (PInt 7) objects_not_json)
             2%nat 500%Z error_page).
    + lia.
    + intros i Hi. destruct i as [|[|i]]; [vm_compute; reflexivity..|lia].
    + vm_compute. reflexivity.
    + vm_compute. reflexivity.
Defined.

End FetchAllExamples.

(** ** Further properties: the options of an upload *)

Section UploadArgsFacts.
Import Py Runtime Client ClientUpload MoreNotions.
Context `{Library} `{Numbers}.
Local Open Scope string_scope.
Local Open Scope list_scope.

Lemma upload_options_NoDup : NoDup (option_names upload_options).
Proof. apply (bool_decide_unpack _). vm_compute. reflexivity. Qed.

Lemma upload_args_from_lookup
    (table : list (string * option pyval * pytype)) (kwargs : pydict) :
  NoDup (option_names table) ->
  forall args0 args : pydict,
    upload_args_from table kwargs args0 = Return args ->
    (forall k, ~ In k (option_names table) ->
               dict_lookup k args = dict_lookup k args0) /\
    (forall key dflt typ,
       In (key, dflt, typ) table ->
       match dict_lookup key kwargs with
       | Some val => exists v, convert typ val = Return v /\
                               dict_lookup key args = Some v
       | None => dict_lookup key args =
                 match dflt with
                 | Some d => Some d
                 | None => dict_lookup key args0
                 end
       end).
Proof.
  induction table as [|[[key0 dflt0] typ0] rest IH]; intros Hnd args0 args Hrun.
  - injection Hrun as <-. split; [reflexivity|]. intros key dflt typ [].
  - cbn [option_names List.map fst] in Hnd.
    inversion Hnd as [|? ? Hnotin Hnd']; subst.
    rewrite list_elem_of_In in Hnotin. fold (option_names rest) in Hnotin.
    cbn [upload_args_from] in Hrun.
    assert (Hstep : exists args1,
              upload_args_from rest kwargs args1 = Return args /\
              (forall k, k <> key0 -> dict_lookup k args1 = dict_lookup k args0) /\
              match dict_lookup key0 kwargs with
              | Some val => exists v, convert typ0 val = Return v /\
                                      dict_lookup key0 args1 = Some v
              | None => dict_lookup key0 args1 =
                        match dflt0 with
                        | Some d => Some d
                        | None => dict_lookup key0 args0
                        end
              end).
    { destruct (dict_lookup key0 kwargs) as [val|].
      - destruct (convert typ0 val) as [v|e|]; try discriminate Hrun.
        exists (dict_store key0 v args0). split; [exact Hrun|]. split.
        + intros k Hk. apply dict_store_other. exact Hk.
        + exists v. split; [reflexivity|apply dict_store_same].
      - destruct dflt0 as [d|].
        + exists (dict_store key0 d args0). split; [exact Hrun|]. split.
          * intros k Hk. apply dict_store_other. exact Hk.
          * apply dict_store_same.
        + exists args0. split; [exact Hrun|]. split; reflexivity. }
    destruct Hstep as (args1 & Hrest & Hother & Hkey0).
    destruct (IH Hnd' args1 args Hrest) as [IHout IHin].
    split.
    + intros k Hk. cbn [option_names List.map fst In] in Hk.
      rewrite IHout by (intro Hin; apply Hk; right; exact Hin).
      apply Hother. intros ->. apply Hk. left. reflexivity.
    + intros key dflt typ [Heq|Hin].
      * injection Heq as <- <- <-. rewrite (IHout key0 Hnotin). exact Hkey0.
      * assert (Hne : key <> key0).
        { intros ->. apply Hnotin. unfold option_names.
          apply in_map_iff. exists (key0, dflt, typ). split; [reflexivity|exact Hin]. }
        pose proof (IHin key dflt typ Hin) as Hk.
        rewrite (Hother key Hne) in Hk. exact Hk.
Qed.

Lemma get_upload_args_eq (kwargs : pydict) :
  get_upload_args kwargs = upload_args_from upload_options kwargs [].
Proof. unfold get_upload_args. reflexivity. Qed.

(** X21. When [_get_upload_args] returns, its dict holds recognised
    options only. An option given by the caller was converted to the type
    of the table and is held converted; an option not given is held with
    its default, and is absent when the table has no default for it. *)
Theorem X21_upload_args_are_the_recognised_options (kwargs args : pydict) :
  get_upload_args kwargs = Return args ->
  (forall k, ~ In k (option_names upload_options) -> dict_lookup k args = None) /\
  (forall key dflt typ,
     In (key, dflt, typ) upload_options ->
     match dict_lookup key kwargs with
     | Some val => exists v, convert typ val = Return v /\
                             dict_lookup key args = Some v
     | None => dict_lookup key args = dflt
     end).
Proof.
  intros Hrun. rewrite get_upload_args_eq in Hrun.
  destruct (upload_args_from_lookup upload_options kwargs upload_options_NoDup
              [] args Hrun) as [Hout Hin].
  split; [exact Hout|].
  intros key dflt typ Hentry. pose proof (Hin key dflt typ Hentry) as Hk.
  destruct (dict_lookup key kwargs); [exact Hk|].
  rewrite Hk. destruct dflt; reflexivity.
Qed.

End UploadArgsFacts.

Section UploadArgsExamples.
Import Py Runtime Client ClientUpload MoreNotions MoreInputs.
#[local] Existing Instance Concrete.library.
#[local] Existing Instance MoreInputs.numbers.
Local Open Scope string_scope.
Local Open Scope list_scope.

(** X21 at the options of a private upload with a scale and an option
    that the table does not know. *)
Lemma X21_private_upload_with_scale :
  (forall k, ~ In k (option_names upload_options) ->
             dict_lookup k upload_args_of_private_upload = None) /\
  (forall key dflt typ,
     In (key, dflt, typ) upload_options ->
     match dict_lookup key private_upload with
     | Some val => exists v, convert typ val = Return v /\
                             dict_lookup key upload_args_of_private_upload = Some v
     | None => dict_lookup key upload_args_of_private_upload = dflt
     end).
Proof.
  apply X21_upload_args_are_the_recognised_options.
  vm_compute. reflexivity.
Defined.

End UploadArgsExamples.

(** ** Further properties: the upload requests *)

Section UploadFacts.
Import Py Runtime Client ClientUpload MoreNotions.
Context `{Library} `{Numbers}.
Local Open Scope string_scope.
Local Open Scope list_scope.

Lemma dict_lookup_None (k : string) (d : pydict) :
  ~ In k (keys d) -> dict_lookup k d = None.
Proof.
  induction d as [|[k' v'] d IH]; cbn [keys List.map fst dict_lookup In];
    intros Hk; [reflexivity|].
  destruct (String.eqb_spec k k') as [->|Hne]; [exfalso; apply Hk; left; reflexivity|].
  apply IH. intros Hin. apply Hk. right. exact Hin.
Qed.

Lemma dict_store_keys (k k' : string) (v : pyval) (d : pydict) :
  In k' (keys (dict_store k v d)) <-> k' = k \/ In k' (keys d).
Proof.
  induction d as [|[k1 v1] d IH]; cbn [dict_store keys List.map fst In].
  - split; [intros [<-|[]]; left; reflexivity|intros [->|[]]; left; reflexivity].
  - destruct (String.eqb_spec k k1) as [->|Hne]; cbn [List.map fst In].
    + split; [intros Hin; right; exact Hin|].
      intros [->|Hin]; [left; reflexivity|exact Hin].
    + fold (keys (dict_store k v d)). fold (keys d). rewrite IH. tauto.
Qed.

Lemma dict_store_NoDup (k : string) (v : pyval) (d : pydict) :
  List.NoDup (keys d) -> List.NoDup (keys (dict_store k v d)).
Proof.
  induction d as [|[k1 v1] d IH]; cbn [dict_store keys List.map fst]; intros Hnd.
  - constructor; [intros []|constructor].
  - inversion Hnd as [|? ? Hnotin Hnd']; subst.
    destruct (String.eqb_spec k k1) as [->|Hne]; cbn [List.map fst].
    + constructor; assumption.
    + constructor; [|apply IH; exact Hnd'].
      fold (keys (dict_store k v d)). rewrite dict_store_keys.
      intros [->|Hin]; [apply Hne; reflexivity|apply Hnotin; exact Hin].
Qed.

Lemma upload_args_from_NoDup
    (table : list (string * option pyval * pytype)) (kwargs : pydict) :
  forall args0 args : pydict,
    List.NoDup (keys args0) ->
    upload_args_from table kwargs args0 = Return args ->
    List.NoDup (keys args).
Proof.
  induction table as [|[[key0 dflt0] typ0] rest IH]; intros args0 args Hnd Hrun.
  - injection Hrun as <-. exact Hnd.
  - cbn [upload_args_from] in Hrun.
    destruct (dict_lookup key0 kwargs) as [val|].
    + destruct (convert typ0 val) as [v|e|]; try discriminate Hrun.
      exact (IH _ _ (dict_store_NoDup key0 v args0 Hnd) Hrun).
    + destruct dflt0 as [d|].
      * exact (IH _ _ (dict_store_NoDup key0 d args0 Hnd) Hrun).
      * exact (IH _ _ Hnd Hrun).
Qed.

Lemma dict_update_lookup (new : pydict) :
  forall (d : pydict) (k : string),
    List.NoDup (keys new) ->
    dict_lookup k (dict_update d new) =
    match dict_lookup k new with
    | Some v => Some v
    | None => dict_lookup k d
    end.
Proof.
  unfold dict_update.
  induction new as [|[k0 v0] new IH]; intros d k Hnd; [reflexivity|].
  cbn [keys List.map fst] in Hnd. inversion Hnd as [|? ? Hnotin Hnd']; subst.
  cbn [fold_left fst snd dict_lookup]. rewrite (IH _ _ Hnd').
  destruct (String.eqb_spec k k0) as [->|Hne].
  - rewrite (dict_lookup_None k0 new Hnotin). apply dict_store_same.
  - rewrite (dict_store_other k k0 v0 d Hne). reflexivity.
Qed.

Lemma upload_args_recognised (kwargs upload_args : pydict) (k : string) (v : pyval) :
  get_upload_args kwargs = Return upload_args ->
  dict_lookup k upload_args = Some v ->
  In k (option_names upload_options).
Proof.
  intros Hrun Hk. rewrite get_upload_args_eq in Hrun.
  destruct (upload_args_from_lookup upload_options kwargs upload_options_NoDup
              [] upload_args Hrun) as [Hout _].
  destruct (In_dec string_dec k (option_names upload_options)) as [Hin|Hnot];
    [exact Hin|].
  rewrite (Hout k Hnot) in Hk. discriminate Hk.
Qed.

Lemma url_is_no_option : ~ In "url" (option_names upload_options).
Proof.
  rewrite <- list_elem_of_In. apply (bool_decide_unpack _). vm_compute. reflexivity.
Qed.

Lemma session_is_no_option : ~ In "session" (option_names upload_options).
Proof.
  rewrite <- list_elem_of_In. apply (bool_decide_unpack _). vm_compute. reflexivity.
Qed.

Lemma url_upload_eq (url : pyval) (kwargs : pydict) (w : world) :
  url_upload url kwargs w =
  let args := fresh (dom (heap w)) in
  let w1 := with_heap (<[args := [("url", url)]]> (heap w)) w in
  match get_upload_args kwargs with
  | Return upload_args =>
      send_request "url_upload" args None
        (with_heap (<[args := dict_update (load args w1) upload_args]> (heap w1)) w1)
  | Raise e => (Raise e, w1)
  | Pending => (Pending, w1)
  end.
Proof.
  unfold url_upload, bind, new_dict, lift, update_in_place. cbv zeta.
  destruct (get_upload_args kwargs); reflexivity.
Qed.

(** X22. [url_upload] builds a new dict object with the url and the
    upload options and makes one request to url_upload with it, encoded as
    a form: the dict holds the url under url, which no option can replace,
    and every upload option with its value; the dict objects that exist
    before the call are left as they are. When an option cannot be
    converted the error is raised before any request is sent. *)
Theorem X22_url_upload_request (url : pyval) (kwargs : pydict) (w : world) :
  let args := fresh (dom (heap w)) in
  let w' := snd (url_upload url kwargs w) in
  match get_upload_args kwargs with
  | Return upload_args =>
      sent w' = sent w ++
                [{| req_url := get_url "url_upload";
                    req_headers := [];
                    req_data := Some (urlencode [("request-json",
                                                  python2json (load args w'))]) |}] /\
      dict_lookup "url" (load args w') = Some url /\
      (forall k v, dict_lookup k upload_args = Some v ->
                   dict_lookup k (load args w') = Some v) /\
      (forall l, l <> args -> load l w' = load l w)
  | Raise e => fst (url_upload url kwargs w) = Raise e /\ sent w' = sent w
  | Pending => fst (url_upload url kwargs w) = Pending /\ sent w' = sent w
  end.
Proof.
  cbv zeta. rewrite url_upload_eq. cbv zeta.
  set (args := fresh (dom (heap w))).
  set (w1 := with_heap (<[args := [("url", url)]]> (heap w)) w).
  destruct (get_upload_args kwargs) as [upload_args|e|] eqn:Hargs;
    [|split; reflexivity..].
  assert (Hload1 : load args w1 = [("url", url)]).
  { unfold load, w1. cbn [heap with_heap]. rewrite lookup_insert_eq. reflexivity. }
  rewrite Hload1.
  set (w2 := with_heap (<[args := dict_update [("url", url)] upload_args]> (heap w1)) w1).
  assert (Hload2 : load args w2 = dict_update [("url", url)] upload_args).
  { unfold load, w2. cbn [heap with_heap]. rewrite lookup_insert_eq. reflexivity. }
  assert (Hnd : List.NoDup (keys upload_args)).
  { rewrite get_upload_args_eq in Hargs.
    exact (upload_args_from_NoDup upload_options kwargs [] upload_args
             (List.NoDup_nil _) Hargs). }
  assert (Hafter : load args (snd (send_request "url_upload" args None w2)) =
                   if is_none (session w2) then load args w2
                   else dict_store "session" (session w2) (load args w2)).
  { rewrite load_after_send_request. apply load_inject_session. }
  assert (Hkeep : forall k, k <> "session" ->
            dict_lookup k (load args (snd (send_request "url_upload" args None w2))) =
            dict_lookup k (dict_update [("url", url)] upload_args)).
  { intros k Hk. rewrite Hafter, Hload2.
    destruct (is_none (session w2)); [reflexivity|].
    apply dict_store_other. exact Hk. }
  split; [|split; [|split]].
  - destruct (send_request_frame "url_upload" args None w2) as (_ & Hsent & _).
    destruct (inject_session_frame args w2) as (_ & Isent & _ & _ & _ & Irnd).
    rewrite Hsent. rewrite load_after_send_request.
    unfold build_request. cbn [encode]. reflexivity.
  - rewrite Hkeep by discriminate. rewrite (dict_update_lookup _ _ _ Hnd).
    destruct (dict_lookup "url" upload_args) as [v|] eqn:Hurl; [|reflexivity].
    exfalso. exact (url_is_no_option (upload_args_recognised _ _ _ _ Hargs Hurl)).
  - intros k v Hk.
    rewrite Hkeep.
    + rewrite (dict_update_lookup _ _ _ Hnd), Hk. reflexivity.
    + intros ->.
      exact (session_is_no_option (upload_args_recognised _ _ _ _ Hargs Hk)).
  - intros l Hl. rewrite load_after_send_request.
    rewrite (load_inject_session_other args l w2 Hl).
    unfold load, w2, w1. cbn [heap with_heap].
    rewrite !lookup_insert_ne by (intros Heq; apply Hl; symmetry; exact Heq).
    reflexivity.
Qed.

Lemma upload_eq (fn : option string) (kwargs : pydict) (w : world) :
  upload fn kwargs w =
  let args := fresh (dom (heap w)) in
  match get_upload_args kwargs with
  | Return upload_args =>
      let w1 := with_heap (<[args := upload_args]> (heap w)) w in
      match fn with
      | None =>
          (Ran (fst (send_request "upload" args None w1)),
           snd (send_request "upload" args None w1))
      | Some name =>
          match files w !! name with
          | Some content =>
              (Ran (fst (send_request "upload" args (Some (name, content)) w1)),
               snd (send_request "upload" args (Some (name, content)) w1))
          | None => (IOError, w1)
          end
      end
  | Raise e => (Ran (Raise e), w)
  | Pending => (Ran Pending, w)
  end.
Proof.
  unfold upload, new_dict. cbv zeta.
  destruct (get_upload_args kwargs) as [upload_args|e|]; [|reflexivity..].
  destruct fn as [name|].
  - cbn [files with_heap]. destruct (files w !! name) as [content|]; [|reflexivity].
    destruct (send_request "upload" _ (Some (name, content)) _). reflexivity.
  - destruct (send_request "upload" _ None _). reflexivity.
Qed.

Lemma upload_request (fa : option (string * string)) (upload_args : pydict) (w : world) :
  let args := fresh (dom (heap w)) in
  let w1 := with_heap (<[args := upload_args]> (heap w)) w in
  let w' := snd (send_request "upload" args fa w1) in
  sent w' = sent w ++
            [{| req_url := get_url "upload";
                req_headers := fst (encode (python2json (load args w')) fa
                                      (rnd w (List.length (sent w))));
                req_data := Some (snd (encode (python2json (load args w')) fa
                                         (rnd w (List.length (sent w))))) |}] /\
  (forall k v, dict_lookup k upload_args = Some v -> k <> "session" ->
               dict_lookup k (load args w') = Some v).
Proof.
  cbv zeta.
  set (args := fresh (dom (heap w))).
  set (w1 := with_heap (<[args := upload_args]> (heap w)) w).
  assert (Hload1 : load args w1 = upload_args).
  { unfold load, w1. cbn [heap with_heap]. rewrite lookup_insert_eq. reflexivity. }
  split.
  - destruct (send_request_frame "upload" args fa w1) as (_ & Hsent & _).
    destruct (inject_session_frame args w1) as (_ & Isent & _ & _ & _ & Irnd).
    rewrite Hsent, load_after_send_request.
    unfold build_request. rewrite Isent, Irnd.
    destruct (encode _ fa _). reflexivity.
  - intros k v Hk Hne. rewrite load_after_send_request, load_inject_session, Hload1.
    destruct (is_none (session w1)); [exact Hk|].
    rewrite (dict_store_other k "session" _ _ Hne). exact Hk.
Qed.

(** X23. [upload] opens the file before it sends anything: when the file
    cannot be read it ends with the [IOError] and no request is made.
    Otherwise it makes one request to upload, with a new dict object that
    holds the upload options; with a file the request is a multipart form
    that carries the file name and the file content, without one it is a
    form without a content type. An option that cannot be converted raises
    before any request. *)
Theorem X23_upload_request (fn : option string) (kwargs : pydict) (w : world) :
  let args := fresh (dom (heap w)) in
  let w' := snd (upload fn kwargs w) in
  let boundary := "===============" +:+ rnd w (List.length (sent w)) +:+ "==" in
  match get_upload_args kwargs with
  | Return upload_args =>
      match fn with
      | Some name =>
          match files w !! name with
          | None => fst (upload fn kwargs w) = IOError /\ sent w' = sent w
          | Some content =>
              (exists o, fst (upload fn kwargs w) = Ran o) /\
              (forall k v, dict_lookup k upload_args = Some v ->
                           dict_lookup k (load args w') = Some v) /\
              sent w' = sent w ++
                [{| req_url := get_url "upload";
                    req_headers :=
                      [("Content-Type",
                        "multipart/form-data; boundary=" +:+ DQ +:+ boundary +:+ DQ)];
                    req_data := Some (multipart_body boundary
                                        (python2json (load args w'))
                                        (name, content)) |}]
          end
      | None =>
          (exists o, fst (upload fn kwargs w) = Ran o) /\
          (forall k v, dict_lookup k upload_args = Some v ->
                       dict_lookup k (load args w') = Some v) /\
          sent w' = sent w ++
            [{| req_url := get_url "upload";
                req_headers := [];
                req_data := Some (urlencode [("request-json",
                                              python2json (load args w'))]) |}]
      end
  | Raise e => fst (upload fn kwargs w) = Ran (Raise e) /\ sent w' = sent w
  | Pending => fst (upload fn kwargs w) = Ran Pending /\ sent w' = sent w
  end.
Proof.
  cbv zeta. rewrite upload_eq. cbv zeta.
  destruct (get_upload_args kwargs) as [upload_args|e|] eqn:Hargs;
    [|split; reflexivity..].
  assert (Hsession : forall k v, dict_lookup k upload_args = Some v -> k <> "session").
  { intros k v Hk ->.
    exact (session_is_no_option (upload_args_recognised _ _ _ _ Hargs Hk)). }
  destruct fn as [name|].
  - destruct (files w !! name) as [content|]; [|split; reflexivity].
    destruct (upload_request (Some (name, content)) upload_args w) as [Hsent Hkeep].
    cbn [fst snd encode] in *.
    split; [eexists; reflexivity|]. split; [|exact Hsent].
    intros k v Hk. exact (Hkeep k v Hk (Hsession k v Hk)).
  - destruct (upload_request None upload_args w) as [Hsent Hkeep].
    cbn [fst snd encode] in *.
    split; [eexists; reflexivity|]. split; [|exact Hsent].
    intros k v Hk. exact (Hkeep k v Hk (Hsession k v Hk)).
Qed.

(** X24. After an exchange with a status outside 2xx, [myjobs] fails on
    the [None] of [send_request] with [TypeError], as it subscripts it,
    and [submission_images] with [AttributeError], as it calls its method
    [get]. *)
Theorem X24_myjobs_and_images_fail_on_None (w : world) (code : Z) (body : string) :
  net w (List.length (sent w)) = Answer code body ->
  (code < 200 \/ 300 <= code)%Z ->
  fst (myjobs w) = Raise TypeError /\
  (forall subid, fst (submission_images subid w) = Raise AttributeError).
Proof.
  intros Hnet Hcode. split.
  - destruct (send_request_failure_None "myjobs/" default_args None w code body
                Hnet Hcode) as [Hnone _].
    unfold myjobs, bind.
    destruct (send_request "myjobs/" default_args None w) as [o w1].
    cbn [fst] in *. subst o. reflexivity.
  - intros subid.
    set (args := fresh (dom (heap w))).
    set (w1 := with_heap (<[args := [("subid", subid)]]> (heap w)) w).
    destruct (send_request_failure_None "submission_images" args None w1 code body
                Hnet Hcode) as [Hnone _].
    unfold submission_images, bind, new_dict. fold args. fold w1.
    destruct (send_request "submission_images" args None w1) as [o w2].
    cbn [fst] in *. subst o. reflexivity.
Qed.

(** X25. On an answer with a status in 2xx whose body is a JSON object
    without the status error, [myjobs] returns the entry jobs of the object
    and raises [KeyError] when there is none, while [submission_images]
    returns the entry image_ids and [None] when there is none. *)
Theorem X25_myjobs_and_images_entries
    (w : world) (code : Z) (body : string) (d : pydict) (stat : pyval) :
  net w (List.length (sent w)) = Answer code body ->
  (200 <= code < 300)%Z ->
  json_loads body = Some (PDict d) ->
  get (PDict d) "status" PNone = Return stat ->
  eq_str stat "error" = false ->
  fst (myjobs w) = match dict_lookup "jobs" d with
                   | Some jobs => Return jobs
                   | None => Raise KeyError
                   end /\
  (forall subid,
     fst (submission_images subid w) =
     Return (match dict_lookup "image_ids" d with
             | Some ids => ids
             | None => PNone
             end)).
Proof.
  intros Hnet Hcode Hjson Hstat Herr. split.
  - pose proof (send_request_object "myjobs/" default_args None w code body d stat
                  Hnet Hcode Hjson Hstat Herr) as Hobj.
    unfold myjobs, bind.
    destruct (send_request "myjobs/" default_args None w) as [o w1].
    cbn [fst] in *. subst o. unfold lift. cbn [subscript].
    destruct (dict_lookup "jobs" d); reflexivity.
  - intros subid.
    set (args := fresh (dom (heap w))).
    set (w1 := with_heap (<[args := [("subid", subid)]]> (heap w)) w).
    pose proof (send_request_object "submission_images" args None w1 code body d stat
                  Hnet Hcode Hjson Hstat Herr) as Hobj.
    unfold submission_images, bind, new_dict. fold args. fold w1.
    destruct (send_request "submission_images" args None w1) as [o w2].
    cbn [fst] in *. subst o. unfold lift. cbn [get].
    destruct (dict_lookup "image_ids" d); reflexivity.
Qed.

End UploadFacts.

Section UploadExamples.
Import Py Runtime Client ClientUpload MoreNotions Inputs MoreInputs.
#[local] Existing Instance Concrete.library.
#[local] Existing Instance MoreInputs.numbers.
Local Open Scope string_scope.
Local Open Scope list_scope.

Example upload_of_a_missing_file :
  fst (upload (Some "missing.png") private_upload
         (with_image (Concrete.script [Answer 200 job_success]))) = IOError.
Proof. vm_compute. reflexivity. Qed.

Example upload_of_an_image :
  List.map req_headers
    (sent (snd (upload (Some "refined_image.png") private_upload
                  (with_image (Concrete.script [Answer 200 job_success]))))) =
  [[("Content-Type",
     "multipart/form-data; boundary=" +:+ DQ +:+
     "===============0000000000000000000==" +:+ DQ)]].
Proof. vm_compute. reflexivity. Qed.

Example url_upload_with_a_bad_scale :
  url_upload (PStr "http://example.org/m42.png") [("scale_lower", PList [PInt 1])]
    (Concrete.start (Concrete.script [Answer 200 job_success])) =
  (Raise TypeError,
   with_heap (<[fresh (dom (heap (Concrete.start (Concrete.script [])))) :=
                  [("url", PStr "http://example.org/m42.png")]]>
                (heap (Concrete.start (Concrete.script []))))
     (Concrete.start (Concrete.script [Answer 200 job_success]))).
Proof. vm_compute. reflexivity. Qed.

(** X22 at a url with the options of a private upload. *)
Lemma X22_private_url_upload :
  dict_lookup "url"
    (load (fresh (dom (heap (Concrete.start (Concrete.script [Answer 200 job_success])))))
       (snd (url_upload (PStr "http://example.org/m42.png") private_upload
               (Concrete.start (Concrete.script [Answer 200 job_success])))))
  = Some (PStr "http://example.org/m42.png") /\
  dict_lookup "publicly_visible"
    (load (fresh (dom (heap (Concrete.start (Concrete.script [Answer 200 job_success])))))
       (snd (url_upload (PStr "http://example.org/m42.png") private_upload
               (Concrete.start (Concrete.script [Answer 200 job_success])))))
  = Some (PStr "n").
Proof.
  pose proof (X22_url_upload_request (PStr "http://example.org/m42.png") private_upload
                (Concrete.start (Concrete.script [Answer 200 job_success]))) as Hrq.
  cbv zeta in Hrq.
  assert (Hargs : get_upload_args private_upload = Return upload_args_of_private_upload)
    by (vm_compute; reflexivity).
  rewrite Hargs in Hrq. destruct Hrq as (_ & Hurl & Hkeep & _).
  split; [exact Hurl|]. apply Hkeep. reflexivity.
Defined.

(** X23 at an image that is on the disk and at one that is not. *)
Lemma X23_image_and_missing_file :
  (exists o,
     fst (upload (Some "refined_image.png") private_upload
            (with_image (Concrete.script [Answer 200 job_success]))) = Ran o) /\
  (fst (upload (Some "missing.png") private_upload
          (with_image (Concrete.script [Answer 200 job_success]))) = IOError /\
   sent (snd (upload (Some "missing.png") private_upload
                (with_image (Concrete.script [Answer 200 job_success]))))
   = sent (with_image (Concrete.script [Answer 200 job_success]))).
Proof.
  assert (Hargs : get_upload_args private_upload = Return upload_args_of_private_upload)
    by (vm_compute; reflexivity).
  split.
  - pose proof (X23_upload_request (Some "refined_image.png") private_upload
                  (with_image (Concrete.script [Answer 200 job_success]))) as Hrq.
    cbv zeta in Hrq. rewrite Hargs in Hrq.
    assert (Hfile : files (with_image (Concrete.script [Answer 200 job_success]))
                      !! "refined_image.png" = Some "PNGDATA")
      by (vm_compute; reflexivity).
    rewrite Hfile in Hrq. exact (proj1 Hrq).
  - pose proof (X23_upload_request (Some "missing.png") private_upload
                  (with_image (Concrete.script [Answer 200 job_success]))) as Hrq.
    cbv zeta in Hrq. rewrite Hargs in Hrq.
    assert (Hfile : files (with_image (Concrete.script [Answer 200 job_success]))
                      !! "missing.png" = None)
      by (vm_compute; reflexivity).
    rewrite Hfile in Hrq. exact Hrq.
Defined.

(** X24 at a status 500. *)
Lemma X24_status_500 :
  fst (myjobs (Concrete.start (Concrete.script [Answer 500 error_page])))
    = Raise TypeError /\
  (forall subid,
     fst (submission_images subid
            (Concrete.start (Concrete.script [Answer 500 error_page])))
     = Raise AttributeError).
Proof.
  apply (X24_myjobs_and_images_fail_on_None
           (Concrete.start (Concrete.script [Answer 500 error_page]))
           500 error_page).
  - reflexivity.
  - right. lia.
Defined.

(** X25 at an answer that lists two jobs and no image. *)
Lemma X25_two_jobs_listed :
  fst (myjobs (Concrete.start (Concrete.script [Answer 200 jobs_listed])))
    = Return (PList [PInt 7; PInt 9]) /\
  (forall subid,
     fst (submission_images subid
            (Concrete.start (Concrete.script [Answer 200 jobs_listed])))
     = Return PNone).
Proof.
  apply (X25_myjobs_and_images_entries
           (Concrete.start (Concrete.script [Answer 200 jobs_listed]))
           200 jobs_listed
           [("status", PStr "success"); ("jobs", PList [PInt 7; PInt 9])]
           (PStr "success")).
  - reflexivity.
  - lia.
  - vm_compute. reflexivity.
  - reflexivity.
  - reflexivity.
Defined.

End UploadExamples.
